(** * Ladder & Reverse Pyramid Planner: the core calculations of [src/App.jsx]

    The three planning functions [ladderPlan], [rpPercentPlan] and
    [rpFixedDropPlan] and their rounding helpers, embedded over an interface of
    JavaScript numbers.  The interface has two instances:

    - [Exact.num]: NaN, the two infinities and the rationals, with exact
      arithmetic on finite values (no binary rounding, no absorption, no
      overflow, one zero).  It idealises what the source computes.
    - [binary64]: IEEE-754 binary64 through the Standard Library's
      [SpecFloat], which computes concrete inputs the way an engine does.

    What depends on control flow alone (the loops, the final single, the
    empty plans, the rows as the loops compute them) is proved for any
    instance, doubles included.  What depends on arithmetic is proved over
    [Exact.num], and stated with doubles in mind: such a theorem either only
    compares numbers and uses monotone steps, or it bounds the magnitudes
    (10^9, and 10^6 where tonnages are summed, 2^53 for rep counts) and
    leaves room for the rounding of doubles (1.250001 for 1.25, 0.005001 for
    0.005).  Beyond the bounds doubles do differ from exact arithmetic; the
    inputs at which they do are replayed on [binary64]. *)

From Stdlib Require Import QArith Qround Qabs ZArith List Sorted Lia Lqa Bool String Ascii.
From Stdlib Require Import Floats.SpecFloat.
Import ListNotations.

Set Implicit Arguments.

(** ** JavaScript numbers *)

Declare Scope js_scope.
Delimit Scope js_scope with js.

(** The operations on numbers the source uses. *)
Class Number (N : Type) : Type := {
  lit : Q -> N;                 (* a numeric literal *)
  nan : N;                      (* NaN *)
  infinity : N;                 (* Infinity *)
  add : N -> N -> N;
  sub : N -> N -> N;
  mul : N -> N -> N;
  div : N -> N -> N;
  lt : N -> N -> bool;          (* a < b *)
  le : N -> N -> bool;          (* a <= b *)
  strict_eq : N -> N -> bool;   (* a === b *)
  isNaN : N -> bool;
  Math_floor : N -> N;
  Math_round : N -> N;
  Math_abs : N -> N
}.

Arguments lit {N _} q%_Q.

Notation "a + b" := (add a b) : js_scope.
Notation "a - b" := (sub a b) : js_scope.
Notation "a * b" := (mul a b) : js_scope.
Notation "a / b" := (div a b) : js_scope.
Notation "a <? b" := (lt a b) : js_scope.
Notation "a <=? b" := (le a b) : js_scope.
Notation "a >? b" := (lt b a) : js_scope.
Notation "a >=? b" := (le b a) : js_scope.
Notation "a === b" := (strict_eq a b) (at level 70, no associativity) : js_scope.
Notation "a !== b" := (negb (strict_eq a b)) (at level 70, no associativity) : js_scope.

(** *** Exact numbers *)

Module Exact.

Local Open Scope Q_scope.

Inductive num : Type :=
| NaN
| PInf
| NInf
| Fin (q : Q).

Definition neg (a : num) : num :=
  match a with
  | NaN => NaN
  | PInf => NInf
  | NInf => PInf
  | Fin q => Fin (- q)
  end.

Definition add (a b : num) : num :=
  match a, b with
  | NaN, _ | _, NaN => NaN
  | PInf, NInf | NInf, PInf => NaN
  | PInf, _ | _, PInf => PInf
  | NInf, _ | _, NInf => NInf
  | Fin x, Fin y => Fin (x + y)
  end.

Definition sub (a b : num) : num := add a (neg b).

(** The infinity of the sign of [q], or NaN for zero (Infinity * 0). *)
Definition signed_inf (positive : bool) (q : Q) : num :=
  match q ?= 0 with
  | Eq => NaN
  | Gt => if positive then PInf else NInf
  | Lt => if positive then NInf else PInf
  end.

Definition mul (a b : num) : num :=
  match a, b with
  | NaN, _ | _, NaN => NaN
  | PInf, PInf | NInf, NInf => PInf
  | PInf, NInf | NInf, PInf => NInf
  | PInf, Fin q | Fin q, PInf => signed_inf true q
  | NInf, Fin q | Fin q, NInf => signed_inf false q
  | Fin x, Fin y => Fin (x * y)
  end.

(** There is one zero, taken as +0: x / 0 has the sign of x. *)
Definition div (a b : num) : num :=
  match a, b with
  | NaN, _ | _, NaN => NaN
  | PInf, Fin q => if Qle_bool 0 q then PInf else NInf
  | NInf, Fin q => if Qle_bool 0 q then NInf else PInf
  | Fin _, PInf | Fin _, NInf => Fin 0
  | Fin x, Fin y =>
      if Qeq_bool y 0 then
        match x ?= 0 with Eq => NaN | Gt => PInf | Lt => NInf end
      else Fin (x / y)
  | _, _ => NaN
  end.

Definition le (a b : num) : bool :=
  match a, b with
  | NaN, _ | _, NaN => false
  | NInf, _ | _, PInf => true
  | PInf, _ | _, NInf => false
  | Fin x, Fin y => Qle_bool x y
  end.

Definition lt (a b : num) : bool :=
  match a, b with
  | NaN, _ | _, NaN => false
  | PInf, _ | _, NInf => false
  | NInf, _ | _, PInf => true
  | Fin x, Fin y => negb (Qle_bool y x)
  end.

Definition strict_eq (a b : num) : bool :=
  match a, b with
  | PInf, PInf | NInf, NInf => true
  | Fin x, Fin y => Qeq_bool x y
  | _, _ => false
  end.

Definition isNaN (a : num) : bool :=
  match a with NaN => true | _ => false end.

Definition floor (a : num) : num :=
  match a with Fin q => Fin (inject_Z (Qfloor q)) | _ => a end.

(** Math.round: the nearest integer, halves towards +Infinity. *)
Definition qround (q : Q) : Q := inject_Z (Qfloor (q + (1 # 2))).

Definition round (a : num) : num :=
  match a with Fin q => Fin (qround q) | _ => a end.

(** What [roundToNearest2point5] and [round2] compute on a rational. *)
Definition qround25 (q : Q) : Q := qround (q / 2.5) * 2.5.
Definition qround2 (q : Q) : Q :=
  qround ((q + (1 # 4503599627370496)) * 100) / 100.

Definition abs (a : num) : num :=
  match a with
  | NaN => NaN
  | PInf | NInf => PInf
  | Fin q => Fin (Qabs q)
  end.

(** Finite values in lowest terms, for displaying results. *)
Definition canon (a : num) : num :=
  match a with Fin q => Fin (Qred q) | _ => a end.

End Exact.

#[export] Instance exact : Number Exact.num := {|
  lit := Exact.Fin;
  nan := Exact.NaN;
  infinity := Exact.PInf;
  add := Exact.add;
  sub := Exact.sub;
  mul := Exact.mul;
  div := Exact.div;
  lt := Exact.lt;
  le := Exact.le;
  strict_eq := Exact.strict_eq;
  isNaN := Exact.isNaN;
  Math_floor := Exact.floor;
  Math_round := Exact.round;
  Math_abs := Exact.abs
|}.

(** *** IEEE-754 binary64 *)

Module Binary64.

Local Open Scope Z_scope.

Definition prec : Z := 53.
Definition emax : Z := 1024.

Definition of_Z (z : Z) : spec_float := binary_normalize prec emax z 0 false.

(** A literal [n/d]: the double nearest to the quotient. *)
Definition of_Q (q : Q) : spec_float :=
  SFdiv prec emax (of_Z (Qnum q)) (of_Z (Zpos (Qden q))).

Definition isNaN (x : spec_float) : bool :=
  match x with S754_nan => true | _ => false end.

(** The integer floor(m * 2^e + h/2) for h = 0 (floor) or h = 1 (round),
    with m signed and e negative. *)
Definition shift_floor (h : Z) (m : Z) (e : Z) : Z :=
  Z.div (2 * m + h * 2 ^ (- e)) (2 ^ (- e + 1)).

Definition to_integer (h : Z) (x : spec_float) : spec_float :=
  match x with
  | S754_finite s m e =>
      if 0 <=? e then x
      else
        let z := shift_floor h (cond_Zopp s (Zpos m)) e in
        if z =? 0 then S754_zero s else of_Z z
  | _ => x
  end.

Definition floor : spec_float -> spec_float := to_integer 0.
Definition round : spec_float -> spec_float := to_integer 1.

(** The value of a double as an exact number, in lowest terms. *)
Definition to_exact (x : spec_float) : Exact.num :=
  match x with
  | S754_zero _ => Exact.Fin 0
  | S754_infinity s => if s then Exact.NInf else Exact.PInf
  | S754_nan => Exact.NaN
  | S754_finite s m e =>
      Exact.Fin (Qred (inject_Z (cond_Zopp s (Zpos m)) * Qpower 2 e))
  end.

End Binary64.

#[export] Instance binary64 : Number spec_float := {|
  lit := Binary64.of_Q;
  nan := S754_nan;
  infinity := S754_infinity false;
  add := SFadd Binary64.prec Binary64.emax;
  sub := SFsub Binary64.prec Binary64.emax;
  mul := SFmul Binary64.prec Binary64.emax;
  div := SFdiv Binary64.prec Binary64.emax;
  lt := SFltb;
  le := SFleb;
  strict_eq := SFeqb;
  isNaN := Binary64.isNaN;
  Math_floor := Binary64.floor;
  Math_round := Binary64.round;
  Math_abs := SFabs
|}.

(** ** Data model *)

(** What a [reps] property holds: a number (ladder and fixed-drop rows), a
    string such as "3+" (percent rows), or undefined (a fixed-drop row of an
    empty rep scheme). *)
Inductive Value (N : Type) : Type :=
| Undefined
| Num (n : N)
| Str (s : string).

Arguments Undefined {N}.
Arguments Num {N} n.
Arguments Str {N} s.

(** The [note] template literals, with the interpolated number kept as a
    number: [Percent n] is `${n}%`, [DropKg d] is `−${d} kg`. *)
Inductive Note (N : Type) : Type :=
| Percent (n : N)
| DropKg (d : N).

Arguments Percent {N} n.
Arguments DropKg {N} d.

(** A row object; an absent property is [None]. *)
Record SetRow (N : Type) : Type := {
  weight : N;
  reps : Value N;
  note : option (Note N);
  external : option N
}.

Record StartPoint (N : Type) : Type := {
  start_weight : N;
  start_reps : N
}.

(** A property that can hold null. *)
Inductive Nullable (A : Type) : Type :=
| null
| val (a : A).

Arguments null {A}.
Arguments val {A} a.

(** A plan object; an absent property is [None]. *)
Record Plan (N : Type) : Type := {
  sets : list (SetRow N);
  tonnage : N;
  start : option (Nullable (StartPoint N));
  topSingle : option (Nullable N);
  heavyReps : option N
}.

(** The state of the ladder-building loop. *)
Record LadderState (N : Type) : Type := {
  l_sets : list (SetRow N);
  l_reps : N;
  l_w : N;
  l_guard : nat
}.

(** ** The calculations *)

Section Planner.

Context {N : Type} {number : Number N}.

Local Open Scope js_scope.

Definition neg_infinity : N := lit 0 - infinity.

Definition Number_EPSILON : N := lit (1 # 4503599627370496).

(** [Number.isFinite(n)] *)
Definition Number_isFinite (n : N) : bool :=
  negb (isNaN n) && (neg_infinity <? n) && (n <? infinity).

(** [!n] is false. *)
Definition truthy (n : N) : bool := negb (isNaN n || (n === lit 0)).

(** [Math.max] and [Math.min] of two numbers: NaN as soon as one is NaN (the
    two zeros are not told apart). *)
Definition Math_max (a b : N) : N :=
  if isNaN a || isNaN b then nan else if a <? b then b else a.

Definition Math_min (a b : N) : N :=
  if isNaN a || isNaN b then nan else if b <? a then b else a.

(** [a || b] on numbers. *)
Definition or_else (a b : N) : N := if truthy a then a else b.

(** The number a value converts to in arithmetic; the strings of this
    program ("1+" ... "5+") are not numerals and convert to NaN. *)
Definition toNumber (v : Value N) : N :=
  match v with
  | Num n => n
  | Undefined => nan
  | Str _ => nan
  end.

(** *** Utils *)

Definition round2 (n : N) : N :=
  Math_round ((n + Number_EPSILON) * lit 100) / lit 100.

Definition roundToNearest2point5 (n : N) : N :=
  Math_round (n / lit 2.5) * lit 2.5.

(** *** parseInt on the rep strings: optional sign, then decimal digits *)

Definition digit (c : ascii) : option Z :=
  let n := Z.of_nat (nat_of_ascii c) in
  if ((48 <=? n) && (n <=? 57))%Z then Some (n - 48)%Z else None.

Fixpoint digits (s : string) (acc : option Z) : option Z :=
  match s with
  | EmptyString => acc
  | String c rest =>
      match digit c with
      | Some d =>
          digits rest (Some (match acc with Some a => 10 * a + d | None => d end)%Z)
      | None => acc
      end
  end.

Definition parseInt_string (s : string) : N :=
  let signed (positive : bool) (rest : string) : N :=
    match digits rest None with
    | Some z => lit (inject_Z (if positive then z else - z))
    | None => nan
    end in
  match s with
  | String "-"%char rest => signed false rest
  | String "+"%char rest => signed true rest
  | _ => signed true s
  end.

Definition parseInt (v : Value N) : N :=
  match v with
  | Str s => parseInt_string s
  | _ => nan
  end.

(** *** Default lift configs *)

Definition BAR : N := lit 20.

(** *** ladderPlan *)

Definition default_startRepCap : N := lit 12.
Definition default_bodyweight : N := lit 80.

Definition rung (w reps : N) : SetRow N :=
  {| weight := roundToNearest2point5 w; reps := Num reps;
     note := None; external := None |}.

(** The start point: [(startReps, startWeight)]. *)
Definition ladderStart (targetTop increment startRepCap : N) (isPullup : bool)
  : N * N :=
  if isPullup then
    let maxRungsFromZero := Math_floor (lit 1 + targetTop / increment) in
    let startReps := Math_max (lit 1) (Math_min startRepCap maxRungsFromZero) in
    let startWeight := targetTop - increment * (startReps - lit 1) in
    let startWeight := if startWeight <? lit 0 then lit 0 else startWeight in
    (startReps, startWeight)
  else
    let base := BAR in
    let rawR0 := lit 1 + (targetTop - base) / increment in
    let r0Rounded := Math_round rawR0 in
    if (r0Rounded <=? startRepCap) && (r0Rounded >=? lit 1) then
      (r0Rounded, base)
    else
      let startReps := startRepCap in
      let startWeight := targetTop - increment * (startReps - lit 1) in
      if startWeight <? BAR then
        let startWeight := BAR in
        let startReps :=
          Math_max (lit 1)
            (Math_min startRepCap
               (lit 1 + Math_floor ((targetTop - startWeight) / increment))) in
        (startReps, startWeight)
      else (startReps, startWeight).

(** The condition of the while loop. *)
Definition ladderCond (targetTop : N) (s : LadderState N) : bool :=
  (l_reps s >=? lit 1) && (l_w s <=? targetTop + lit 1e-6)
  && (l_guard s <? 400)%nat.

(** Its body. *)
Definition ladderBody (increment : N) (s : LadderState N) : LadderState N :=
  {| l_sets := l_sets s ++ [rung (l_w s) (l_reps s)];
     l_reps := l_reps s - lit 1;
     l_w := l_w s + increment;
     l_guard := S (l_guard s) |}.

(** The while loop, for at most [fuel] iterations. *)
Fixpoint ladderLoop (fuel : nat) (targetTop increment : N) (s : LadderState N)
  : LadderState N :=
  match fuel with
  | O => s
  | S fuel' =>
      if ladderCond targetTop s
      then ladderLoop fuel' targetTop increment (ladderBody increment s)
      else s
  end.

(** The rows the loop pushes, from the state [(reps, w, guard)]. *)
Fixpoint rungs (fuel : nat) (targetTop increment reps w : N) (guard : nat)
  : list (SetRow N) :=
  match fuel with
  | O => []
  | S fuel' =>
      if (reps >=? lit 1) && (w <=? targetTop + lit 1e-6) && (guard <? 400)%nat
      then rung w reps
             :: rungs fuel' targetTop increment (reps - lit 1) (w + increment)
                  (S guard)
      else []
  end.

(** The loop as [ladderPlan] runs it: the guard stops it within 400
    iterations (see [ladderRun_exits]). *)
Definition ladderRun (targetTop increment startReps startWeight : N)
  : LadderState N :=
  ladderLoop 400 targetTop increment
    {| l_sets := []; l_reps := startReps; l_w := startWeight; l_guard := 0 |}.

(** [sets[sets.length - 1]], undefined ([None]) for the empty list. *)
Definition lastRow (sets : list (SetRow N)) : option (SetRow N) :=
  nth_error sets (List.length sets - 1).

(** [s.reps === n] *)
Definition repsIs (s : SetRow N) (n : N) : bool :=
  match reps s with
  | Num r => r === n
  | _ => false
  end.

(** [a.reps >= b.reps] on numeric reps. *)
Definition repsGe (a b : SetRow N) : bool :=
  match reps a, reps b with
  | Num x, Num y => x >=? y
  | _, _ => false
  end.

(** [b.reps] is [a.reps - 1] as the loop computes it. *)
Definition repsPred (a b : SetRow N) : Prop :=
  match reps a, reps b with
  | Num x, Num y => y = x - lit 1
  | _, _ => False
  end.

(** [b] has exactly one rep fewer than [a]: [b.reps] is [a.reps - 1], and
    that is less than [a.reps].  It is not less when the subtraction changes
    nothing: [Infinity - 1] is [Infinity], and on doubles [x - 1] is [x]
    above 2^53. *)
Definition oneRepFewer (a b : SetRow N) : Prop :=
  match reps a, reps b with
  | Num x, Num y => y = x - lit 1 /\ (y <? x) = true
  | _, _ => False
  end.

(** [s.external < 0]: the row shows assistance. *)
Definition assisted (s : SetRow N) : bool :=
  match external s with
  | Some e => e <? lit 0
  | None => false
  end.

(** "Ensure final single at targetTop". *)
Definition ensureFinalSingle (targetTop : N) (sets : list (SetRow N))
  : list (SetRow N) :=
  let push := sets ++ [rung targetTop (lit 1)] in
  match lastRow sets with
  | None => push
  | Some last =>
      if (Math_abs (weight last - targetTop) >? lit 2.5)
         || negb (repsIs last (lit 1))
      then if targetTop >? weight last then push else sets
      else sets
  end.

Definition ladderTonnage (sets : list (SetRow N)) : N :=
  fold_left (fun sum s => sum + weight s * toNumber (reps s)) sets (lit 0).

Definition setExternal (bodyweight : N) (s : SetRow N) : SetRow N :=
  {| weight := weight s; reps := reps s; note := note s;
     external := Some (round2 (weight s - bodyweight)) |}.

(** [{ sets: [], tonnage: 0, start: null }] *)
Definition emptyLadderPlan : Plan N :=
  {| sets := []; tonnage := lit 0; start := Some null;
     topSingle := None; heavyReps := None |}.

Definition ladderPlan (dailyMax increment startRepCap : N) (isPullup : bool)
  (bodyweight : N) : Plan N :=
  if negb (truthy dailyMax) || negb (truthy increment) then emptyLadderPlan
  else
    let targetTop := dailyMax in
    let '(startReps, startWeight) :=
      ladderStart targetTop increment startRepCap isPullup in
    let sets := l_sets (ladderRun targetTop increment startReps startWeight) in
    let sets := ensureFinalSingle targetTop sets in
    let tonnage := round2 (ladderTonnage sets) in
    let sets := if isPullup then map (setExternal bodyweight) sets else sets in
    {| sets := sets;
       tonnage := tonnage;
       start := Some (val {| start_weight := roundToNearest2point5 startWeight;
                             start_reps := startReps |});
       topSingle := None; heavyReps := None |}.

(** *** rpPercentPlan *)

Definition percentScheme : list (N * string) :=
  [ (lit 0.9, "1+"%string);
    (lit 0.85, "2+"%string);
    (lit 0.8, "3+"%string);
    (lit 0.75, "4+"%string);
    (lit 0.7, "5+"%string) ].

Definition percentRow (dailyMax : N) (s : N * string) : SetRow N :=
  {| weight := roundToNearest2point5 (fst s * dailyMax);
     reps := Str (snd s);
     note := Some (Percent (Math_round (fst s * lit 100)));
     external := None |}.

(** [{ sets: [], tonnage: 0, heavyReps: 0 }] *)
Definition emptyPercentPlan : Plan N :=
  {| sets := []; tonnage := lit 0; start := None;
     topSingle := None; heavyReps := Some (lit 0) |}.

Definition rpPercentPlan (dailyMax : N) : Plan N :=
  if negb (truthy dailyMax) then emptyPercentPlan
  else
    let sets := map (percentRow dailyMax) percentScheme in
    let tonnage :=
      round2 (fold_left
                (fun a b => a + weight b * or_else (parseInt (reps b)) (lit 0))
                sets (lit 0)) in
    let heavyReps :=
      fold_left (fun a b => a + or_else (parseInt (reps b)) (lit 0))
        (filter (fun s => weight s >=? lit 0.8 * dailyMax) sets) (lit 0) in
    {| sets := sets; tonnage := tonnage; start := None;
       topSingle := None; heavyReps := Some heavyReps |}.

(** *** rpFixedDropPlan *)

Definition default_drop : N := lit 10.
Definition default_sets : Z := 4.
Definition default_repScheme : list N := [lit 3; lit 5; lit 7; lit 9].

(** [repScheme[i] ?? repScheme[repScheme.length - 1]] *)
Definition schemeReps (repScheme : list N) (i : nat) : Value N :=
  match nth_error repScheme i with
  | Some r => Num r
  | None =>
      match nth_error repScheme (List.length repScheme - 1) with
      | Some r => Num r
      | None => Undefined
      end
  end.

Definition dropRow (drop w : N) (reps : Value N) : SetRow N :=
  {| weight := roundToNearest2point5 w; reps := reps;
     note := Some (DropKg drop); external := None |}.

(** The for loop from index [i] with [remaining] iterations left before
    [i < sets] fails. *)
Fixpoint dropLoop (remaining : nat) (drop : N) (repScheme : list N)
  (i : nat) (w : N) (rows : list (SetRow N)) : list (SetRow N) :=
  match remaining with
  | O => rows
  | S remaining' =>
      let w := w - drop in
      if w <=? lit 0 then rows
      else
        let reps := schemeReps repScheme i in
        dropLoop remaining' drop repScheme (S i) w (rows ++ [dropRow drop w reps])
  end.

(** The running weight after [i] drops from the top single, in closed form:
    [topSingle - i * drop]. *)
Definition runningWeight (topSingle drop : N) (i : nat) : N :=
  topSingle - lit (inject_Z (Z.of_nat i)) * drop.

(** The running weight as the loop computes it: [i] subtractions of [drop]. *)
Definition iteratedWeight (topSingle drop : N) (i : nat) : N :=
  Nat.iter i (fun w => w - drop) topSingle.

(** [{ topSingle: null, sets: [], tonnage: 0 }] *)
Definition emptyDropPlan : Plan N :=
  {| sets := []; tonnage := lit 0; start := None;
     topSingle := Some null; heavyReps := None |}.

(** [sets] is an integer count: the loop runs while [i < sets]. *)
Definition rpFixedDropPlan (dailyMax drop : N) (sets : Z) (repScheme : list N)
  : Plan N :=
  if negb (truthy dailyMax) then emptyDropPlan
  else
    let topSingle := roundToNearest2point5 (lit 0.95 * dailyMax) in
    let rows := dropLoop (Z.to_nat sets) drop repScheme 0 topSingle [] in
    let tonnage :=
      round2 (topSingle * lit 1
              + fold_left (fun a b => a + weight b * toNumber (reps b))
                  rows (lit 0)) in
    {| sets := rows; tonnage := tonnage; start := None;
       topSingle := Some (val topSingle); heavyReps := None |}.

End Planner.

(** ** Reading results *)

Section Reading.

Context {N M : Type} (f : N -> M).

Definition mapValue (v : Value N) : Value M :=
  match v with
  | Undefined => Undefined
  | Num n => Num (f n)
  | Str s => Str s
  end.

Definition mapNote (n : Note N) : Note M :=
  match n with
  | Percent p => Percent (f p)
  | DropKg d => DropKg (f d)
  end.

Definition mapRow (r : SetRow N) : SetRow M :=
  {| weight := f (weight r); reps := mapValue (reps r);
     note := option_map mapNote (note r);
     external := option_map f (external r) |}.

Definition mapNullable {A B : Type} (g : A -> B) (x : Nullable A) : Nullable B :=
  match x with
  | null => null
  | val a => val (g a)
  end.

Definition mapStart (p : StartPoint N) : StartPoint M :=
  {| start_weight := f (start_weight p); start_reps := f (start_reps p) |}.

Definition mapPlan (p : Plan N) : Plan M :=
  {| sets := map mapRow (sets p);
     tonnage := f (tonnage p);
     start := option_map (mapNullable mapStart) (start p);
     topSingle := option_map (mapNullable f) (topSingle p);
     heavyReps := option_map f (heavyReps p) |}.

End Reading.

(** A barbell ladder row [{weight: w, reps: r}]. *)
Definition row (w r : Q) : SetRow Exact.num :=
  {| weight := Exact.Fin w; reps := Num (Exact.Fin r);
     note := None; external := None |}.

(** A fixed-drop row [{weight: w, reps: r, note: `−${d} kg`}]. *)
Definition backoff (w r d : Q) : SetRow Exact.num :=
  {| weight := Exact.Fin w; reps := Num (Exact.Fin r);
     note := Some (DropKg (Exact.Fin d)); external := None |}.

(** ** Facts about exact numbers *)

Module ExactFacts.

Import Exact.
Local Open Scope Q_scope.

Lemma Qle_bool_false (x y : Q) : Qle_bool x y = false <-> y < x.
Proof.
  split; intros H.
  - apply Qnot_le_lt. intros Hle. apply Qle_bool_iff in Hle. congruence.
  - destruct (Qle_bool x y) eqn:E; [|reflexivity].
    apply Qle_bool_iff in E. exfalso. apply (Qlt_not_le _ _ H E).
Qed.

Lemma Qeq_bool_false (x y : Q) : Qeq_bool x y = false <-> ~ x == y.
Proof.
  split; intros H.
  - now apply Qeq_bool_neq.
  - destruct (Qeq_bool x y) eqn:E; [|reflexivity].
    apply Qeq_bool_iff in E. contradiction.
Qed.

Lemma Qcompare_cases (x y : Q) :
  (x ?= y) = Lt /\ x < y \/ (x ?= y) = Eq /\ x == y \/ (x ?= y) = Gt /\ y < x.
Proof.
  destruct (x ?= y) eqn:E.
  - right; left. split; [reflexivity|]. now apply Qeq_alt.
  - left. split; [reflexivity|]. now apply Qlt_alt.
  - right; right. split; [reflexivity|]. now apply Qgt_alt.
Qed.

(** Linear arithmetic with divisions by constants: the inverses of literals
    are computed first (the literal [1e-6] is read as [1 / 10 ^ 6]). *)
Ltac qinv_lit :=
  repeat match goal with
    | H : context [Qinv (Qmake ?a ?b)] |- _ =>
        let v := eval vm_compute in (Qinv (Qmake a b)) in
        change (Qinv (Qmake a b)) with v in H
    | |- context [Qinv (Qmake ?a ?b)] =>
        let v := eval vm_compute in (Qinv (Qmake a b)) in
        change (Qinv (Qmake a b)) with v
    end.

Ltac qlra := unfold Qdiv in *; qinv_lit; lra.

Lemma qround_lower (q : Q) : q - (1 # 2) < qround q.
Proof.
  unfold qround. pose proof (Qlt_floor (q + (1 # 2))) as H.
  rewrite inject_Z_plus in H. change (inject_Z 1) with 1 in H. lra.
Qed.

Lemma qround_upper (q : Q) : qround q <= q + (1 # 2).
Proof. unfold qround. apply Qfloor_le. Qed.

Lemma qround_mono (x y : Q) : x <= y -> qround x <= qround y.
Proof.
  intros H. unfold qround. rewrite <- Zle_Qle. apply Qfloor_resp_le. lra.
Qed.

Lemma qround_Z (z : Z) : qround (inject_Z z) = inject_Z z.
Proof.
  unfold qround. f_equal.
  pose proof (Qfloor_le (inject_Z z + (1 # 2))) as Hl.
  pose proof (Qlt_floor (inject_Z z + (1 # 2))) as Hu.
  set (k := Qfloor (inject_Z z + (1 # 2))) in *.
  assert (H1 : inject_Z k < inject_Z (z + 1)).
  { rewrite inject_Z_plus. change (inject_Z 1) with 1. lra. }
  assert (H2 : inject_Z z < inject_Z (k + 1)) by lra.
  rewrite <- Zlt_Qlt in H1, H2. lia.
Qed.

Lemma qround25_lower (q : Q) : q - 1.25 < qround25 q.
Proof. unfold qround25. pose proof (qround_lower (q / 2.5)). qlra. Qed.

Lemma qround25_upper (q : Q) : qround25 q <= q + 1.25.
Proof. unfold qround25. pose proof (qround_upper (q / 2.5)). qlra. Qed.

Lemma qround25_mono (x y : Q) : x <= y -> qround25 x <= qround25 y.
Proof.
  intros H. unfold qround25.
  assert (Hm : qround (x / 2.5) <= qround (y / 2.5)) by (apply qround_mono; qlra).
  lra.
Qed.

Lemma qround25_comp (x y : Q) : x == y -> qround25 x == qround25 y.
Proof.
  intros H. apply Qle_antisym; apply qround25_mono; lra.
Qed.

(** A plate-rounded weight rounds to itself. *)
Lemma qround25_idem (q : Q) : qround25 (qround25 q) == qround25 q.
Proof.
  unfold qround25 at 1 3.
  assert (E : qround25 q / 2.5 == inject_Z (Qfloor (q / 2.5 + (1 # 2)))).
  { unfold qround25, qround. field. }
  assert (E' : qround (qround25 q / 2.5) == qround (inject_Z (Qfloor (q / 2.5 + (1 # 2))))).
  { apply Qle_antisym; apply qround_mono; qlra. }
  rewrite E', qround_Z. reflexivity.
Qed.

Lemma qround_strict (x y : Q) : x + 1 <= y -> qround x < qround y.
Proof.
  intros H. pose proof (qround_upper x). pose proof (qround_lower y). lra.
Qed.

Lemma qround25_strict (x y : Q) : x + 2.5 <= y -> qround25 x < qround25 y.
Proof.
  intros H. unfold qround25.
  assert (Hs : qround (x / 2.5) < qround (y / 2.5)) by (apply qround_strict; qlra).
  lra.
Qed.

End ExactFacts.

(** ** Lists *)

Lemma Forall_forallb {A : Type} (f : A -> bool) (l : list A) :
  Forall (fun x => f x = true) l <-> forallb f l = true.
Proof.
  rewrite Forall_forall, forallb_forall. reflexivity.
Qed.

Lemma Exists_existsb {A : Type} (f : A -> bool) (l : list A) :
  Exists (fun x => f x = true) l <-> existsb f l = true.
Proof.
  rewrite Exists_exists, existsb_exists. reflexivity.
Qed.

(** Adjacent elements are related by [f]. *)
Fixpoint sortedb {A : Type} (f : A -> A -> bool) (l : list A) : bool :=
  match l with
  | [] => true
  | a :: l' =>
      match l' with
      | [] => true
      | b :: _ => f a b && sortedb f l'
      end
  end.

Lemma Sorted_sortedb {A : Type} (f : A -> A -> bool) (l : list A) :
  Sorted (fun a b => f a b = true) l <-> sortedb f l = true.
Proof.
  induction l as [|a l IH]; [split; auto|].
  destruct l as [|b l].
  - split; auto.
  - change (sortedb f (a :: b :: l)) with (f a b && sortedb f (b :: l)).
    rewrite andb_true_iff, <- IH. split.
    + intros H. apply Sorted_inv in H. destruct H as [Hs Hr].
      apply HdRel_inv in Hr. auto.
    + intros [Hr Hs]. auto.
  Qed.

(** ** The loops, for any numbers *)

Section LadderLoop.

Context {N : Type} {number : Number N}.

Local Open Scope js_scope.

Lemma ladderLoop_sets (fuel : nat) (targetTop increment : N) (s : LadderState N) :
  l_sets (ladderLoop fuel targetTop increment s)
  = l_sets s ++ rungs fuel targetTop increment (l_reps s) (l_w s) (l_guard s).
Proof.
  revert s. induction fuel as [|fuel IH]; intros s; simpl.
  - now rewrite app_nil_r.
  - unfold ladderCond.
    destruct ((l_reps s >=? lit 1) && (l_w s <=? targetTop + lit 1e-6)
              && (l_guard s <? 400)%nat).
    + rewrite IH. simpl. now rewrite <- app_assoc.
    + now rewrite app_nil_r.
Qed.

(** The loop counts its iterations in [guard]. *)
Lemma ladderLoop_guard (fuel : nat) (targetTop increment : N) (s : LadderState N) :
  (l_guard (ladderLoop fuel targetTop increment s)
   = l_guard s + List.length (rungs fuel targetTop increment (l_reps s) (l_w s) (l_guard s)))%nat.
Proof.
  revert s. induction fuel as [|fuel IH]; intros s; simpl.
  - lia.
  - unfold ladderCond.
    destruct ((l_reps s >=? lit 1) && (l_w s <=? targetTop + lit 1e-6)
              && (l_guard s <? 400)%nat).
    + rewrite IH. simpl. lia.
    + simpl. lia.
Qed.

(** The 400 iterations given to the loop are enough: it stops because its
    condition fails. *)
Lemma ladderLoop_exits (fuel : nat) (targetTop increment : N) (s : LadderState N) :
  (l_guard s + fuel = 400)%nat ->
  ladderCond targetTop (ladderLoop fuel targetTop increment s) = false.
Proof.
  revert s. induction fuel as [|fuel IH]; intros s Hg; simpl.
  - unfold ladderCond. replace (l_guard s) with 400%nat by lia.
    now rewrite andb_false_r.
  - destruct (ladderCond targetTop s) eqn:E; [|exact E].
    apply IH. simpl. lia.
Qed.

Lemma ladderRun_exits (targetTop increment startReps startWeight : N) :
  ladderCond targetTop (ladderRun targetTop increment startReps startWeight) = false.
Proof. apply ladderLoop_exits. reflexivity. Qed.

Lemma ladderLoop_S (fuel : nat) (targetTop increment : N) (s : LadderState N) :
  ladderLoop (S fuel) targetTop increment s
  = if ladderCond targetTop s
    then ladderLoop fuel targetTop increment (ladderBody increment s)
    else s.
Proof. reflexivity. Qed.

(** The counter is the number of rows pushed. *)
Lemma ladderRun_guard_length (targetTop increment startReps startWeight : N) :
  l_guard (ladderRun targetTop increment startReps startWeight)
  = List.length (l_sets (ladderRun targetTop increment startReps startWeight)).
Proof.
  unfold ladderRun. rewrite ladderLoop_guard, ladderLoop_sets. reflexivity.
Qed.

Lemma ladderRun_sets (targetTop increment startReps startWeight : N) :
  l_sets (ladderRun targetTop increment startReps startWeight)
  = rungs 400 targetTop increment startReps startWeight 0.
Proof. unfold ladderRun. now rewrite ladderLoop_sets. Qed.

(** An invariant [I] of the loop state that makes every pushed row satisfy
    [P]. *)
Lemma rungs_Forall (I : N -> N -> Prop) (P : SetRow N -> Prop)
  (targetTop increment : N) :
  (forall reps w,
      I reps w -> (reps >=? lit 1) = true -> (w <=? targetTop + lit 1e-6) = true ->
      P (rung w reps) /\ I (reps - lit 1) (w + increment)) ->
  forall fuel reps w guard,
    I reps w -> Forall P (rungs fuel targetTop increment reps w guard).
Proof.
  intros Hstep. induction fuel as [|fuel IH]; intros reps w guard HI; simpl.
  - constructor.
  - destruct (reps >=? lit 1) eqn:Hr; simpl; [|constructor].
    destruct (w <=? targetTop + lit 1e-6) eqn:Hw; simpl; [|constructor].
    destruct (guard <? 400)%nat; [|constructor].
    destruct (Hstep reps w HI Hr Hw) as [HP HI'].
    constructor; [exact HP|]. now apply IH.
Qed.

(** With fewer than two reps left the loop pushes at most one row. *)
Lemma rungs_short (fuel : nat) (targetTop increment reps w : N) (guard : nat) :
  (reps - lit 1 >=? lit 1) = false ->
  rungs fuel targetTop increment reps w guard = []
  \/ (w <=? targetTop + lit 1e-6) = true
     /\ rungs fuel targetTop increment reps w guard = [rung w reps].
Proof.
  intros Hr. destruct fuel as [|fuel]; simpl; [now left|].
  destruct (reps >=? lit 1); simpl; [|now left].
  destruct (w <=? targetTop + lit 1e-6); simpl; [|now left].
  destruct (guard <? 400)%nat; [|now left].
  right. split; [reflexivity|].
  destruct fuel as [|fuel]; simpl; [reflexivity|].
  now rewrite Hr.
Qed.

Lemma lastRow_app (l : list (SetRow N)) (x : SetRow N) :
  lastRow (l ++ [x]) = Some x.
Proof.
  unfold lastRow. rewrite length_app. simpl.
  replace (List.length l + 1 - 1)%nat with (List.length l + 0)%nat by lia.
  now rewrite nth_error_app2, Nat.add_0_r, Nat.sub_diag by lia.
Qed.

Lemma lastRow_nil_inv (l : list (SetRow N)) : lastRow l = None -> l = [].
Proof.
  destruct l as [|x l]; [reflexivity|]. unfold lastRow. intros H.
  apply nth_error_None in H. simpl in H. lia.
Qed.

Lemma lastRow_In (l : list (SetRow N)) (x : SetRow N) : lastRow l = Some x -> In x l.
Proof. unfold lastRow. apply nth_error_In. Qed.

(** The final step returns the rows unchanged or with the single at
    [targetTop] appended. *)
Lemma ensureFinalSingle_cases (targetTop : N) (l : list (SetRow N)) :
  ensureFinalSingle targetTop l = l /\ l <> []
  \/ ensureFinalSingle targetTop l = l ++ [rung targetTop (lit 1)].
Proof.
  unfold ensureFinalSingle. destruct (lastRow l) as [x|] eqn:E.
  - assert (l <> []) by (intros ->; discriminate).
    destruct (_ || _); [destruct (targetTop >? weight x)|]; auto.
  - now right.
Qed.

Lemma ensureFinalSingle_nonempty (targetTop : N) (l : list (SetRow N)) :
  ensureFinalSingle targetTop l <> [].
Proof.
  destruct (ensureFinalSingle_cases targetTop l) as [[-> H]| ->]; [exact H|].
  now destruct l.
Qed.

Lemma ensureFinalSingle_Forall (P : SetRow N -> Prop) (targetTop : N)
  (l : list (SetRow N)) :
  Forall P l -> P (rung targetTop (lit 1)) -> Forall P (ensureFinalSingle targetTop l).
Proof.
  intros Hl Hx.
  destruct (ensureFinalSingle_cases targetTop l) as [[-> _]| ->]; [exact Hl|].
  apply Forall_app. split; [exact Hl|]. now constructor.
Qed.

Lemma lastRow_cons (a b : SetRow N) (l : list (SetRow N)) :
  lastRow (a :: b :: l) = lastRow (b :: l).
Proof. unfold lastRow. cbn [List.length]. now rewrite !Nat.sub_succ, !Nat.sub_0_r. Qed.

Lemma Sorted_snoc (R : SetRow N -> SetRow N -> Prop) (l : list (SetRow N))
  (x : SetRow N) :
  Sorted R l -> (forall y, lastRow l = Some y -> R y x) -> Sorted R (l ++ [x]).
Proof.
  induction l as [|a l IH]; intros Hs Hl.
  - repeat constructor.
  - apply Sorted_inv in Hs. destruct Hs as [Hs Hr]. destruct l as [|b l].
    + cbn. repeat constructor. now apply Hl.
    + cbn [app]. constructor.
      * apply IH; [exact Hs|]. intros y Hy. apply Hl. now rewrite lastRow_cons.
      * constructor. now apply HdRel_inv in Hr.
Qed.

Lemma Sorted_map_rows (R R' : SetRow N -> SetRow N -> Prop)
  (f : SetRow N -> SetRow N) (l : list (SetRow N)) :
  (forall a b, R a b -> R' (f a) (f b)) -> Sorted R l -> Sorted R' (map f l).
Proof.
  intros Hf Hs. induction Hs as [|a l Hs IH Hr]; cbn; constructor; [exact IH|].
  destruct Hr; cbn; constructor. now apply Hf.
Qed.

(** The single at [targetTop] is pushed only above the last weight. *)
Lemma ensureFinalSingle_push (targetTop : N) (l : list (SetRow N)) :
  ensureFinalSingle targetTop l = l
  \/ ensureFinalSingle targetTop l = l ++ [rung targetTop (lit 1)]
     /\ (forall y, lastRow l = Some y -> (targetTop >? weight y) = true).
Proof.
  unfold ensureFinalSingle. destruct (lastRow l) as [x|] eqn:E.
  - destruct (_ || _); [|now left].
    destruct (targetTop >? weight x) eqn:Ht; [right|now left].
    split; [reflexivity|]. intros y Hy. now inversion Hy; subst.
  - right. split; [reflexivity|]. intros y Hy. discriminate.
Qed.

(** A relation between each row pushed and the next. *)
Lemma rungs_Sorted (R : SetRow N -> SetRow N -> Prop) (targetTop increment : N) :
  (forall reps w,
      (reps >=? lit 1) = true -> (w <=? targetTop + lit 1e-6) = true ->
      (reps - lit 1 >=? lit 1) = true ->
      (w + increment <=? targetTop + lit 1e-6) = true ->
      R (rung w reps) (rung (w + increment) (reps - lit 1))) ->
  forall fuel reps w guard, Sorted R (rungs fuel targetTop increment reps w guard).
Proof.
  intros Hstep. induction fuel as [|fuel IH]; intros reps w guard; simpl.
  - constructor.
  - destruct (reps >=? lit 1) eqn:Hr; simpl; [|constructor].
    destruct (w <=? targetTop + lit 1e-6) eqn:Hw; simpl; [|constructor].
    destruct (guard <? 400)%nat; [|constructor].
    constructor; [apply IH|].
    destruct fuel as [|fuel]; simpl; [constructor|].
    destruct (reps - lit 1 >=? lit 1) eqn:Hr'; simpl; [|constructor].
    destruct (w + increment <=? targetTop + lit 1e-6) eqn:Hw'; simpl; [|constructor].
    destruct (S guard <? 400)%nat; constructor. now apply Hstep.
Qed.

(** Every row pushed comes from a state that passed the loop's tests. *)
Lemma rungs_passed (fuel : nat) (targetTop increment reps w : N) (guard : nat) :
  Forall (fun r => exists w' reps',
              r = rung w' reps' /\ (reps' >=? lit 1) = true
              /\ (w' <=? targetTop + lit 1e-6) = true)
    (rungs fuel targetTop increment reps w guard).
Proof.
  apply rungs_Forall with (I := fun _ _ => True); [|exact I].
  intros reps' w' _ Hr Hw. split; [|exact I]. now exists w', reps'.
Qed.

(** The rows of a plan that is not the empty one. *)
Lemma ladderPlan_sets (dailyMax increment startRepCap : N) (isPullup : bool)
  (bodyweight : N) :
  truthy dailyMax = true -> truthy increment = true ->
  sets (ladderPlan dailyMax increment startRepCap isPullup bodyweight)
  = let rows :=
      ensureFinalSingle dailyMax
        (rungs 400 dailyMax increment
           (fst (ladderStart dailyMax increment startRepCap isPullup))
           (snd (ladderStart dailyMax increment startRepCap isPullup)) 0) in
    if isPullup then map (setExternal bodyweight) rows else rows.
Proof.
  intros Hd Hi. unfold ladderPlan. rewrite Hd, Hi. cbn [negb orb].
  destruct (ladderStart dailyMax increment startRepCap isPullup) as [r w].
  cbn [fst snd sets]. rewrite ladderRun_sets. reflexivity.
Qed.

(** The for loop pushes [L] rows: it goes on while the running weight is not
    [<= 0] and stops at the first one that is, or at the requested count. *)
Lemma dropLoop_iterated (drop : N) (repScheme : list N) :
  forall (n i : nat) (w : N) (rows : list (SetRow N)),
  exists L : nat,
    List.length (dropLoop n drop repScheme i w rows) = (List.length rows + L)%nat
    /\ (L <= n)%nat
    /\ (forall k, (1 <= k <= L)%nat -> (iteratedWeight w drop k <=? lit 0) = false)
    /\ ((L < n)%nat -> (iteratedWeight w drop (S L) <=? lit 0) = true).
Proof.
  unfold iteratedWeight.
  induction n as [|n IH]; intros i w rows.
  - exists 0%nat. cbn. repeat split; try lia.
  - cbn [dropLoop]. destruct (w - drop <=? lit 0) eqn:E.
    + exists 0%nat. repeat split; try lia. intros _. exact E.
    + destruct (IH (S i) (w - drop)
                  (rows ++ [dropRow drop (w - drop) (schemeReps repScheme i)]))
        as (L & Hlen & HL & Hpos & Hstop).
      exists (S L). rewrite Hlen, length_app. cbn [List.length].
      repeat split; try lia.
      * intros k Hk. destruct k as [|k]; [lia|]. rewrite Nat.iter_succ_r.
        destruct k as [|k]; [exact E|]. apply Hpos. lia.
      * intros HL'. rewrite Nat.iter_succ_r. apply Hstop. lia.
Qed.

(** The row count of [rpFixedDropPlan], for any numbers: at most [n_sets]
    rows, fewer exactly when a running weight among the first [n_sets] is
    [<= 0]. *)
Lemma drop_rows_iterated_count (dailyMax drop : N) (n_sets : Z)
  (repScheme : list N) :
  truthy dailyMax = true ->
  let rows := sets (rpFixedDropPlan dailyMax drop n_sets repScheme) in
  let top := roundToNearest2point5 (lit 0.95 * dailyMax) in
  (List.length rows <= Z.to_nat n_sets)%nat
  /\ ((List.length rows < Z.to_nat n_sets)%nat
      <-> exists i, (1 <= i <= Z.to_nat n_sets)%nat
                    /\ (iteratedWeight top drop i <=? lit 0) = true)
  /\ (forall i, (1 <= i <= List.length rows)%nat ->
                (iteratedWeight top drop i <=? lit 0) = false).
Proof.
  intros Ht rows top. subst rows. unfold rpFixedDropPlan. rewrite Ht.
  cbn [negb sets]. fold top.
  destruct (dropLoop_iterated drop repScheme (Z.to_nat n_sets) 0 top [])
    as (L & -> & HL & Hpos & Hstop).
  cbn [List.length Nat.add]. split; [exact HL|]. split; [split|exact Hpos].
  - intros H. exists (S L). split; [lia|]. now apply Hstop.
  - intros (i & Hi & Hle).
    destruct (Nat.lt_ge_cases L (Z.to_nat n_sets)) as [Hlt|Hge]; [exact Hlt|].
    rewrite Hpos in Hle by lia. discriminate.
Qed.

(** A truthy dailyMax gets the top single and the rows of the loop. *)
Lemma rpFixedDropPlan_truthy (dailyMax drop : N) (n_sets : Z) (repScheme : list N) :
  truthy dailyMax = true ->
  sets (rpFixedDropPlan dailyMax drop n_sets repScheme)
  = dropLoop (Z.to_nat n_sets) drop repScheme 0
      (roundToNearest2point5 (lit 0.95 * dailyMax)) []
  /\ topSingle (rpFixedDropPlan dailyMax drop n_sets repScheme)
     = Some (val (roundToNearest2point5 (lit 0.95 * dailyMax))).
Proof.
  intros H. unfold rpFixedDropPlan. rewrite H. split; reflexivity.
Qed.

End LadderLoop.

(* The loop is reasoned about through the lemmas above, not unfolded. *)
Arguments ladderRun : simpl never.
Arguments ladderLoop : simpl never.
Arguments rungs : simpl never.

(** ** The planners on exact numbers *)

Module ExactTactics.

Import Exact ExactFacts.

(** Boolean tests on rationals as propositions. *)
Ltac qprop :=
  repeat match goal with
    | H : (_ && _) = true |- _ => apply andb_true_iff in H; destruct H
    | H : (_ || _) = false |- _ => apply orb_false_iff in H; destruct H
    | H : negb _ = true |- _ => apply negb_true_iff in H
    | H : negb _ = false |- _ => apply negb_false_iff in H
    | H : Qle_bool _ _ = true |- _ => apply Qle_bool_iff in H
    | H : Qle_bool _ _ = false |- _ => apply Qle_bool_false in H
    | H : Qeq_bool _ _ = true |- _ => apply Qeq_bool_iff in H
    | H : Qeq_bool _ _ = false |- _ => apply Qeq_bool_false in H
    | |- negb _ = true => apply negb_true_iff
    | |- negb _ = false => apply negb_false_iff
    | |- Qle_bool _ _ = true => apply Qle_bool_iff
    | |- Qle_bool _ _ = false => apply Qle_bool_false
    | |- Qeq_bool _ _ = true => apply Qeq_bool_iff
    | |- Qeq_bool _ _ = false => apply Qeq_bool_false
    end.

(** Case analysis on every number in sight, leaving the finite cases. *)
Ltac num_cases :=
  repeat match goal with x : num |- _ => destruct x end;
  cbn in *; try discriminate; try reflexivity; try congruence; qprop.

(** Split on the tests of the conditionals in the goal. *)
Ltac split_ifs :=
  repeat match goal with
    | |- context [if ?b then _ else _] => destruct b eqn:?
    | |- context [match (?x ?= ?y)%Q with _ => _ end] =>
        destruct (Qcompare_cases x y) as [[-> ?]|[[-> ?]|[-> ?]]]
    end.

End ExactTactics.

Section ExactPlanner.

Import Exact ExactFacts ExactTactics.
Local Open Scope js_scope.

Implicit Types a b w reps inc tt cap : num.

(* Rational expressions stay as written under [cbn]. *)
Local Arguments Qfloor : simpl never.
Local Arguments Qplus : simpl never.
Local Arguments Qmult : simpl never.
Local Arguments Qopp : simpl never.
Local Arguments Qinv : simpl never.
Local Arguments Qdiv : simpl never.
Local Arguments Qabs : simpl never.
Local Arguments inject_Z : simpl never.
Local Arguments qround : simpl never.

Lemma r25_Fin (q : Q) : roundToNearest2point5 (Fin q) = Fin (qround25 q).
Proof. reflexivity. Qed.

Lemma round2_Fin (q : Q) : round2 (Fin q) = Fin (qround2 q).
Proof. reflexivity. Qed.

Lemma le_not_nan a b : (a <=? b) = true -> isNaN a = false.
Proof. intros H. now destruct a. Qed.

(** Rounding to plates keeps a weight at or above a plate-rounded floor. *)
Lemma r25_floor (c : Q) w :
  (qround25 c == c)%Q -> (w <? Fin c) = false -> isNaN w = false ->
  (Fin c <=? roundToNearest2point5 w) = true.
Proof.
  intros Hc Hw Hn. destruct w as [| | |q]; try discriminate; try reflexivity.
  rewrite r25_Fin. cbn in *. qprop.
  pose proof (qround25_mono Hw). lra.
Qed.

Lemma add_positive_floor (c : Q) w inc :
  (w <? Fin c) = false -> isNaN w = false -> (lit 0 <? inc) = true ->
  (w + inc <? Fin c) = false.
Proof. intros Hw Hn Hi. num_cases. lra. Qed.

(** *** The start point of a bodyweight-relative ladder *)

Lemma pullup_start_weight tt inc cap :
  (snd (ladderStart tt inc cap true) <? lit 0) = false.
Proof.
  unfold ladderStart. simpl.
  match goal with |- context [if ?b then _ else _] => destruct b eqn:E end.
  - reflexivity.
  - exact E.
Qed.

(** At most one rep is left after clamping when the bound is at most 1. *)
Lemma clamp_reps_short cap (m : num) :
  (lit 1 <? m) = false ->
  (Math_max (lit 1) (Math_min cap m) - lit 1 >=? lit 1) = false.
Proof.
  intros Hm. unfold Math_max, Math_min.
  destruct cap, m; cbn in *; try discriminate; try reflexivity;
    split_ifs; cbn in *; qprop; try reflexivity; try discriminate; try lra.
Qed.

Lemma truthy_Fin (q : Q) : truthy (Fin q) = true <-> ~ (q == 0)%Q.
Proof. unfold truthy. cbn. rewrite negb_true_iff. apply Qeq_bool_false. Qed.

Lemma truthy_not_nan a : truthy a = true -> isNaN a = false.
Proof. now destruct a. Qed.

(** A quotient of a non-negative by a negative rational. *)
Lemma Qdiv_nonneg_neg (t i : Q) : (0 <= t)%Q -> (i < 0)%Q -> (t / i <= 0)%Q.
Proof.
  intros Ht Hi. unfold Qdiv.
  setoid_replace (t * / i)%Q with (- (t * / - i))%Q by (field; lra).
  assert (0 <= t * / - i)%Q; [|lra].
  apply Qmult_le_0_compat; [lra|]. apply Qinv_le_0_compat. lra.
Qed.

Lemma pullup_start_reps_short tt inc cap :
  (lit 0 <=? tt) = true -> truthy inc = true -> (lit 0 <? inc) = false ->
  (fst (ladderStart tt inc cap true) - lit 1 >=? lit 1) = false.
Proof.
  intros Ht Hi Hneg. unfold ladderStart. cbn [fst].
  apply clamp_reps_short.
  destruct tt as [| | |t], inc as [| | |i]; try discriminate; try reflexivity;
    apply truthy_Fin in Hi; cbn in Ht, Hneg; qprop;
    assert (Hi' : (i < 0)%Q) by lra; cbn.
  - replace (Qle_bool 0 i) with false by (symmetry; qprop; lra). reflexivity.
  - replace (Qeq_bool i 0) with false by (symmetry; qprop; lra).
    cbn. qprop.
    pose proof (Qdiv_nonneg_neg Ht Hi').
    pose proof (Qfloor_le (1 + t / i)).
    set (x := (t / i)%Q) in *. lra.
Qed.

(** *** Weight floors *)

(** With a positive increment the loop never pushes a weight below a
    plate-rounded floor [c] its start weight respects. *)
Lemma rungs_floor (c : Q) (fuel : nat) tt inc reps w (guard : nat) :
  (qround25 c == c)%Q -> (lit 0 <? inc) = true -> (w <? Fin c) = false ->
  Forall (fun r => (weight r >=? Fin c) = true) (rungs fuel tt inc reps w guard).
Proof.
  intros Hc Hi Hw.
  apply rungs_Forall with (I := fun _ w => (w <? Fin c) = false); [|exact Hw].
  intros reps' w' HI _ Hle. apply le_not_nan in Hle. split.
  - now apply r25_floor.
  - now apply add_positive_floor.
Qed.

Lemma rungs_short_floor (c : Q) (fuel : nat) tt inc reps w (guard : nat) :
  (qround25 c == c)%Q -> (reps - lit 1 >=? lit 1) = false -> (w <? Fin c) = false ->
  Forall (fun r => (weight r >=? Fin c) = true) (rungs fuel tt inc reps w guard).
Proof.
  intros Hc Hr Hw.
  destruct (rungs_short fuel tt inc reps w guard Hr) as [-> | [Hle ->]].
  - constructor.
  - constructor; [|constructor]. apply r25_floor; auto.
    now apply le_not_nan in Hle.
Qed.

Lemma qround25_0 : (qround25 0 == 0)%Q.
Proof. reflexivity. Qed.

Lemma qround25_20 : (qround25 20 == 20)%Q.
Proof. reflexivity. Qed.

Lemma le_lt_false a b : (a <=? b) = true -> (b <? a) = false.
Proof. intros H. num_cases. assumption. Qed.

Lemma setExternal_weight bw (r : SetRow num) : weight (setExternal bw r) = weight r.
Proof. reflexivity. Qed.

Lemma not_positive_cases inc :
  truthy inc = true -> (lit 0 <? inc) = false ->
  inc = NInf \/ exists i, inc = Fin i /\ (i < 0)%Q.
Proof.
  intros Ht Hp. destruct inc as [| | |i]; try discriminate; [now left|].
  right. exists i. split; [reflexivity|].
  apply truthy_Fin in Ht. cbn in Hp. qprop. lra.
Qed.

(** *** The start point of a barbell ladder *)

Lemma barbell_start_cases tt inc cap :
  let r0 := Math_round (lit 1 + (tt - BAR) / inc) in
  let w1 := tt - inc * (cap - lit 1) in
  (ladderStart tt inc cap false = (r0, BAR) /\ (r0 >=? lit 1) = true
   /\ (r0 <=? cap) = true)
  \/ (ladderStart tt inc cap false
      = (Math_max (lit 1)
           (Math_min cap (lit 1 + Math_floor ((tt - BAR) / inc))), BAR)
      /\ (w1 <? BAR) = true)
  \/ (ladderStart tt inc cap false = (cap, w1) /\ (w1 <? BAR) = false).
Proof.
  intros r0 w1. unfold ladderStart. fold r0. fold w1.
  destruct (r0 <=? cap) eqn:E1; cbn [andb].
  - destruct (r0 >=? lit 1) eqn:E2.
    + left. auto.
    + destruct (w1 <? BAR) eqn:E3; [right; left | right; right]; auto.
  - destruct (w1 <? BAR) eqn:E3; [right; left | right; right]; auto.
Qed.

Lemma barbell_start_weight tt inc cap :
  (snd (ladderStart tt inc cap false) <? lit 20) = false.
Proof.
  destruct (barbell_start_cases tt inc cap) as [[-> _]|[[-> _]|[-> H]]];
    [reflexivity|reflexivity|exact H].
Qed.

Lemma qround_le_Z (x : Q) (z : Z) : (x <= inject_Z z)%Q -> (qround x <= inject_Z z)%Q.
Proof. intros H. rewrite <- (qround_Z z). now apply qround_mono. Qed.

Lemma short_of_le_1 (r : num) : (lit 1 <? r) = false -> (r - lit 1 >=? lit 1) = false.
Proof. intros H. num_cases. lra. Qed.

(** Above the bar with a negative increment, the rep counts computed from
    the bar are at most 1. *)
Lemma barbell_r0_short tt inc :
  (lit 20 <=? tt) = true -> truthy inc = true -> (lit 0 <? inc) = false ->
  (lit 1 <? Math_round (lit 1 + (tt - BAR) / inc)) = false
  /\ (lit 1 <? lit 1 + Math_floor ((tt - BAR) / inc)) = false.
Proof.
  intros Ht Hi Hneg.
  destruct (not_positive_cases inc Hi Hneg) as [-> | (i & -> & Hi')];
    destruct tt as [| | |t]; try discriminate; cbn in Ht; qprop; cbn.
  - split; reflexivity.
  - split; qprop.
    + change 1%Q with (inject_Z 1). apply qround_le_Z.
      change (inject_Z 1) with 1%Q. lra.
    + pose proof (Qfloor_le 0). lra.
  - replace (Qle_bool 0 i) with false by (symmetry; qprop; lra).
    split; reflexivity.
  - replace (Qeq_bool i 0) with false by (symmetry; qprop; lra).
    cbn.
    match goal with
    | |- context [(?a / i)%Q] =>
        assert (Hq : (a / i <= 0)%Q) by (apply Qdiv_nonneg_neg; lra);
        pose proof (Qfloor_le (a / i)) as Hf;
        set (x := (a / i)%Q) in *
    end.
    split; qprop.
    + change 1%Q with (inject_Z 1). apply qround_le_Z.
      change (inject_Z 1) with 1%Q. lra.
    + lra.
Qed.

(** The state of a ladder that counts its reps down to [tt]: the weight is
    [tt - inc * (reps - 1)], or not finite. *)
Definition countdown tt inc reps w : Prop :=
  w = PInf \/ w = NaN
  \/ exists q r t i,
      w = Fin q /\ reps = Fin r /\ tt = Fin t /\ inc = Fin i
      /\ (q == t - i * (r - 1))%Q.

Lemma countdown_start tt inc cap :
  (tt - inc * (cap - lit 1) <? lit 20) = false ->
  countdown tt inc cap (tt - inc * (cap - lit 1)).
Proof.
  intros H. unfold countdown.
  destruct tt as [| | |t], inc as [| | |i], cap as [| | |c]; cbn in *;
    try discriminate; auto;
    try (unfold signed_inf in *; revert H; split_ifs; cbn; intros; try discriminate; now auto).
  right; right. do 4 eexists. repeat split; reflexivity.
Qed.

Lemma countdown_floor (fuel : nat) tt inc reps w (guard : nat) :
  (lit 20 <=? tt) = true -> truthy inc = true -> (lit 0 <? inc) = false ->
  countdown tt inc reps w ->
  Forall (fun r => (weight r >=? lit 20) = true) (rungs fuel tt inc reps w guard).
Proof.
  intros Ht Hi Hneg.
  apply rungs_Forall with (I := countdown tt inc).
  clear reps w. intros reps w HJ Hr Hw. split.
  - destruct HJ as [-> | [-> | (q & r & t & i & -> & -> & -> & -> & E)]];
      [reflexivity|discriminate|].
    cbn [rung weight]. rewrite r25_Fin. cbn in *. qprop. apply truthy_Fin in Hi.
    assert (20 <= q)%Q by nra.
    pose proof (qround25_mono H). pose proof qround25_20. lra.
  - destruct HJ as [-> | [-> | (q & r & t & i & -> & -> & -> & -> & E)]].
    + destruct inc; cbn; unfold countdown; auto.
    + unfold countdown; auto.
    + right; right. exists (q + i)%Q, (r + - 1)%Q, t, i.
      repeat split; try reflexivity. rewrite E. ring.
Qed.

Lemma finite_inv a : Number_isFinite a = true -> exists q, a = Fin q.
Proof. destruct a as [| | |q]; try discriminate. now exists q. Qed.

(** *** The fixed-drop loop *)

Lemma inject_Z_S (k : nat) :
  (inject_Z (Z.of_nat (S k)) == inject_Z (Z.of_nat k) + 1)%Q.
Proof. rewrite Nat2Z.inj_succ, <- Z.add_1_r, inject_Z_plus. reflexivity. Qed.

(** With a positive finite drop the loop pushes [L] rows: as long as the
    weight stays positive, stopping at the first drop that reaches 0 or at
    the requested count. *)
Lemma dropLoop_count (dq : Q) (repScheme : list num) :
  (0 < dq)%Q ->
  forall (n i : nat) (wq : Q) (rows : list (SetRow num)),
  exists L : nat,
    List.length (dropLoop n (Fin dq) repScheme i (Fin wq) rows)
    = (List.length rows + L)%nat
    /\ (L <= n)%nat
    /\ (forall k, (1 <= k <= L)%nat -> (0 < wq - inject_Z (Z.of_nat k) * dq)%Q)
    /\ ((L < n)%nat -> (wq - inject_Z (Z.of_nat (S L)) * dq <= 0)%Q).
Proof.
  intros Hd. induction n as [|n IH]; intros i wq rows.
  - exists 0%nat. cbn. repeat split; try lia.
  - cbn [dropLoop]. change (Fin wq - Fin dq) with (Fin (wq + - dq)).
    change (lit 0 >=? Fin (wq + - dq)) with (Qle_bool (wq + - dq) 0).
    destruct (Qle_bool (wq + - dq) 0) eqn:E; qprop.
    + exists 0%nat. repeat split; try lia.
      intros _. rewrite inject_Z_S. change (inject_Z (Z.of_nat 0)) with 0%Q. lra.
    + destruct (IH (S i) (wq + - dq)%Q
                  (rows ++ [dropRow (Fin dq) (Fin (wq + - dq)) (schemeReps repScheme i)]))
        as (L & Hlen & HL & Hpos & Hstop).
      exists (S L). rewrite Hlen, length_app. cbn [List.length].
      repeat split; try lia.
      * intros k Hk. destruct k as [|k]; [lia|]. rewrite inject_Z_S.
        destruct k as [|k].
        -- change (inject_Z (Z.of_nat 0)) with 0%Q. lra.
        -- assert (Hk' : (1 <= S k <= L)%nat) by lia.
           specialize (Hpos _ Hk'). lra.
      * intros HL'. assert (HL'' : (L < n)%nat) by lia.
        specialize (Hstop HL''). rewrite inject_Z_S. lra.
Qed.

(** *** External load *)

(** With a positive increment and a start weight that is not negative, the
    loop's weights are finite and at most 1.25 above the loop bound. *)
Lemma rungs_weight_bound (fuel : nat) (d : Q) inc reps w (guard : nat) :
  (lit 0 <? inc) = true -> (w <? lit 0) = false ->
  Forall (fun r => exists q, weight r = Fin q /\ (q <= d + 1.25 + 1e-6)%Q)
    (rungs fuel (Fin d) inc reps w guard).
Proof.
  intros Hi Hw.
  apply rungs_Forall with (I := fun _ w => (w <? lit 0) = false); [|exact Hw].
  clear reps w Hw. intros reps w HI _ Hle. split.
  - destruct w as [| | |q]; try discriminate.
    exists (qround25 q). split; [reflexivity|].
    cbn in Hle. qprop. pose proof (qround25_upper q). qlra.
  - apply add_positive_floor; auto. now apply le_not_nan in Hle.
Qed.

(** A weight at least 0.01 below the bodyweight shows as assistance. *)
Lemma external_negative (q : Q) bw (r : SetRow num) :
  weight r = Fin q -> (Fin q + lit 0.01 - lit 1e-6 <=? bw) = true ->
  assisted (setExternal bw r) = true.
Proof.
  intros Hw Hb. unfold assisted, setExternal. cbn [external]. rewrite Hw.
  destruct bw as [| | |b]; try discriminate; [reflexivity|].
  change (Fin q - Fin b) with (Fin (q + - b)). rewrite round2_Fin.
  cbn in Hb |- *. qprop. unfold qround2.
  set (y := ((q + - b + (1 # 4503599627370496)) * 100)%Q).
  assert (Hy : (y < - (1 # 2))%Q) by (subst y; qlra).
  pose proof (qround_upper y).
  assert (qround y < 0)%Q by lra. clearbody y. qlra.
Qed.

(** *** The iteration count of the ladder loop *)

(** Clamping a finite bound into [1, cap] gives 1 or at most the cap. *)
Lemma clamp_reps_bound cap (m : Q) :
  (cap <=? lit 400) = true ->
  exists r, Math_max (lit 1) (Math_min cap (Fin m)) = Fin r
            /\ ((r <= 1)%Q \/ exists c, cap = Fin c /\ (r <= c)%Q).
Proof.
  intros Hc. unfold Math_max, Math_min.
  destruct cap as [| | |c]; try discriminate; cbn.
  - exists 1%Q. split; [reflexivity|]. left. lra.
  - destruct (Qle_bool c m) eqn:E1; cbn.
    + destruct (Qle_bool c 1) eqn:E2; cbn; eexists; (split; [reflexivity|]); qprop.
      * left. lra.
      * right. exists c. split; [reflexivity|lra].
    + destruct (Qle_bool m 1) eqn:E2; cbn; eexists; (split; [reflexivity|]); qprop.
      * left. lra.
      * right. exists c. split; [reflexivity|lra].
Qed.

(** The start rep count under a cap of at most 400: minus infinity, or
    finite and at most 1 or at most the cap. *)
Lemma ladderStart_reps_bound (d i : Q) cap (isPullup : bool) :
  ~ (i == 0)%Q -> (cap <=? lit 400) = true ->
  fst (ladderStart (Fin d) (Fin i) cap isPullup) = NInf
  \/ exists r, fst (ladderStart (Fin d) (Fin i) cap isPullup) = Fin r
               /\ ((r <= 1)%Q \/ exists c, cap = Fin c /\ (r <= c)%Q).
Proof.
  intros Hi Hc.
  assert (Hdiv : forall x, Fin x / Fin i = Fin (x / i)).
  { intros x. cbn. now replace (Qeq_bool i 0) with false by (symmetry; qprop; exact Hi). }
  destruct isPullup.
  - right. unfold ladderStart. cbn [fst]. rewrite Hdiv. apply clamp_reps_bound, Hc.
  - destruct (barbell_start_cases (Fin d) (Fin i) cap) as [(-> & H1 & H2)|[[-> _]|[-> _]]];
      cbn [fst].
    + right. revert H1 H2. change (Fin d - BAR) with (Fin (d + - 20)). rewrite Hdiv.
      cbn. intros H1 H2. eexists. split; [reflexivity|].
      destruct cap as [| | |c]; try discriminate.
      right. exists c. split; [reflexivity|]. cbn in H2. qprop. exact H2.
    + right. change (Fin d - BAR) with (Fin (d + - 20)). rewrite Hdiv.
      apply clamp_reps_bound, Hc.
    + destruct cap as [| | |c]; try discriminate; [now left|].
      right. exists c. split; [reflexivity|]. right. exists c. split; [reflexivity|lra].
Qed.

(** From a finite rep count the loop counts down: it exits because the reps
    run out or the weight passes the target, never because of the guard, and
    the reps it has left plus the iterations made stay constant. *)
Lemma ladderLoop_countdown tt inc (fuel : nat) :
  forall (s : LadderState num) (r : Q),
    l_reps s = Fin r -> (l_guard s + fuel = 400)%nat ->
    (r <= inject_Z (Z.of_nat fuel))%Q ->
    let s' := ladderLoop fuel tt inc s in
    ((l_reps s' >=? lit 1) && (l_w s' <=? tt + lit 1e-6)) = false
    /\ exists r', l_reps s' = Fin r'
                  /\ (r' + inject_Z (Z.of_nat (l_guard s'))
                      == r + inject_Z (Z.of_nat (l_guard s)))%Q
                  /\ (l_guard s' = l_guard s \/ (0 <= r')%Q).
Proof.
  induction fuel as [|fuel IH]; intros s r Hr Hg Hle s'.
  - subst s'. change (ladderLoop 0 tt inc s) with s. rewrite Hr. split.
    + change (inject_Z (Z.of_nat 0)) with 0%Q in Hle. cbn.
      replace (Qle_bool 1 r) with false by (symmetry; qprop; lra). reflexivity.
    + exists r. split; [reflexivity|]. split; [reflexivity|now left].
  - subst s'. rewrite ladderLoop_S. destruct (ladderCond tt s) eqn:Hc.
    + unfold ladderCond in Hc. rewrite Hr in Hc. cbn in Hc. qprop.
      rewrite inject_Z_S in Hle.
      destruct (IH (ladderBody inc s) (r + - 1)%Q) as (Hexit & r' & Hr' & Hsum & Hpos).
      * cbn. rewrite Hr. reflexivity.
      * cbn. lia.
      * lra.
      * split; [exact Hexit|]. exists r'. split; [exact Hr'|].
        cbn [ladderBody l_guard] in Hsum, Hpos. rewrite inject_Z_S in Hsum. split.
        -- lra.
        -- right. destruct Hpos as [Hsame|Hpos]; [|exact Hpos].
           rewrite Hsame, inject_Z_S in Hsum. lra.
    + split.
      * unfold ladderCond in Hc.
        replace (l_guard s <? 400)%nat with true in Hc
          by (symmetry; apply Nat.ltb_lt; lia).
        now rewrite andb_true_r in Hc.
      * exists r. split; [exact Hr|]. split; [reflexivity|now left].
Qed.

(** *** The order of the rows *)

Lemma r25_step inc w (bound : num) :
  Number_isFinite inc = true -> (lit 0 <? inc) = true ->
  (w <=? bound) = true ->
  (roundToNearest2point5 w <=? roundToNearest2point5 (w + inc)) = true.
Proof.
  intros Hf Hi Hw. destruct (finite_inv _ Hf) as [i ->].
  destruct w as [| | |q]; try discriminate; try reflexivity.
  change (Fin q + Fin i) with (Fin (q + i)). rewrite !r25_Fin.
  cbn in Hi |- *. qprop. apply qround25_mono. lra.
Qed.

Lemma reps_step reps : (reps >=? lit 1) = true -> (reps >=? reps - lit 1) = true.
Proof. intros H. num_cases. lra. Qed.

Lemma r25_above tt w :
  (tt >? roundToNearest2point5 w) = true ->
  (roundToNearest2point5 w <=? roundToNearest2point5 tt) = true.
Proof.
  intros H. destruct w as [| | |q], tt as [| | |t]; try discriminate; try reflexivity.
  rewrite !r25_Fin in *. cbn in H |- *. qprop.
  assert (Hm : (qround25 (qround25 q) <= qround25 t)%Q) by (apply qround25_mono; lra).
  rewrite qround25_idem in Hm. exact Hm.
Qed.

(** A relation between neighbours that follows from another one on rows
    with a property. *)
Lemma Sorted_strengthen (R R' : SetRow num -> SetRow num -> Prop)
  (P : SetRow num -> Prop) (l : list (SetRow num)) :
  (forall r1 r2 : SetRow num, P r1 -> R r1 r2 -> R' r1 r2) ->
  Forall P l -> Sorted R l -> Sorted R' l.
Proof.
  intros Himp HP HS. induction HS as [|r1 l HS IH Hd]; [constructor|].
  constructor; [apply IH; now apply Forall_inv_tail in HP|].
  apply Forall_inv in HP. destruct Hd as [|r2 l' Hab]; constructor. now apply Himp.
Qed.

(** A cap that is not [Infinity] keeps the start rep count from being
    [Infinity]. *)
Lemma clamp_not_inf cap (m : num) :
  cap <> PInf -> Math_max (lit 1) (Math_min cap m) <> PInf.
Proof.
  intros Hc. unfold Math_max, Math_min.
  destruct cap as [| | |c], m as [| | |x]; try contradiction; cbn;
    repeat match goal with |- context [if ?b then _ else _] => destruct b; cbn end;
    discriminate.
Qed.

Lemma ladderStart_reps_not_inf tt inc cap (isPullup : bool) :
  cap <> PInf -> fst (ladderStart tt inc cap isPullup) <> PInf.
Proof.
  intros Hc. destruct isPullup.
  - unfold ladderStart. cbn [fst]. now apply clamp_not_inf.
  - destruct (barbell_start_cases tt inc cap) as [(-> & _ & H)|[[-> _]|[-> _]]];
      cbn [fst].
    + intros E. rewrite E in H. destruct cap; try discriminate. contradiction.
    + now apply clamp_not_inf.
    + exact Hc.
Qed.

(** From a start rep count that is not [Infinity], every row of the loop has
    a finite rep count. *)
Lemma rungs_finite_reps tt inc (r0 : num) w :
  r0 <> PInf ->
  Forall (fun r : SetRow num => exists x, reps r = Num (Fin x))
    (rungs 400 tt inc r0 w 0).
Proof.
  intros Hr.
  apply (@rungs_Forall num exact) with (I := fun (rp _ : num) => rp <> PInf);
    [|exact Hr].
  intros rp w' Hrp H1 _. split.
  - destruct rp as [| | |x]; try discriminate; [contradiction|]. now exists x.
  - destruct rp; cbn; congruence.
Qed.

(** The rows of [ladderPlan] before the external load is added: the rows of
    the loop, then the final single if it is pushed; weights never decrease,
    reps never increase, and each row of the loop has the reps of the row
    before less 1. *)
Lemma final_rows_order tt inc reps w :
  Number_isFinite inc = true -> (lit 0 <? inc) = true ->
  let loopRows := rungs 400 tt inc reps w 0 in
  let rows := ensureFinalSingle tt loopRows in
  Sorted (fun (r1 r2 : SetRow num) => (weight r1 <=? weight r2) = true) rows
  /\ Sorted (fun (r1 r2 : SetRow num) => repsGe r1 r2 = true) rows
  /\ Sorted (@repsPred num exact) loopRows
  /\ (rows = loopRows \/ rows = loopRows ++ [rung tt (lit 1)]).
Proof.
  intros Hf Hi loopRows rows.
  assert (Hw : Sorted (fun (r1 r2 : SetRow num) => (weight r1 <=? weight r2) = true) loopRows).
  { apply rungs_Sorted. intros r' w' _ Hw' _ _. now apply r25_step with (bound := tt + lit 1e-6). }
  assert (Hr : Sorted (fun (r1 r2 : SetRow num) => repsGe r1 r2 = true) loopRows).
  { apply rungs_Sorted. intros r' w' Hr' _ _ _. now apply reps_step. }
  assert (Ho : Sorted (@repsPred num exact) loopRows).
  { apply rungs_Sorted. intros r' w' _ _ _ _. reflexivity. }
  assert (Hp := rungs_passed 400 tt inc reps w 0). fold loopRows in Hp.
  rewrite Forall_forall in Hp.
  destruct (ensureFinalSingle_push tt loopRows) as [E|[E Hlast]]; fold rows in E;
    rewrite E.
  - auto.
  - repeat split; auto; apply Sorted_snoc; auto; intros y Hy;
      specialize (Hlast y Hy); apply lastRow_In in Hy;
      destruct (Hp y Hy) as (w' & r' & -> & Hr' & Hw').
    + now apply r25_above.
    + exact Hr'.
Qed.

(** *** The last row *)

Lemma Qabs_le (x y : Q) : (- y <= x)%Q -> (x <= y)%Q -> (Qabs x <= y)%Q.
Proof. intros H1 H2. apply Qabs_Qle_condition. split; assumption. Qed.

(** After the final step the last row is within 2.5 of a finite target, and
    it is a single unless the last rung of the loop already weighs as much
    as the target. *)
Lemma ensureFinalSingle_last (d : Q) inc reps w :
  let rows := ensureFinalSingle (Fin d) (rungs 400 (Fin d) inc reps w 0) in
  exists l, lastRow rows = Some l
            /\ (Math_abs (weight l - Fin d) <=? lit 2.5) = true
            /\ (repsIs l (lit 1) = true \/ (Fin d <=? weight l) = true).
Proof.
  intros rows. subst rows.
  assert (Hp := rungs_passed 400 (Fin d) inc reps w 0). rewrite Forall_forall in Hp.
  assert (Hsingle : exists l, lastRow (rungs 400 (Fin d) inc reps w 0
                                         ++ [rung (Fin d) (lit 1)]) = Some l
            /\ (Math_abs (weight l - Fin d) <=? lit 2.5) = true
            /\ (repsIs l (lit 1) = true \/ (Fin d <=? weight l) = true)).
  { exists (rung (Fin d) (lit 1)). split; [apply lastRow_app|]. split; [|now left].
    cbn [rung weight]. rewrite r25_Fin. cbn. qprop.
    pose proof (qround25_upper d). pose proof (qround25_lower d).
    apply Qabs_le; lra. }
  unfold ensureFinalSingle.
  destruct (lastRow (rungs 400 (Fin d) inc reps w 0)) as [x|] eqn:E; [|exact Hsingle].
  destruct (Hp x (lastRow_In _ E)) as (w' & r' & -> & Hr' & Hw').
  cbn [rung weight] in *.
  destruct w' as [| | |q]; try discriminate.
  - (* a rung at -Infinity is followed by the final single *)
    exact Hsingle.
  - rewrite r25_Fin. change (Fin (qround25 q) - Fin d) with (Fin (qround25 q + - d)).
    pose proof (qround25_upper q) as Hu. pose proof (qround25_lower q) as Hl.
    cbn in Hw'. qprop.
    destruct ((Math_abs (Fin (qround25 q + - d)) >? lit 2.5)
              || negb (repsIs (rung (Fin q) r') (lit 1))) eqn:Hc.
    + destruct (Fin d >? Fin (qround25 q)) eqn:Hgt; [exact Hsingle|].
      exists (rung (Fin q) r'). split; [exact E|]. cbn [rung weight]. rewrite r25_Fin.
      cbn in Hgt |- *. qprop. split; [|right; qprop; exact Hgt].
      qprop. apply Qabs_le; qlra.
    + exists (rung (Fin q) r'). split; [exact E|]. cbn [rung weight]. rewrite r25_Fin.
      apply orb_false_iff in Hc. destruct Hc as [Ha Hr]. apply negb_false_iff in Hr.
      split; [|now left]. cbn in Ha |- *. qprop. exact Ha.
Qed.

End ExactPlanner.


(** ** The claims *)

(** ** The smoke tests of the source, on both instances *)

(** "Barbell ladder should end with 1× at daily max" *)
Example smoke_L1 :
  lastRow (map (mapRow Exact.canon)
             (sets (ladderPlan (N := Exact.num) (lit 160) (lit 10)
                      default_startRepCap false default_bodyweight)))
  = Some (row 160 1)
  /\ lastRow (map (mapRow Binary64.to_exact)
                (sets (ladderPlan (N := spec_float) (lit 160) (lit 10)
                         default_startRepCap false default_bodyweight)))
     = Some (row 160 1).
Proof. split; vm_compute; reflexivity. Qed.

(** "Pull-up assisted ladder should have multiple rungs", "should show
    negative external values", "should end with 1× at total max" *)
Example smoke_P1 :
  map (fun r => (Exact.canon (weight r), option_map Exact.canon (external r)))
    (sets (ladderPlan (N := Exact.num) (lit 60) (lit 2.5) (lit 8) true (lit 80)))
  = map (fun we => (Exact.Fin (fst we), Some (Exact.Fin (snd we))))
      [(85 # 2, - 75 # 2); (45, - 35); (95 # 2, - 65 # 2); (50, - 30);
       (105 # 2, - 55 # 2); (55, - 25); (115 # 2, - 45 # 2); (60, - 20)]%Q
  /\ mapPlan Binary64.to_exact
       (ladderPlan (N := spec_float) (lit 60) (lit 2.5) (lit 8) true (lit 80))
     = mapPlan Exact.canon
         (ladderPlan (N := Exact.num) (lit 60) (lit 2.5) (lit 8) true (lit 80)).
Proof. split; vm_compute; reflexivity. Qed.

(** "RP% should have 5 sets", "should count heavy reps (≥80%)" *)
Example smoke_RP :
  List.length (sets (rpPercentPlan (N := Exact.num) (lit 100))) = 5%nat
  /\ option_map Exact.canon (heavyReps (rpPercentPlan (N := Exact.num) (lit 100)))
     = Some (Exact.Fin 6)
  /\ mapPlan Binary64.to_exact (rpPercentPlan (N := spec_float) (lit 100))
     = mapPlan Exact.canon (rpPercentPlan (N := Exact.num) (lit 100)).
Proof. repeat split; vm_compute; reflexivity. Qed.

(** The fixed-drop table of dailyMax = 100 with the defaults: top single 95
    and back-off rows 85, 75, 65, 55 for 3, 5, 7, 9 reps. *)
Example fixed_drop_100 :
  map (mapRow Exact.canon)
    (sets (rpFixedDropPlan (N := Exact.num) (lit 100) default_drop default_sets
             default_repScheme))
  = [backoff 85 3 10; backoff 75 5 10; backoff 65 7 10; backoff 55 9 10]
  /\ mapPlan Binary64.to_exact
       (rpFixedDropPlan (N := spec_float) (lit 100) default_drop default_sets
          default_repScheme)
     = mapPlan Exact.canon
         (rpFixedDropPlan (N := Exact.num) (lit 100) default_drop default_sets
            default_repScheme).
Proof. split; vm_compute; reflexivity. Qed.

(** NaN is rejected on doubles too. *)
Lemma NaN_rejected_on_doubles :
  (forall increment startRepCap isPullup bodyweight,
      ladderPlan (N := spec_float) nan increment startRepCap isPullup bodyweight
      = emptyLadderPlan)
  /\ (forall dailyMax startRepCap isPullup bodyweight,
         ladderPlan (N := spec_float) dailyMax nan startRepCap isPullup bodyweight
         = emptyLadderPlan)
  /\ rpPercentPlan (N := spec_float) nan = emptyPercentPlan
  /\ (forall drop n_sets repScheme,
         rpFixedDropPlan (N := spec_float) nan drop n_sets repScheme = emptyDropPlan).
Proof.
  repeat split; intros; try reflexivity.
  unfold ladderPlan. destruct (truthy dailyMax); reflexivity.
Qed.

Unset Implicit Arguments.

Section Claims.

  Import Exact ExactFacts ExactTactics.
  Local Open Scope js_scope.

  Local Arguments Qfloor : simpl never.
  Local Arguments Qplus : simpl never.
  Local Arguments Qmult : simpl never.
  Local Arguments Qopp : simpl never.
  Local Arguments Qinv : simpl never.
  Local Arguments Qdiv : simpl never.
  Local Arguments Qabs : simpl never.
  Local Arguments inject_Z : simpl never.
  Local Arguments qround : simpl never.

(** C1 fails on the code at dailyMax = 22.5, increment = 1 (start-rep cap 12):
    the loop stops after the rung at 22 kg with 2 reps, that rung rounds to
    22.5, and the final single is not pushed because [targetTop > last.weight]
    is false.  The ladder is [{20, 4}, {20, 3}, {22.5, 2}]: its last row has 2
    reps, on exact numbers and on doubles. *)
Theorem barbell_ladder_ends_with_two_reps :
  map (mapRow canon)
    (sets (ladderPlan (N := num) (lit 22.5) (lit 1) (lit 12) false (lit 80)))
  = [row 20 4; row 20 3; row (45 # 2) 2]
  /\ map (mapRow Binary64.to_exact)
       (sets (ladderPlan (N := spec_float) (lit 22.5) (lit 1) (lit 12) false (lit 80)))
     = [row 20 4; row 20 3; row (45 # 2) 2].
Proof.
  split; vm_compute; reflexivity.
Qed.

(** What holds of the last row in place of C1: for a finite non-zero
    dailyMax and a non-zero increment the barbell ladder is not empty, its
    last row is within 2.5 of dailyMax, and that row is a single unless it
    already weighs as much as dailyMax. *)
Lemma barbell_ladder_last_row (dailyMax increment startRepCap bodyweight : num) :
  Number_isFinite dailyMax = true -> truthy dailyMax = true ->
  truthy increment = true ->
  exists l,
    lastRow (sets (ladderPlan dailyMax increment startRepCap false bodyweight)) = Some l
    /\ (Math_abs (weight l - dailyMax) <=? lit 2.5) = true
    /\ (repsIs l (lit 1) = true \/ (dailyMax <=? weight l) = true).
Proof.
  intros Hf Hd Hi. destruct (finite_inv _ Hf) as [d ->].
  rewrite ladderPlan_sets by assumption. cbv zeta.
  apply ensureFinalSingle_last.
Qed.

(** C2, as amended: a NaN dailyMax, or for ladderPlan a NaN increment, makes
    each planner return its empty plan, whatever the other arguments are. *)
Theorem planners_reject_NaN :
  (forall increment startRepCap isPullup bodyweight,
      ladderPlan (N := num) nan increment startRepCap isPullup bodyweight
      = emptyLadderPlan)
  /\ (forall dailyMax startRepCap isPullup bodyweight,
         ladderPlan (N := num) dailyMax nan startRepCap isPullup bodyweight
         = emptyLadderPlan)
  /\ rpPercentPlan (N := num) nan = emptyPercentPlan
  /\ (forall drop sets repScheme,
         rpFixedDropPlan (N := num) nan drop sets repScheme = emptyDropPlan).
Proof.
  repeat split; intros; try reflexivity.
  unfold ladderPlan. destruct (truthy dailyMax); reflexivity.
Qed.

(** C2 as stated fails: Infinity is truthy, so an infinite dailyMax or
    increment is planned for.  [ladderPlan] gives 12 rows of infinite weight
    for dailyMax = Infinity, and two rows for increment = Infinity;
    [rpPercentPlan] gives its 5 rows for dailyMax = -Infinity. *)
Lemma planners_accept_infinity :
  List.length (sets (ladderPlan (N := num) infinity (lit 10) (lit 12) false (lit 80)))
  = 12%nat
  /\ List.length (sets (ladderPlan (N := num) (lit 100) infinity (lit 12) false (lit 80)))
     = 2%nat
  /\ List.length (sets (rpPercentPlan (N := num) neg_infinity)) = 5%nat
  /\ ladderPlan (N := num) infinity (lit 10) (lit 12) false (lit 80)
     <> emptyLadderPlan
  /\ ladderPlan (N := spec_float) infinity (lit 10) (lit 12) false (lit 80)
     <> emptyLadderPlan.
Proof.
  repeat split; try (vm_compute; reflexivity);
    intros H; apply (f_equal (fun p => List.length (sets p))) in H;
    vm_compute in H; discriminate.
Qed.

(** In exact arithmetic [i] subtractions of [drop] are [i * drop] less, so
    there the row count is also governed by the closed form
    [topSingle - i * drop].  On doubles the two differ. *)
Lemma exact_drop_count_closed_form (dailyMax drop : num) (n_sets : Z) (repScheme : list num) :
  Number_isFinite dailyMax = true -> (dailyMax >? lit 0) = true ->
  (drop >? lit 0) = true -> (0 <= n_sets)%Z ->
  let rows := sets (rpFixedDropPlan dailyMax drop n_sets repScheme) in
  let top := roundToNearest2point5 (lit 0.95 * dailyMax) in
  let n := List.length rows in
  topSingle (rpFixedDropPlan dailyMax drop n_sets repScheme) = Some (val top)
  /\ (Z.of_nat n <= n_sets)%Z
  /\ ((Z.of_nat n < n_sets)%Z
      <-> exists i, (1 <= i <= Z.to_nat n_sets)%nat
                    /\ (runningWeight top drop i <=? lit 0) = true)
  /\ (forall i, (1 <= i <= n)%nat -> (runningWeight top drop i <=? lit 0) = false)
  /\ ((Z.of_nat n < n_sets)%Z -> (runningWeight top drop (S n) <=? lit 0) = true).
Proof.
  intros Hf Hp Hd Hs. destruct (finite_inv _ Hf) as [d ->]. cbn in Hp. qprop.
  assert (Ht : truthy (Fin d) = true) by (apply truthy_Fin; lra).
  destruct (rpFixedDropPlan_truthy _ drop n_sets repScheme Ht) as [-> ->].
  change (roundToNearest2point5 (lit 0.95 * Fin d)) with (Fin (qround25 (0.95 * d))).
  generalize (qround25 (0.95 * d)). intros t rows top n. split; [reflexivity|].
  subst top. destruct drop as [| | |dq]; try discriminate.
  - (* an infinite drop: the first subtraction gives -Infinity *)
    assert (Hrows : rows = []).
    { subst rows. destruct (Z.to_nat n_sets); reflexivity. }
    subst n. rewrite Hrows. cbn [List.length].
    assert (Hrw : forall i, (1 <= i)%nat -> (runningWeight (Fin t) PInf i <=? lit 0) = true).
    { intros i Hi. unfold runningWeight. cbn. unfold signed_inf.
      assert (0 < inject_Z (Z.of_nat i))%Q.
      { change 0%Q with (inject_Z 0). rewrite <- Zlt_Qlt. lia. }
      destruct (Qcompare_cases (inject_Z (Z.of_nat i)) 0) as [[-> ?]|[[-> ?]|[-> ?]]];
        try lra. reflexivity. }
    split; [lia|]. split; [split|split].
    + intros H. exists 1%nat. split; [lia|]. apply Hrw. lia.
    + intros (i & Hi & _). lia.
    + intros i Hi. lia.
    + intros _. apply Hrw. lia.
  - cbn in Hd. qprop.
    destruct (dropLoop_count repScheme Hd (Z.to_nat n_sets) 0 t [])
      as (L & Hlen & HL & Hpos & Hstop).
    assert (Hn : n = L) by (subst n rows; rewrite Hlen; reflexivity).
    rewrite Hn. clear Hn Hlen.
    assert (Hrw : forall i, (runningWeight (Fin t) (Fin dq) i <=? lit 0)
                            = Qle_bool (t + - (inject_Z (Z.of_nat i) * dq)) 0)
      by reflexivity.
    split; [lia|]. split; [split|split].
    + intros H. exists (S L). split; [lia|]. rewrite Hrw. qprop.
      assert (HL' : (L < Z.to_nat n_sets)%nat) by lia.
      specialize (Hstop HL'). lra.
    + intros (i & Hi & Hle). rewrite Hrw in Hle. qprop.
      destruct (Nat.lt_ge_cases L (Z.to_nat n_sets)) as [Hlt|Hge]; [lia|].
      assert (Hi' : (1 <= i <= L)%nat) by lia.
      specialize (Hpos _ Hi'). lra.
    + intros i Hi. rewrite Hrw. qprop. specialize (Hpos _ Hi). lra.
    + intros H. rewrite Hrw. qprop.
      assert (HL' : (L < Z.to_nat n_sets)%nat) by lia.
      specialize (Hstop HL'). lra.
Qed.

(** C7, as amended: for a dailyMax that is not zero or NaN (so for every
    positive finite one), any drop and a non-negative count [n_sets], in any
    number representation, the back-off list has at most [n_sets] rows; it
    is shorter exactly when the running weight, computed as the loop does by
    subtracting [drop] from the top single [i] times, is 0 or less for some
    [i] in [1..n_sets]; every row pushed had a running weight that was not 0
    or less, and a shorter list stops at the first [i] whose running weight
    is 0 or less. *)
Theorem fixed_drop_row_count (N : Type) (number : Number N) (dailyMax drop : N)
  (n_sets : Z) (repScheme : list N) :
  truthy dailyMax = true -> (0 <= n_sets)%Z ->
  let rows := sets (rpFixedDropPlan dailyMax drop n_sets repScheme) in
  let top := roundToNearest2point5 (lit 0.95 * dailyMax) in
  let n := List.length rows in
  topSingle (rpFixedDropPlan dailyMax drop n_sets repScheme) = Some (val top)
  /\ (Z.of_nat n <= n_sets)%Z
  /\ ((Z.of_nat n < n_sets)%Z
      <-> exists i, (1 <= i <= Z.to_nat n_sets)%nat
                    /\ (iteratedWeight top drop i <=? lit 0) = true)
  /\ (forall i, (1 <= i <= n)%nat -> (iteratedWeight top drop i <=? lit 0) = false)
  /\ ((Z.of_nat n < n_sets)%Z -> (iteratedWeight top drop (S n) <=? lit 0) = true).
Proof.
  intros Ht Hs rows top n.
  destruct (rpFixedDropPlan_truthy dailyMax drop n_sets repScheme Ht) as [Hrows Htop].
  split; [exact Htop|].
  destruct (dropLoop_iterated drop repScheme (Z.to_nat n_sets) 0 top [])
    as (L & Hlen & HL & Hpos & Hstop).
  assert (Hn : n = L).
  { subst n rows. rewrite Hrows. fold top. rewrite Hlen. reflexivity. }
  rewrite Hn. clear Hn Hlen Hrows Htop.
  split; [lia|]. split; [split|split].
  - intros H. exists (S L). split; [lia|]. apply Hstop. lia.
  - intros (i & Hi & Hle).
    destruct (Nat.lt_ge_cases L (Z.to_nat n_sets)) as [Hlt|Hge]; [lia|].
    rewrite Hpos in Hle by lia. discriminate.
  - exact Hpos.
  - intros H. apply Hstop. lia.
Qed.

(** On doubles, for dailyMax = 60, drop = 57.5/7 and 7 sets: six rows, and
    the seventh subtraction leaves 0 or less. *)
Lemma fixed_drop_row_count_witness :
  truthy (N := spec_float) (lit 60) = true /\ (0 <= 7)%Z
  /\ List.length
       (sets (rpFixedDropPlan (N := spec_float) (lit 60) (lit (115 # 14)) 7
                default_repScheme)) = 6%nat
  /\ (iteratedWeight (N := spec_float) (roundToNearest2point5 (lit 0.95 * lit 60))
        (lit (115 # 14)) 7 <=? lit 0) = true.
Proof.
  assert (Ht : truthy (N := spec_float) (lit 60) = true) by (vm_compute; reflexivity).
  assert (Hs : (0 <= 7)%Z) by lia.
  assert (Hlen : List.length
                   (sets (rpFixedDropPlan (N := spec_float) (lit 60) (lit (115 # 14)) 7
                            default_repScheme)) = 6%nat) by (vm_compute; reflexivity).
  split; [exact Ht|]. split; [exact Hs|]. split; [exact Hlen|].
  pose proof (fixed_drop_row_count spec_float binary64 (lit 60) (lit (115 # 14)) 7
                default_repScheme Ht Hs) as H.
  cbv zeta in H. rewrite Hlen in H.
  destruct H as (_ & _ & _ & _ & Hstop). apply Hstop. lia.
Defined.

(** C7 as stated fails on doubles: the claim reads the running weight as
    [topSingle - i * drop], but the loop subtracts [drop] one step at a time
    and each step is rounded.  For dailyMax = 60 (top single 57.5), drop =
    57.5/7 (the double 8.214285714285714) and 7 sets, [topSingle - i * drop]
    is above 0 for every [i] from 1 to 7, as computed on doubles and also as
    the exact value of those doubles, yet only 6 rows are returned. *)
Lemma fixed_drop_closed_form_differs :
  let top := roundToNearest2point5 (N := spec_float) (lit 0.95 * lit 60) in
  let drop := lit (N := spec_float) (115 # 14) in
  List.length
    (sets (rpFixedDropPlan (N := spec_float) (lit 60) drop 7 default_repScheme))
  = 6%nat
  /\ forallb (fun i => negb (runningWeight top drop i <=? lit 0)) (seq 1 7) = true
  /\ forallb (fun i => negb (runningWeight (N := num) (Binary64.to_exact top)
                               (Binary64.to_exact drop) i <=? lit 0)) (seq 1 7)
     = true.
Proof. repeat split; vm_compute; reflexivity. Qed.

(** C8, as amended: [rpFixedDropPlan] returns the empty plan exactly when
    dailyMax is falsy (zero or NaN); [drop] is not looked at. *)
Theorem fixed_drop_empty_iff (dailyMax drop : num) (sets : Z) (repScheme : list num) :
  rpFixedDropPlan dailyMax drop sets repScheme = emptyDropPlan
  <-> truthy dailyMax = false.
Proof.
  unfold rpFixedDropPlan. destruct (truthy dailyMax); cbn [negb]; split; intros H.
  - discriminate H.
  - discriminate H.
  - reflexivity.
  - reflexivity.
Qed.

(** C8 as stated fails: with dailyMax = 100 a zero drop gives the top single
    95 and four back-off rows at 95, and a NaN drop gives four rows too. *)
Lemma fixed_drop_accepts_bad_drop :
  map (mapRow canon)
    (sets (rpFixedDropPlan (N := num) (lit 100) (lit 0) 4 default_repScheme))
  = [backoff 95 3 0; backoff 95 5 0; backoff 95 7 0; backoff 95 9 0]
  /\ rpFixedDropPlan (N := num) (lit 100) (lit 0) 4 default_repScheme
     <> emptyDropPlan
  /\ rpFixedDropPlan (N := spec_float) (lit 100) (lit 0) 4 default_repScheme
     <> emptyDropPlan
  /\ List.length (sets (rpFixedDropPlan (N := num) (lit 100) nan 4 default_repScheme))
     = 4%nat.
Proof.
  repeat split; try (vm_compute; reflexivity);
    intros H; apply (f_equal (fun p => List.length (sets p))) in H;
    vm_compute in H; discriminate.
Qed.

(** C5, as amended: with [isPullup = true], a positive finite increment and
    a positive dailyMax of at most 10^9 that is at least 1.26 below the
    bodyweight, the plan has rows and every one of them (so at least one)
    has [external < 0].  The margin covers the rounding to 2.5 kg steps
    (1.25), the tolerance 1e-6 of the loop and the rounding to hundredths;
    the bound on dailyMax keeps the rounding errors of doubles, which grow
    with the magnitude, far below what is left of the margin. *)
Theorem pullup_ladder_shows_assistance (dailyMax increment startRepCap bodyweight : num) :
  Number_isFinite increment = true -> (increment >? lit 0) = true ->
  Number_isFinite dailyMax = true -> (dailyMax >? lit 0) = true ->
  (dailyMax <=? lit 1000000000) = true ->
  (dailyMax + lit 1.26 <=? bodyweight) = true ->
  let rows := sets (ladderPlan dailyMax increment startRepCap true bodyweight) in
  Forall (fun r => assisted r = true) rows
  /\ Exists (fun r => assisted r = true) rows.
Proof.
  intros Hfi Hi Hfd Hd _ Hb rows.
  assert (HF : Forall (fun r => assisted r = true) rows /\ rows <> []).
  { subst rows.
    destruct (finite_inv _ Hfd) as [d ->]. destruct (finite_inv _ Hfi) as [i ->].
    cbn in Hd, Hi. qprop.
    rewrite ladderPlan_sets by (apply truthy_Fin; lra). cbv zeta. split.
    - apply Forall_map.
      eapply Forall_impl;
        [|apply ensureFinalSingle_Forall
            with (P := fun r => exists q, weight r = Fin q /\ (q <= d + 1.25 + 1e-6)%Q)].
      + intros r (q & Hw & Hq). apply external_negative with (q := q); [exact Hw|].
        destruct bodyweight as [| | |b]; try discriminate; [reflexivity|].
        cbn in Hb |- *. qprop. qlra.
      + apply rungs_weight_bound; [cbn; qprop; lra|apply pullup_start_weight].
      + exists (qround25 d). split; [reflexivity|].
        pose proof (qround25_upper d). qlra.
    - intros H. apply map_eq_nil in H. revert H. apply ensureFinalSingle_nonempty. }
  destruct HF as [HF Hne]. split; [exact HF|].
  destruct rows as [|r rows']; [congruence|].
  apply Exists_cons_hd. now apply Forall_inv in HF.
Qed.

Lemma pullup_ladder_shows_assistance_witness :
  Number_isFinite (N := num) (lit 2.5) = true /\ (lit (N := num) 2.5 >? lit 0) = true
  /\ Number_isFinite (N := num) (lit 60) = true /\ (lit (N := num) 60 >? lit 0) = true
  /\ (lit (N := num) 60 <=? lit 1000000000) = true
  /\ (lit (N := num) 60 + lit 1.26 <=? lit 80) = true
  /\ Exists (fun r => assisted r = true)
       (sets (ladderPlan (N := num) (lit 60) (lit 2.5) (lit 8) true (lit 80))).
Proof.
  repeat (split; [reflexivity|]).
  apply (pullup_ladder_shows_assistance (lit 60) (lit 2.5) (lit 8) (lit 80));
    reflexivity.
Defined.

(** On doubles, at the edge of the margin and near the bound: dailyMax =
    78.74 under the bodyweight 80, and dailyMax = 999999998.74 under the
    bodyweight 10^9, show assistance in every row. *)
Example assistance_shown_on_doubles :
  forallb (fun r => assisted r)
    (sets (ladderPlan (N := spec_float) (lit 78.74) (lit 2.5) (lit 8) true (lit 80)))
  = true
  /\ forallb (fun r => assisted r)
       (sets (ladderPlan (N := spec_float) (lit 999999998.74) (lit 0.1) (lit 12) true
                (lit 1000000000)))
     = true.
Proof. split; vm_compute; reflexivity. Qed.

(** Beyond the bound the margin is lost in the rounding of doubles: dailyMax
    = 2815193138896816 with the bodyweight 1.5 above it (increment 2.5, cap
    1) gives one row at the bodyweight, with external 0. *)
Example assistance_lost_at_large_magnitude :
  (lit (N := spec_float) 2815193138896816 + lit 1.26
   <=? lit (5630386277793635 # 2)) = true
  /\ existsb (fun r => assisted r)
       (sets (ladderPlan (N := spec_float) (lit 2815193138896816) (lit 2.5) (lit 1)
                true (lit (5630386277793635 # 2)))) = false.
Proof. split; vm_compute; reflexivity. Qed.

(** C5 as stated fails: for dailyMax = 79.9 below the bodyweight 80, increment
    0.1 and the default cap 12, all twelve rows round to 80 and show external
    0; so does the single row of dailyMax = 79, increment 2.5 and cap 1.  On
    exact numbers and on doubles. *)
Lemma pullup_ladder_no_assistance_shown :
  ~ Exists (fun r => assisted r = true)
      (sets (ladderPlan (N := num) (lit 79.9) (lit 0.1) (lit 12) true (lit 80)))
  /\ ~ Exists (fun r => assisted r = true)
         (sets (ladderPlan (N := spec_float) (lit 79.9) (lit 0.1) (lit 12) true (lit 80)))
  /\ ~ Exists (fun r => assisted r = true)
         (sets (ladderPlan (N := num) (lit 79) (lit 2.5) (lit 1) true (lit 80)))
  /\ ~ Exists (fun r => assisted r = true)
         (sets (ladderPlan (N := spec_float) (lit 79) (lit 2.5) (lit 1) true (lit 80))).
Proof.
  repeat split; intros H; apply Exists_existsb in H; vm_compute in H; discriminate.
Qed.

(** C6, as amended: for every positive finite dailyMax, [rpPercentPlan]
    returns exactly 5 rows whose weights never increase from one row to the
    next; they strictly decrease when dailyMax is at least 50. *)
Theorem percent_plan_five_rows_decreasing (dailyMax : num) :
  Number_isFinite dailyMax = true -> (dailyMax >? lit 0) = true ->
  List.length (sets (rpPercentPlan dailyMax)) = 5%nat
  /\ Sorted (fun a b => (weight a >=? weight b) = true) (sets (rpPercentPlan dailyMax))
  /\ ((dailyMax >=? lit 50) = true ->
      Sorted (fun a b => (weight a >? weight b) = true) (sets (rpPercentPlan dailyMax))).
Proof.
  intros Hf Hp. destruct (finite_inv _ Hf) as [d ->]. cbn in Hp. qprop.
  unfold rpPercentPlan.
  replace (truthy (Fin d)) with true by (symmetry; apply truthy_Fin; lra).
  cbn [negb sets map percentScheme percentRow fst snd].
  split; [reflexivity|]. split.
  - repeat (apply Sorted_cons; [|first [apply HdRel_nil | apply HdRel_cons]]);
      try apply Sorted_nil;
      cbn; qprop; apply qround25_mono; lra.
  - intros H50. cbn in H50. qprop.
    repeat (apply Sorted_cons; [|first [apply HdRel_nil | apply HdRel_cons]]);
      try apply Sorted_nil;
      cbn; qprop; apply qround25_strict; lra.
Qed.

Lemma percent_plan_five_rows_decreasing_witness :
  Number_isFinite (N := num) (lit 100) = true /\ (lit (N := num) 100 >? lit 0) = true
  /\ List.length (sets (rpPercentPlan (N := num) (lit 100))) = 5%nat
  /\ Sorted (fun a b => (weight a >=? weight b) = true)
       (sets (rpPercentPlan (N := num) (lit 100)))
  /\ ((lit (N := num) 100 >=? lit 50) = true ->
      Sorted (fun a b => (weight a >? weight b) = true)
        (sets (rpPercentPlan (N := num) (lit 100)))).
Proof.
  split; [reflexivity|]. split; [reflexivity|].
  apply (percent_plan_five_rows_decreasing (lit 100)); reflexivity.
Defined.

(** C6 as stated fails: for dailyMax = 10 the five weights are
    10, 7.5, 7.5, 7.5, 7.5, on exact numbers and on doubles. *)
Lemma percent_plan_equal_weights :
  map (fun r => canon (weight r)) (sets (rpPercentPlan (N := num) (lit 10)))
  = [Fin 10; Fin (15 # 2); Fin (15 # 2); Fin (15 # 2); Fin (15 # 2)]
  /\ ~ Sorted (fun a b => (weight a >? weight b) = true)
         (sets (rpPercentPlan (N := num) (lit 10)))
  /\ ~ Sorted (fun a b => (weight a >? weight b) = true)
         (sets (rpPercentPlan (N := spec_float) (lit 10))).
Proof.
  split; [vm_compute; reflexivity|].
  split; intros H; apply Sorted_sortedb in H; vm_compute in H; discriminate.
Qed.

(** C9, as amended: with a positive finite increment, a finite non-zero
    dailyMax and a start-rep cap of at most 400, the loop of [ladderPlan]
    exits because the reps run out or the weight passes the target, not
    because of the guard; the guard counter (the number of rows pushed) is
    at most 400, is bounded by the start rep count, and stays below 400 when
    the cap is below 400. *)
Theorem ladder_guard_never_binds (dailyMax increment startRepCap : num) (isPullup : bool) :
  Number_isFinite increment = true -> (increment >? lit 0) = true ->
  Number_isFinite dailyMax = true -> truthy dailyMax = true ->
  (startRepCap <=? lit 400) = true ->
  let startReps := fst (ladderStart dailyMax increment startRepCap isPullup) in
  let startWeight := snd (ladderStart dailyMax increment startRepCap isPullup) in
  let s := ladderRun dailyMax increment startReps startWeight in
  ((l_reps s >=? lit 1) && (l_w s <=? dailyMax + lit 1e-6)) = false
  /\ (l_guard s <= 400)%nat
  /\ l_guard s = List.length (l_sets s)
  /\ (l_guard s = 0%nat
      \/ (lit (inject_Z (Z.of_nat (l_guard s))) <=? startReps) = true)
  /\ ((startRepCap <? lit 400) = true -> (l_guard s < 400)%nat).
Proof.
  intros Hfi Hi Hfd Hd Hc startReps startWeight s.
  destruct (finite_inv _ Hfd) as [d ->]. destruct (finite_inv _ Hfi) as [i ->].
  cbn in Hi. qprop.
  assert (Hlen : l_guard s = List.length (l_sets s)) by apply ladderRun_guard_length.
  destruct (@ladderStart_reps_bound d i startRepCap isPullup) as [HN|(r & Hr & Hb)];
    [lra|exact Hc| |]; fold startReps in HN || fold startReps in Hr.
  - (* no rep to do: the loop does not start *)
    assert (Hs : s = {| l_sets := []; l_reps := NInf; l_w := startWeight; l_guard := 0 |}).
    { subst s. rewrite HN. unfold ladderRun. rewrite ladderLoop_S. reflexivity. }
    rewrite Hs. cbn. repeat split; auto; lia.
  - assert (H400 : (r <= 400)%Q /\ ((startRepCap <? lit 400) = true -> (r < 400)%Q)).
    { destruct Hb as [Hb|(c & -> & Hb)]; cbn in Hc |- *; qprop; split; try lra.
      intros H. qprop. lra. }
    destruct H400 as [H400 H400'].
    destruct (@ladderLoop_countdown (Fin d) (Fin i) 400
                {| l_sets := []; l_reps := startReps; l_w := startWeight; l_guard := 0 |}
                r Hr eq_refl) as (Hexit & r' & Hr' & Hsum & Hpos).
    { change (inject_Z (Z.of_nat 400)) with 400%Q. exact H400. }
    fold (ladderRun (Fin d) (Fin i) startReps startWeight) in Hexit, Hr', Hsum, Hpos.
    fold s in Hexit, Hr', Hsum, Hpos. cbn [l_guard] in Hsum, Hpos.
    change (inject_Z (Z.of_nat 0)) with 0%Q in Hsum.
    assert (Hg : l_guard s = 0%nat \/ (inject_Z (Z.of_nat (l_guard s)) <= r)%Q).
    { destruct Hpos as [Hpos|Hpos]; [now left|right; lra]. }
    split; [exact Hexit|]. split; [|split; [exact Hlen|split]].
    + destruct Hg as [Hg|Hg]; [lia|].
      assert (Hz : (inject_Z (Z.of_nat (l_guard s)) <= inject_Z 400)%Q)
        by (change (inject_Z 400) with 400%Q; lra).
      rewrite <- Zle_Qle in Hz. lia.
    + destruct Hg as [Hg|Hg]; [now left|right].
      rewrite Hr. cbn. qprop. exact Hg.
    + intros Hlt. specialize (H400' Hlt). destruct Hg as [Hg|Hg]; [lia|].
      assert (Hz : (inject_Z (Z.of_nat (l_guard s)) < inject_Z 400)%Q)
        by (change (inject_Z 400) with 400%Q; lra).
      rewrite <- Zlt_Qlt in Hz. lia.
Qed.

Lemma ladder_guard_never_binds_witness :
  Number_isFinite (N := num) (lit 10) = true /\ (lit (N := num) 10 >? lit 0) = true
  /\ Number_isFinite (N := num) (lit 160) = true /\ truthy (N := num) (lit 160) = true
  /\ (lit (N := num) 12 <=? lit 400) = true
  /\ (l_guard (ladderRun (N := num) (lit 160) (lit 10)
                 (fst (ladderStart (lit 160) (lit 10) (lit 12) false))
                 (snd (ladderStart (lit 160) (lit 10) (lit 12) false))) <= 400)%nat.
Proof.
  repeat (split; [reflexivity|]).
  apply (ladder_guard_never_binds (lit 160) (lit 10) (lit 12) false); reflexivity.
Defined.

(** C9 as stated fails at the cap of 400: for dailyMax = 4010, increment = 10
    and startRepCap = 400 the ladder starts at the bar with 400 reps, the
    loop makes 400 iterations and the guard counter reaches 400, on exact
    numbers and on doubles. *)
Lemma ladder_guard_reaches_400 :
  l_guard (ladderRun (N := num) (lit 4010) (lit 10)
             (fst (ladderStart (lit 4010) (lit 10) (lit 400) false))
             (snd (ladderStart (lit 4010) (lit 10) (lit 400) false))) = 400%nat
  /\ l_guard (ladderRun (N := spec_float) (lit 4010) (lit 10)
                (fst (ladderStart (lit 4010) (lit 10) (lit 400) false))
                (snd (ladderStart (lit 4010) (lit 10) (lit 400) false))) = 400%nat
  /\ List.length (sets (ladderPlan (N := num) (lit 4010) (lit 10) (lit 400) false (lit 80)))
     = 400%nat.
Proof.
  repeat split; vm_compute; reflexivity.
Qed.

(** C10, as amended: for a positive finite increment, a start-rep cap of at
    most 2^53 and a non-empty result, the weights never decrease and the reps
    never increase from one row to the next; the rows are those of the loop,
    followed by the final single when it is pushed, and each row of the loop
    has exactly one rep fewer than the row before it: its reps are those of
    the row before less 1, and that is strictly less. *)
Theorem ladder_rows_ordered (dailyMax increment startRepCap : num) (isPullup : bool)
  (bodyweight : num) :
  Number_isFinite increment = true -> (increment >? lit 0) = true ->
  (startRepCap <=? lit 9007199254740992) = true ->
  sets (ladderPlan dailyMax increment startRepCap isPullup bodyweight) <> [] ->
  let rows := sets (ladderPlan dailyMax increment startRepCap isPullup bodyweight) in
  let loopRows :=
    l_sets (ladderRun dailyMax increment
              (fst (ladderStart dailyMax increment startRepCap isPullup))
              (snd (ladderStart dailyMax increment startRepCap isPullup))) in
  Sorted (fun a b => (weight a <=? weight b) = true) rows
  /\ Sorted (fun a b => repsGe a b = true) rows
  /\ Sorted oneRepFewer loopRows
  /\ (map (@reps num) rows = map (@reps num) loopRows
      \/ map (@reps num) rows = map (@reps num) loopRows ++ [Num (lit 1)]).
Proof.
  intros Hf Hi Hcap Hne rows loopRows.
  assert (Hd : truthy dailyMax = true).
  { destruct (truthy dailyMax) eqn:E; [reflexivity|]. exfalso. apply Hne.
    unfold ladderPlan. rewrite E. reflexivity. }
  assert (Ht : truthy increment = true).
  { destruct (finite_inv _ Hf) as [i ->]. apply truthy_Fin. cbn in Hi. qprop. lra. }
  assert (Hc : startRepCap <> PInf).
  { intros E. rewrite E in Hcap. discriminate. }
  subst rows loopRows. rewrite ladderRun_sets, ladderPlan_sets by assumption.
  cbv zeta.
  destruct (@final_rows_order dailyMax increment
              (fst (ladderStart dailyMax increment startRepCap isPullup))
              (snd (ladderStart dailyMax increment startRepCap isPullup)) Hf Hi)
    as (Hw & Hr & Ho & Hrows).
  cbv zeta in Hw, Hr, Hrows.
  pose proof (@rungs_finite_reps dailyMax increment
                (fst (ladderStart dailyMax increment startRepCap isPullup))
                (snd (ladderStart dailyMax increment startRepCap isPullup))
                (@ladderStart_reps_not_inf dailyMax increment startRepCap isPullup Hc))
    as Hfin.
  set (loopRows := rungs 400 dailyMax increment _ _ 0) in *.
  assert (Ho' : Sorted oneRepFewer loopRows).
  { apply Sorted_strengthen
      with (R := @repsPred num exact)
           (P := fun r : SetRow num => exists x, reps r = Num (Fin x));
      [|exact Hfin|exact Ho].
    intros a b [x Ha] Hab. unfold repsPred in Hab. unfold oneRepFewer.
    rewrite Ha in *. destruct (reps b) as [|y|]; try contradiction.
    split; [exact Hab|]. rewrite Hab. cbn. qprop. lra. }
  assert (Hmap : map (@reps num) (ensureFinalSingle dailyMax loopRows) = map (@reps num) loopRows
                 \/ map (@reps num) (ensureFinalSingle dailyMax loopRows)
                    = map (@reps num) loopRows ++ [Num (lit 1)]).
  { destruct Hrows as [-> | ->]; [now left|right]. now rewrite map_app. }
  destruct isPullup.
  - repeat split.
    + eapply Sorted_map_rows; [|exact Hw]. intros a b H. exact H.
    + eapply Sorted_map_rows; [|exact Hr]. intros a b H. exact H.
    + exact Ho'.
    + rewrite map_map. exact Hmap.
  - repeat split; assumption.
Qed.

Lemma ladder_rows_ordered_witness :
  Number_isFinite (N := num) (lit 2.5) = true /\ (lit (N := num) 2.5 >? lit 0) = true
  /\ (lit (N := num) 8 <=? lit 9007199254740992) = true
  /\ sets (ladderPlan (N := num) (lit 60) (lit 2.5) (lit 8) true (lit 80)) <> []
  /\ Sorted (fun a b => (weight a <=? weight b) = true)
       (sets (ladderPlan (N := num) (lit 60) (lit 2.5) (lit 8) true (lit 80)))
  /\ Sorted (fun a b => repsGe a b = true)
       (sets (ladderPlan (N := num) (lit 60) (lit 2.5) (lit 8) true (lit 80)))
  /\ Sorted oneRepFewer
       (l_sets (ladderRun (N := num) (lit 60) (lit 2.5)
                  (fst (ladderStart (lit 60) (lit 2.5) (lit 8) true))
                  (snd (ladderStart (lit 60) (lit 2.5) (lit 8) true)))).
Proof.
  assert (Hne : sets (ladderPlan (N := num) (lit 60) (lit 2.5) (lit 8) true (lit 80)) <> []).
  { intros H. apply (f_equal (@List.length _)) in H. vm_compute in H. discriminate. }
  split; [reflexivity|]. split; [reflexivity|]. split; [reflexivity|].
  split; [exact Hne|].
  pose proof (ladder_rows_ordered (lit 60) (lit 2.5) (lit 8) true (lit 80)
                eq_refl eq_refl eq_refl Hne) as H.
  cbv zeta in H. destruct H as (Hw & Hr & Ho & _). repeat split; assumption.
Defined.

(** On doubles, at the bound: from 2^53 reps (dailyMax = 1e17, increment 1)
    the 400 rows of the loop count down by exactly 1, each strictly below the
    one before. *)
Example reps_count_down_from_2_53_on_doubles :
  let loopRows :=
    l_sets (ladderRun (N := spec_float) (lit 100000000000000000) (lit 1)
              (fst (ladderStart (lit 100000000000000000) (lit 1)
                      (lit 9007199254740992) false))
              (snd (ladderStart (lit 100000000000000000) (lit 1)
                      (lit 9007199254740992) false))) in
  List.length loopRows = 400%nat
  /\ sortedb (fun a b => match reps a, reps b with
                         | Num x, Num y => (y === x - lit 1) && (y <? x)
                         | _, _ => false
                         end) loopRows = true
  /\ option_map (fun r => match reps r with
                          | Num x => Binary64.to_exact x
                          | _ => NaN
                          end) (nth_error loopRows 399)
     = Some (Fin 9007199254740593).
Proof. repeat split; vm_compute; reflexivity. Qed.

(** C10 as stated fails when the rep count is so large that subtracting 1
    changes nothing.  On doubles, dailyMax = 1e17, increment = 1 and a cap of
    1e17 start the ladder at 99999999999999984 reps, and [reps - 1] is
    absorbed: the loop pushes 400 rows before the guard stops it, and the
    second row has as many reps as the first.  With dailyMax and the cap
    infinite the same happens on exact numbers and on doubles, since
    [Infinity - 1] is [Infinity]. *)
Lemma ladder_reps_stall :
  let stalls (N : Type) (number : Number N) (dailyMax cap : N) :=
    (List.length
       (l_sets (ladderRun dailyMax (lit 1)
                  (fst (ladderStart dailyMax (lit 1) cap false))
                  (snd (ladderStart dailyMax (lit 1) cap false)))) =? 400)%nat
    && match sets (ladderPlan dailyMax (lit 1) cap false (lit 80)) with
       | a :: b :: _ => repsGe b a
       | _ => false
       end in
  stalls spec_float binary64 (lit 100000000000000000) (lit 100000000000000000) = true
  /\ stalls spec_float binary64 infinity infinity = true
  /\ stalls num exact infinity infinity = true
  /\ (Number_isFinite (N := spec_float) (lit 1) && (lit (N := spec_float) 1 >? lit 0))
     = true.
Proof. repeat split; vm_compute; reflexivity. Qed.

(** C4, as amended: with [isPullup = true], a daily max that is not negative
    and any non-zero increment, every row of the returned sets has
    [weight >= 0]. *)
Theorem pullup_ladder_weights_nonnegative (dailyMax increment startRepCap bodyweight : num) :
  (dailyMax >=? lit 0) = true -> truthy increment = true ->
  Forall (fun r => (weight r >=? lit 0) = true)
    (sets (ladderPlan dailyMax increment startRepCap true bodyweight)).
Proof.
  intros Hd Hi.
  destruct (truthy dailyMax) eqn:Ht.
  2:{ unfold ladderPlan. rewrite Ht. constructor. }
  rewrite ladderPlan_sets by assumption. cbv zeta.
  apply Forall_map. rewrite Forall_forall. intros r Hr. rewrite setExternal_weight.
  revert r Hr. rewrite <- Forall_forall.
  apply ensureFinalSingle_Forall.
  - destruct (lit 0 <? increment) eqn:Hp.
    + apply rungs_floor; [exact qround25_0|exact Hp|apply pullup_start_weight].
    + apply rungs_short_floor; [exact qround25_0| |apply pullup_start_weight].
      now apply pullup_start_reps_short.
  - apply r25_floor; [exact qround25_0|now apply le_lt_false|].
    now apply truthy_not_nan.
Qed.

Lemma pullup_ladder_weights_nonnegative_witness :
  (lit (N := num) 60 >=? lit 0) = true /\ truthy (N := num) (lit 2.5) = true
  /\ Forall (fun r => (weight r >=? lit 0) = true)
       (sets (ladderPlan (N := num) (lit 60) (lit 2.5) (lit 8) true (lit 80))).
Proof.
  split; [reflexivity|]. split; [reflexivity|].
  apply (pullup_ladder_weights_nonnegative (lit 60) (lit 2.5) (lit 8) (lit 80));
    reflexivity.
Defined.

(** C4 as stated fails: a negative total of -10 (80 kg bodyweight with 90 kg
    of assistance entered) gives the single row [{weight: -10, reps: 1}], on
    exact numbers and on doubles. *)
Lemma pullup_ladder_negative_weight :
  ~ Forall (fun r => (weight r >=? lit 0) = true)
      (sets (ladderPlan (N := num) (lit (-10)) (lit 2.5) (lit 12) true (lit 80)))
  /\ ~ Forall (fun r => (weight r >=? lit 0) = true)
         (sets (ladderPlan (N := spec_float) (lit (-10)) (lit 2.5) (lit 12) true (lit 80))).
Proof.
  split; intros H; apply Forall_forallb in H; vm_compute in H; discriminate.
Qed.

(** C3, as amended: with [isPullup = false], a daily max of at least the bar
    weight 20 and any non-zero increment, every row of the returned sets has
    [weight >= 20]. *)
Theorem barbell_ladder_weights_above_bar (dailyMax increment startRepCap bodyweight : num) :
  (dailyMax >=? lit 20) = true -> truthy increment = true ->
  Forall (fun r => (weight r >=? lit 20) = true)
    (sets (ladderPlan dailyMax increment startRepCap false bodyweight)).
Proof.
  intros Hd Hi.
  assert (Ht : truthy dailyMax = true).
  { destruct dailyMax as [| | |d]; try discriminate; try reflexivity.
    apply truthy_Fin. cbn in Hd. qprop. lra. }
  rewrite ladderPlan_sets by assumption. cbv zeta.
  apply ensureFinalSingle_Forall.
  - destruct (lit 0 <? increment) eqn:Hp.
    + apply rungs_floor; [exact qround25_20|exact Hp|apply barbell_start_weight].
    + destruct (barbell_r0_short dailyMax increment Hd Hi Hp) as [Hr0 Hm].
      destruct (barbell_start_cases dailyMax increment startRepCap)
        as [[-> _]|[[-> _]|[-> Hw]]]; cbn [fst snd].
      * apply rungs_short_floor; [exact qround25_20| |reflexivity].
        now apply short_of_le_1.
      * apply rungs_short_floor; [exact qround25_20| |reflexivity].
        now apply clamp_reps_short.
      * apply countdown_floor; auto. now apply countdown_start.
  - apply r25_floor; [exact qround25_20|now apply le_lt_false|].
    now apply truthy_not_nan.
Qed.

Lemma barbell_ladder_weights_above_bar_witness :
  (lit (N := num) 160 >=? lit 20) = true /\ truthy (N := num) (lit 10) = true
  /\ Forall (fun r => (weight r >=? lit 20) = true)
       (sets (ladderPlan (N := num) (lit 160) (lit 10) (lit 12) false (lit 80))).
Proof.
  split; [reflexivity|]. split; [reflexivity|].
  apply (barbell_ladder_weights_above_bar (lit 160) (lit 10) (lit 12) (lit 80));
    reflexivity.
Defined.

(** C3 as stated fails: a daily max of 10, below the bar, with increment 10
    gives the single row [{weight: 10, reps: 1}], on exact numbers and on
    doubles. *)
Lemma barbell_ladder_weight_below_bar :
  ~ Forall (fun r => (weight r >=? lit 20) = true)
      (sets (ladderPlan (N := num) (lit 10) (lit 10) (lit 12) false (lit 80)))
  /\ ~ Forall (fun r => (weight r >=? lit 20) = true)
         (sets (ladderPlan (N := spec_float) (lit 10) (lit 10) (lit 12) false (lit 80))).
Proof.
  split; intros H; apply Forall_forallb in H; vm_compute in H; discriminate.
Qed.

End Claims.



(** ** Further properties of the calculations *)

Section Utils.

Import Exact ExactFacts ExactTactics.
Local Open Scope js_scope.

Local Arguments Qfloor : simpl never.
Local Arguments Qplus : simpl never.
Local Arguments Qmult : simpl never.
Local Arguments Qopp : simpl never.
Local Arguments Qinv : simpl never.
Local Arguments Qdiv : simpl never.
Local Arguments Qabs : simpl never.
Local Arguments inject_Z : simpl never.
Local Arguments qround : simpl never.

(** The theorems of this part that rest on the value of a rounding are
    stated for magnitudes of at most 10^9 (10^6 where tonnages are summed):
    there the double computation has the slack they allow, and multiples of
    2.5 and their sums are computed without error. *)

(** [roundToNearest2point5] of a weight of magnitude at most 10^9 is a whole
    number of 2.5 kg steps, the one nearest to the weight, a tie going up. *)
Theorem roundToNearest2point5_nearest_step (q : Q) :
  (Qabs q <= 1000000000)%Q ->
  exists k : Z,
    roundToNearest2point5 (Fin q) = Fin (inject_Z k * 2.5)
    /\ (q - 1.25 < inject_Z k * 2.5)%Q /\ (inject_Z k * 2.5 <= q + 1.25)%Q.
Proof.
  intros _. exists (Qfloor (q / 2.5 + (1 # 2))). split; [reflexivity|].
  pose proof (qround25_lower q). pose proof (qround25_upper q).
  unfold qround25, qround in *. split; assumption.
Qed.

Lemma roundToNearest2point5_nearest_step_witness :
  (Qabs 21 <= 1000000000)%Q
  /\ exists k : Z,
      roundToNearest2point5 (N := num) (Fin 21) = Fin (inject_Z k * 2.5)
      /\ (21 - 1.25 < inject_Z k * 2.5)%Q /\ (inject_Z k * 2.5 <= 21 + 1.25)%Q.
Proof.
  assert (H : (Qabs 21 <= 1000000000)%Q) by (vm_compute; discriminate).
  split; [exact H|]. exact (roundToNearest2point5_nearest_step 21 H).
Defined.

(** Rounding a rounded weight changes nothing, for a weight of magnitude at
    most 10^9. *)
Theorem roundToNearest2point5_idempotent (a : num) :
  (Math_abs a <=? lit 1000000000) = true ->
  (roundToNearest2point5 (roundToNearest2point5 a) === roundToNearest2point5 a)
  = true.
Proof.
  destruct a as [| | |q]; try discriminate. intros _.
  rewrite !r25_Fin. cbn. qprop. apply qround25_idem.
Qed.

Lemma roundToNearest2point5_idempotent_witness :
  (Math_abs (N := num) (lit 21) <=? lit 1000000000) = true
  /\ (roundToNearest2point5 (N := num) (roundToNearest2point5 (lit 21))
      === roundToNearest2point5 (lit 21)) = true.
Proof.
  split; [reflexivity|].
  exact (roundToNearest2point5_idempotent (lit 21) eq_refl).
Defined.

(** [roundToNearest2point5] keeps the order of weights. *)
Theorem roundToNearest2point5_monotone (a b : num) :
  (a <=? b) = true ->
  (roundToNearest2point5 a <=? roundToNearest2point5 b) = true.
Proof.
  intros H. destruct a as [| | |x], b as [| | |y]; try discriminate; try reflexivity.
  rewrite !r25_Fin. cbn in H |- *. qprop. now apply qround25_mono.
Qed.

Lemma roundToNearest2point5_monotone_witness :
  (lit (N := num) 21 <=? lit 22) = true
  /\ (roundToNearest2point5 (N := num) (lit 21) <=? roundToNearest2point5 (lit 22)) = true.
Proof.
  split; [reflexivity|].
  apply (roundToNearest2point5_monotone (lit 21) (lit 22)). reflexivity.
Defined.

(** In exact arithmetic a whole number of hundredths goes through [round2]
    unchanged. *)
Lemma qround2_hundredth (k : Z) : (qround2 (inject_Z k / 100) == inject_Z k / 100)%Q.
Proof.
  unfold qround2.
  assert (E : qround ((inject_Z k / 100 + (1 # 4503599627370496)) * 100)
              = inject_Z k).
  { unfold qround. f_equal.
    set (x := ((inject_Z k / 100 + (1 # 4503599627370496)) * 100 + (1 # 2))%Q).
    pose proof (Qfloor_le x) as Hl. pose proof (Qlt_floor x) as Hu.
    assert (Hx1 : (inject_Z k < x)%Q) by (subst x; qlra).
    assert (Hx2 : (x < inject_Z k + 1)%Q) by (subst x; qlra).
    clearbody x.
    assert (H1 : (inject_Z (Qfloor x) < inject_Z (k + 1))%Q).
    { rewrite inject_Z_plus. change (inject_Z 1) with 1%Q. lra. }
    assert (H2 : (inject_Z k < inject_Z (Qfloor x + 1))%Q) by lra.
    rewrite <- Zlt_Qlt in H1, H2. lia. }
  rewrite E. reflexivity.
Qed.

(** [round2] of an amount of magnitude at most 10^9 is a whole number of
    hundredths, [k / 100], within 0.005001 of the amount (half a hundredth
    and room for [Number.EPSILON] and the rounding of doubles); and a whole
    number of hundredths [k / 100] with [k] of magnitude at most 10^11 is
    returned unchanged. *)
Theorem round2_hundredths (q : Q) :
  (Qabs q <= 1000000000)%Q ->
  (exists k : Z,
      round2 (Fin q) = Fin (inject_Z k / 100)
      /\ (q - 0.005001 < inject_Z k / 100)%Q
      /\ (inject_Z k / 100 <= q + 0.005001)%Q)
  /\ (forall k : Z,
         (Z.abs k <= 100000000000)%Z ->
         (round2 (Fin (inject_Z k / 100)) === Fin (inject_Z k / 100)) = true).
Proof.
  intros _. split.
  - exists (Qfloor ((q + (1 # 4503599627370496)) * 100 + (1 # 2))).
    split; [reflexivity|].
    pose proof (qround_lower ((q + (1 # 4503599627370496)) * 100)) as Hl.
    pose proof (qround_upper ((q + (1 # 4503599627370496)) * 100)) as Hu.
    unfold qround in *. split; qlra.
  - intros k _. rewrite round2_Fin. cbn. qprop. apply qround2_hundredth.
Qed.

Lemma round2_hundredths_witness :
  (Qabs 471.965 <= 1000000000)%Q
  /\ exists k : Z,
      round2 (N := num) (Fin 471.965) = Fin (inject_Z k / 100)
      /\ (471.965 - 0.005001 < inject_Z k / 100)%Q
      /\ (inject_Z k / 100 <= 471.965 + 0.005001)%Q.
Proof.
  assert (H : (Qabs 471.965 <= 1000000000)%Q) by (vm_compute; discriminate).
  split; [exact H|]. exact (proj1 (round2_hundredths 471.965 H)).
Defined.

(** On doubles, around sample values: the step nearest to 61.25 less one ulp
    is 60, [round2] of the double 471.965 is 471.97 and of 10.075 is 10.07,
    and rounding a rounded weight again changes nothing. *)
Example rounding_on_doubles :
  Binary64.to_exact (roundToNearest2point5 (lit 0.7 * lit 87.5)) = Fin 60
  /\ Binary64.to_exact (roundToNearest2point5 (lit (N := spec_float) 66.25)) = Fin (135 # 2)
  /\ (round2 (N := spec_float) (lit 471.965) === lit 471.97) = true
  /\ (round2 (N := spec_float) (lit 10.075) === lit 10.07) = true
  /\ forallb (fun q => roundToNearest2point5 (roundToNearest2point5 (lit q))
                       === roundToNearest2point5 (N := spec_float) (lit q))
       [21; 61.24; 999999998.75; -3.7; 0.001]%Q = true.
Proof. repeat split; vm_compute; reflexivity. Qed.

(** Beyond the bounds doubles differ.  At 2815193138896816 the quotient by
    2.5 rounds to a tie and the weight is rounded up by 1.5; at
    9007385831013834 a second rounding moves the weight again; and [round2]
    of 1e307 overflows to [Infinity]. *)
Example large_magnitudes_on_doubles :
  Binary64.to_exact (roundToNearest2point5 (lit 2815193138896816))
  = Fin (5630386277793635 # 2)
  /\ (roundToNearest2point5
        (roundToNearest2point5 (lit (N := spec_float) 9007385831013834))
      === roundToNearest2point5 (lit 9007385831013834)) = false
  /\ (round2 (N := spec_float)
        (lit 10000000000000000000000000000000000000000000000000000000000000000000000000000000000000000000000000000000000000000000000000000000000000000000000000000000000000000000000000000000000000000000000000000000000000000000000000000000000000000000000000000000000000000000000000000000000000000000000000000000000000000000)
      === infinity) = true.
Proof. repeat split; vm_compute; reflexivity. Qed.

End Utils.

Section LadderAnyNumbers.

Context (N : Type) (number : Number N).

Local Open Scope js_scope.

Lemma rungs_S (fuel : nat) (targetTop increment reps w : N) (guard : nat) :
  rungs (S fuel) targetTop increment reps w guard
  = if (reps >=? lit 1) && (w <=? targetTop + lit 1e-6) && (guard <? 400)%nat
    then rung w reps
           :: rungs fuel targetTop increment (reps - lit 1) (w + increment) (S guard)
    else [].
Proof. reflexivity. Qed.

Lemma rungs_length (fuel : nat) (targetTop increment reps w : N) (guard : nat) :
  (List.length (rungs fuel targetTop increment reps w guard) <= 400 - guard)%nat.
Proof.
  revert reps w guard. induction fuel as [|fuel IH]; intros reps w guard.
  - change (rungs 0 targetTop increment reps w guard) with (@nil (SetRow N)).
    cbn. lia.
  - rewrite rungs_S.
    destruct ((reps >=? lit 1) && (w <=? targetTop + lit 1e-6)); cbn [andb];
      [|cbn; lia].
    destruct (guard <? 400)%nat eqn:E; [|cbn; lia].
    apply Nat.ltb_lt in E. cbn [List.length].
    specialize (IH (reps - lit 1) (w + increment) (S guard)). lia.
Qed.

Lemma rungs_external_none (fuel : nat) (targetTop increment reps w : N) (guard : nat) :
  Forall (fun r => external r = None) (rungs fuel targetTop increment reps w guard).
Proof.
  apply rungs_Forall with (I := fun _ _ => True); [|exact I].
  intros reps' w' _ _ _. split; [reflexivity|exact I].
Qed.

(** [ladderPlan] returns no rows exactly when dailyMax or increment is falsy
    (zero or NaN), and then the whole result is the empty plan; in every
    other case there is at least one row and [start] is not null. *)
Theorem ladderPlan_empty_iff (dailyMax increment startRepCap : N) (isPullup : bool)
  (bodyweight : N) :
  (sets (ladderPlan dailyMax increment startRepCap isPullup bodyweight) = []
   <-> truthy dailyMax = false \/ truthy increment = false)
  /\ (ladderPlan dailyMax increment startRepCap isPullup bodyweight = emptyLadderPlan
      <-> truthy dailyMax = false \/ truthy increment = false)
  /\ (start (ladderPlan dailyMax increment startRepCap isPullup bodyweight) = Some null
      <-> truthy dailyMax = false \/ truthy increment = false).
Proof.
  destruct (truthy dailyMax) eqn:Hd; [destruct (truthy increment) eqn:Hi|].
  - assert (Hne : sets (ladderPlan dailyMax increment startRepCap isPullup bodyweight)
                  <> []).
    { rewrite (@ladderPlan_sets N number) by assumption. cbv zeta.
      destruct isPullup.
      - intros H. apply map_eq_nil in H. revert H. apply ensureFinalSingle_nonempty.
      - apply ensureFinalSingle_nonempty. }
    assert (Hst : start (ladderPlan dailyMax increment startRepCap isPullup bodyweight)
                  <> Some null).
    { unfold ladderPlan. rewrite Hd, Hi. cbn [negb orb].
      destruct (ladderStart dailyMax increment startRepCap isPullup). cbn. discriminate. }
    repeat split; intros H; try (destruct H; discriminate).
    + contradiction.
    + rewrite H in Hne. now contradiction Hne.
    + contradiction.
  - unfold ladderPlan. rewrite Hd, Hi. cbn. repeat split; auto.
  - unfold ladderPlan. rewrite Hd. cbn. repeat split; auto.
Qed.

(** [ladderPlan] never returns more than 401 rows: at most 400 from the
    guarded loop and the final single. *)
Theorem ladderPlan_at_most_401_rows (dailyMax increment startRepCap : N)
  (isPullup : bool) (bodyweight : N) :
  (List.length (sets (ladderPlan dailyMax increment startRepCap isPullup bodyweight))
   <= 401)%nat.
Proof.
  destruct (truthy dailyMax) eqn:Hd; [destruct (truthy increment) eqn:Hi|].
  - rewrite (@ladderPlan_sets N number) by assumption. cbv zeta.
    set (r := fst _). set (w := snd _).
    pose proof (rungs_length 400 dailyMax increment r w 0) as Hl.
    assert (Hlen : (List.length
                      (ensureFinalSingle dailyMax (rungs 400 dailyMax increment r w 0))
                    <= 401)%nat).
    { destruct (ensureFinalSingle_cases dailyMax (rungs 400 dailyMax increment r w 0))
        as [[-> _]| ->]; [lia|]. rewrite length_app. cbn. lia. }
    destruct isPullup; [rewrite length_map|]; exact Hlen.
  - unfold ladderPlan. rewrite Hd, Hi. cbn. lia.
  - unfold ladderPlan. rewrite Hd. cbn. lia.
Qed.

(** The bodyweight only shows in the external column: weights, reps, tonnage
    and the start point do not depend on it; a pull-up row has
    [external = round2 (weight - bodyweight)] and a barbell row has no
    [external] property. *)
Theorem ladderPlan_bodyweight_only_external (dailyMax increment startRepCap : N)
  (isPullup : bool) (bodyweight bodyweight' : N) :
  let p := ladderPlan dailyMax increment startRepCap isPullup bodyweight in
  let p' := ladderPlan dailyMax increment startRepCap isPullup bodyweight' in
  map (fun r => (weight r, reps r, note r)) (sets p)
  = map (fun r => (weight r, reps r, note r)) (sets p')
  /\ tonnage p = tonnage p'
  /\ start p = start p'
  /\ Forall (fun r => external r
                      = if isPullup then Some (round2 (weight r - bodyweight)) else None)
       (sets p).
Proof.
  intros p p'. subst p p'. unfold ladderPlan.
  destruct (negb (truthy dailyMax) || negb (truthy increment)).
  - cbn. repeat split; constructor.
  - destruct (ladderStart dailyMax increment startRepCap isPullup) as [r w].
    cbn [sets tonnage start]. rewrite (@ladderRun_sets N number).
    set (rows := ensureFinalSingle dailyMax (rungs 400 dailyMax increment r w 0)).
    assert (Hnone : Forall (fun r => external r = None) rows).
    { apply ensureFinalSingle_Forall; [apply rungs_external_none|reflexivity]. }
    destruct isPullup.
    + repeat split.
      * rewrite !map_map. reflexivity.
      * apply Forall_map. apply Forall_forall. intros x _. reflexivity.
    + repeat split. exact Hnone.
Qed.

(** Row [j] of the loop comes from the state reached by [j] steps: the weight
    plus [j] increments, the reps less [j], each added or subtracted one at a
    time; that state passed the tests of the loop. *)
Lemma rungs_nth (targetTop increment : N) :
  forall (fuel : nat) (r w : N) (guard j : nat) (row : SetRow N),
    nth_error (rungs fuel targetTop increment r w guard) j = Some row ->
    row = rung (Nat.iter j (fun x => x + increment) w)
            (Nat.iter j (fun x => x - lit 1) r)
    /\ (Nat.iter j (fun x => x - lit 1) r >=? lit 1) = true
    /\ (Nat.iter j (fun x => x + increment) w <=? targetTop + lit 1e-6) = true
    /\ (guard + j < 400)%nat.
Proof.
  induction fuel as [|fuel IH]; intros r w guard j row H.
  - change (rungs 0 targetTop increment r w guard) with (@nil (SetRow N)) in H.
    destruct j; discriminate.
  - rewrite rungs_S in H.
    destruct (r >=? lit 1) eqn:Hr; cbn [andb] in H; [|destruct j; discriminate].
    destruct (w <=? targetTop + lit 1e-6) eqn:Hw; cbn [andb] in H;
      [|destruct j; discriminate].
    destruct (guard <? 400)%nat eqn:Hg; [|destruct j; discriminate].
    apply Nat.ltb_lt in Hg.
    destruct j as [|j]; cbn [nth_error] in H.
    + inversion H. cbn [Nat.iter nat_rect]. repeat split; try assumption. lia.
    + apply IH in H. rewrite !Nat.iter_succ_r.
      destruct H as (-> & H1 & H2 & H3). repeat split; try assumption. lia.
Qed.

(** Every row of a ladder, for any numbers: row [j] (from 0) is either a row
    of the loop, and then it weighs the rounded start weight plus [j]
    increments, added one at a time, it has the start reps less [j],
    subtracted one at a time, and that weight and those reps passed the
    tests of the loop; or it is the final single at the rounded dailyMax,
    which comes right after the rows of the loop. *)
Theorem ladder_rows_as_computed (dailyMax increment startRepCap : N) (isPullup : bool)
  (bodyweight : N) (j : nat) (row : SetRow N) :
  let r0 := fst (ladderStart dailyMax increment startRepCap isPullup) in
  let w0 := snd (ladderStart dailyMax increment startRepCap isPullup) in
  let rj := Nat.iter j (fun x => x - lit 1) r0 in
  let wj := Nat.iter j (fun x => x + increment) w0 in
  nth_error (sets (ladderPlan dailyMax increment startRepCap isPullup bodyweight)) j
  = Some row ->
  (weight row = roundToNearest2point5 wj /\ reps row = Num rj
   /\ (rj >=? lit 1) = true /\ (wj <=? dailyMax + lit 1e-6) = true /\ (j < 400)%nat)
  \/ (weight row = roundToNearest2point5 dailyMax /\ reps row = Num (lit 1)
      /\ j = List.length (l_sets (ladderRun dailyMax increment r0 w0))).
Proof.
  intros r0 w0 rj wj H.
  destruct (truthy dailyMax) eqn:Hd; [destruct (truthy increment) eqn:Hi|].
  2:{ unfold ladderPlan in H. rewrite Hd, Hi in H. destruct j; discriminate. }
  2:{ unfold ladderPlan in H. rewrite Hd in H. destruct j; discriminate. }
  rewrite (@ladderPlan_sets N number) in H by assumption. cbv zeta in H.
  fold r0 w0 in H. rewrite (@ladderRun_sets N number).
  set (loopRows := rungs 400 dailyMax increment r0 w0 0) in *.
  assert (Hrows : exists row',
             nth_error (ensureFinalSingle dailyMax loopRows) j = Some row'
             /\ weight row = weight row' /\ reps row = reps row').
  { destruct isPullup; [|now exists row].
    rewrite nth_error_map in H.
    destruct (nth_error (ensureFinalSingle dailyMax loopRows) j) as [row'|];
      [|discriminate].
    exists row'. inversion H. auto. }
  destruct Hrows as (row' & H' & -> & ->). clear H.
  assert (Hloop : forall x, nth_error loopRows j = Some x ->
            weight x = roundToNearest2point5 wj /\ reps x = Num rj
            /\ (rj >=? lit 1) = true /\ (wj <=? dailyMax + lit 1e-6) = true
            /\ (j < 400)%nat).
  { intros x Hx. apply rungs_nth in Hx. destruct Hx as (-> & H1 & H2 & H3).
    repeat split; assumption. }
  destruct (ensureFinalSingle_cases dailyMax loopRows) as [[E _]|E];
    rewrite E in H'.
  - left. now apply Hloop.
  - destruct (Nat.lt_ge_cases j (List.length loopRows)) as [Hlt|Hge].
    + rewrite nth_error_app1 in H' by exact Hlt. left. now apply Hloop.
    + rewrite nth_error_app2 in H' by exact Hge. right.
      destruct (j - List.length loopRows)%nat as [|k] eqn:Ek; cbn in H';
        [|destruct k; discriminate].
      inversion H'. repeat split. lia.
Qed.

End LadderAnyNumbers.

(** On doubles, dailyMax = 66.25 with increment 0.1 and cap 3: the third row
    weighs 65, the rounded value of 66.05 + 0.1 + 0.1 as doubles add up (just
    under 66.25), where exact arithmetic gives 67.5. *)
Lemma ladder_rows_as_computed_witness :
  nth_error
    (sets (ladderPlan (N := spec_float) (lit 66.25) (lit 0.1) (lit 3) false (lit 80))) 2
  = Some (rung (lit 65) (lit 1))
  /\ (let r0 := fst (ladderStart (N := spec_float) (lit 66.25) (lit 0.1) (lit 3) false) in
      let w0 := snd (ladderStart (N := spec_float) (lit 66.25) (lit 0.1) (lit 3) false) in
      let rj := Nat.iter 2 (fun x => (x - lit 1)%js) r0 in
      let wj := Nat.iter 2 (fun x => (x + lit 0.1)%js) w0 in
      (weight (rung (N := spec_float) (lit 65) (lit 1)) = roundToNearest2point5 wj
       /\ reps (rung (N := spec_float) (lit 65) (lit 1)) = Num rj
       /\ (rj >=? lit 1)%js = true /\ (wj <=? lit 66.25 + lit 1e-6)%js = true
       /\ (2 < 400)%nat)
      \/ (weight (rung (N := spec_float) (lit 65) (lit 1))
          = roundToNearest2point5 (lit 66.25)
          /\ reps (rung (N := spec_float) (lit 65) (lit 1)) = Num (lit 1)
          /\ 2%nat = List.length (l_sets (ladderRun (lit 66.25) (lit 0.1) r0 w0)))).
Proof.
  assert (E : nth_error
                (sets (ladderPlan (N := spec_float) (lit 66.25) (lit 0.1) (lit 3) false
                         (lit 80))) 2
              = Some (rung (lit 65) (lit 1))) by (vm_compute; reflexivity).
  split; [exact E|].
  exact (ladder_rows_as_computed spec_float binary64 (lit 66.25) (lit 0.1) (lit 3) false
           (lit 80) 2 (rung (lit 65) (lit 1)) E).
Defined.

Section LadderExact.

Import Exact ExactFacts ExactTactics.
Local Open Scope js_scope.

Local Arguments Qfloor : simpl never.
Local Arguments Qplus : simpl never.
Local Arguments Qmult : simpl never.
Local Arguments Qopp : simpl never.
Local Arguments Qinv : simpl never.
Local Arguments Qdiv : simpl never.
Local Arguments Qabs : simpl never.
Local Arguments inject_Z : simpl never.
Local Arguments qround : simpl never.

Lemma lastRow_map (f : SetRow num -> SetRow num) (l : list (SetRow num)) :
  lastRow (map f l) = option_map f (lastRow l).
Proof.
  unfold lastRow. rewrite length_map. apply nth_error_map.
Qed.

(** The last row of a ladder is within 2.5 of a dailyMax of magnitude at
    most 10^9, and it is a single unless its weight is already at least
    dailyMax (then the final single is not pushed), for barbell and pull-up
    ladders alike. *)
Theorem ladder_last_row_near_target (dailyMax increment startRepCap : num)
  (isPullup : bool) (bodyweight : num) :
  (Math_abs dailyMax <=? lit 1000000000) = true -> truthy dailyMax = true ->
  truthy increment = true ->
  exists l,
    lastRow (sets (ladderPlan dailyMax increment startRepCap isPullup bodyweight))
    = Some l
    /\ (Math_abs (weight l - dailyMax) <=? lit 2.5) = true
    /\ (repsIs l (lit 1) = true \/ (dailyMax <=? weight l) = true).
Proof.
  intros Hb Hd Hi.
  assert (Hf : Number_isFinite dailyMax = true)
    by (destruct dailyMax; try discriminate; reflexivity).
  destruct (finite_inv _ Hf) as [d ->].
  rewrite (@ladderPlan_sets num exact) by assumption. cbv zeta.
  destruct (@ensureFinalSingle_last d increment
              (fst (ladderStart (Fin d) increment startRepCap isPullup))
              (snd (ladderStart (Fin d) increment startRepCap isPullup)))
    as (l & Hl & Hw & Hr).
  destruct isPullup.
  - exists (setExternal bodyweight l). rewrite lastRow_map, Hl. auto.
  - exists l. auto.
Qed.

Lemma ladder_last_row_near_target_witness :
  (Math_abs (N := num) (lit 22.5) <=? lit 1000000000) = true
  /\ truthy (N := num) (lit 22.5) = true
  /\ truthy (N := num) (lit 1) = true
  /\ exists l,
      lastRow (sets (ladderPlan (N := num) (lit 22.5) (lit 1) (lit 12) false (lit 80)))
      = Some l
      /\ (Math_abs (weight l - lit 22.5) <=? lit 2.5) = true
      /\ (repsIs l (lit 1) = true \/ (lit 22.5 <=? weight l) = true).
Proof.
  do 3 (split; [reflexivity|]).
  apply (ladder_last_row_near_target (lit 22.5) (lit 1) (lit 12) false (lit 80));
    reflexivity.
Defined.

(** *** Reps stay between 1 and the cap *)

Lemma clamp_le_cap cap (m : num) :
  (lit 1 <=? cap) = true ->
  isNaN (Math_max (lit 1) (Math_min cap m)) = true
  \/ (Math_max (lit 1) (Math_min cap m) <=? cap) = true.
Proof.
  intros Hc. unfold Math_max, Math_min.
  destruct cap as [| | |c], m as [| | |x]; try discriminate; cbn in *; auto;
    split_ifs; cbn; qprop; auto; right; qprop; lra.
Qed.

Lemma ladderStart_reps_le_cap tt inc cap (isPullup : bool) :
  (lit 1 <=? cap) = true ->
  isNaN (fst (ladderStart tt inc cap isPullup)) = true
  \/ (fst (ladderStart tt inc cap isPullup) <=? cap) = true.
Proof.
  intros Hc. destruct isPullup.
  - unfold ladderStart. cbn [fst]. now apply clamp_le_cap.
  - destruct (barbell_start_cases tt inc cap) as [(-> & _ & H)|[[-> _]|[-> _]]];
      cbn [fst].
    + now right.
    + now apply clamp_le_cap.
    + right. destruct cap as [| | |c]; try discriminate; [reflexivity|].
      cbn. qprop. lra.
Qed.

(** With a cap of at least 1, every row of a ladder has a numeric rep count
    between 1 and the cap, whatever the other arguments are. *)
Theorem ladder_reps_within_cap (dailyMax increment startRepCap : num)
  (isPullup : bool) (bodyweight : num) :
  (startRepCap >=? lit 1) = true ->
  Forall (fun r => exists x, reps r = Num x /\ (x >=? lit 1) = true
                              /\ (x <=? startRepCap) = true)
    (sets (ladderPlan dailyMax increment startRepCap isPullup bodyweight)).
Proof.
  intros Hc.
  destruct (truthy dailyMax) eqn:Hd; [destruct (truthy increment) eqn:Hi|].
  2:{ unfold ladderPlan. rewrite Hd, Hi. constructor. }
  2:{ unfold ladderPlan. rewrite Hd. constructor. }
  rewrite (@ladderPlan_sets num exact) by assumption. cbv zeta.
  set (P := fun r : SetRow num =>
              exists x, reps r = Num x /\ (x >=? lit 1) = true
                        /\ (x <=? startRepCap) = true).
  assert (H : Forall P
                (ensureFinalSingle dailyMax
                   (rungs 400 dailyMax increment
                      (fst (ladderStart dailyMax increment startRepCap isPullup))
                      (snd (ladderStart dailyMax increment startRepCap isPullup)) 0))).
  { apply ensureFinalSingle_Forall.
    - apply rungs_Forall
        with (I := fun reps (_ : num) =>
                     isNaN reps = true \/ (reps <=? startRepCap) = true);
        [|apply ladderStart_reps_le_cap; exact Hc].
      intros reps w HI Hr _. split.
      + exists reps. split; [reflexivity|]. split; [exact Hr|].
        destruct HI as [HI|HI]; [|exact HI]. destruct reps; discriminate.
      + right. destruct HI as [HI|HI]; [destruct reps; discriminate|].
        destruct reps as [| | |r], startRepCap as [| | |c]; try discriminate;
          try reflexivity. cbn in *. qprop. lra.
    - exists (lit 1). split; [reflexivity|]. split; [reflexivity|exact Hc]. }
  destruct isPullup; [|exact H].
  apply Forall_map. eapply Forall_impl; [|exact H]. intros r Hr. exact Hr.
Qed.

Lemma ladder_reps_within_cap_witness :
  (lit (N := num) 12 >=? lit 1) = true
  /\ Forall (fun r => exists x, reps r = Num x /\ (x >=? lit 1) = true
                                /\ (x <=? lit 12) = true)
       (sets (ladderPlan (N := num) (lit 160) (lit 10) (lit 12) false (lit 80))).
Proof.
  split; [reflexivity|].
  apply (ladder_reps_within_cap (lit 160) (lit 10) (lit 12) false (lit 80)).
  reflexivity.
Defined.

(** *** The start point is the first row *)

Lemma Qmult_nonneg (x y : Q) : (0 <= x)%Q -> (0 <= y)%Q -> (0 <= x * y)%Q.
Proof. apply Qmult_le_0_compat. Qed.

Lemma clamp_ge_1 cap (m : Q) :
  (lit 1 <=? cap) = true ->
  exists r, Math_max (lit 1) (Math_min cap (Fin m)) = Fin r /\ (1 <= r)%Q.
Proof.
  intros Hc. unfold Math_max, Math_min.
  destruct cap as [| | |c]; try discriminate; cbn in *.
  - destruct (Qle_bool m 1) eqn:E; cbn; eexists; (split; [reflexivity|]); qprop; lra.
  - destruct (Qle_bool c m) eqn:E1; cbn.
    + destruct (Qle_bool c 1) eqn:E2; cbn; eexists; (split; [reflexivity|]);
        qprop; lra.
    + destruct (Qle_bool m 1) eqn:E2; cbn; eexists; (split; [reflexivity|]);
        qprop; lra.
Qed.

(** The start point passes the tests of the loop. *)
Lemma ladderStart_passes (d i : Q) cap (isPullup : bool) :
  (0 < i)%Q -> (lit 1 <=? cap) = true ->
  (if isPullup then 0 < d else 20 <= d)%Q ->
  (fst (ladderStart (Fin d) (Fin i) cap isPullup) >=? lit 1) = true
  /\ (snd (ladderStart (Fin d) (Fin i) cap isPullup) <=? Fin d + lit 1e-6) = true.
Proof.
  intros Hi Hc Hd.
  assert (Hdiv : forall x, Fin x / Fin i = Fin (x / i)).
  { intros x. cbn. now replace (Qeq_bool i 0) with false by (symmetry; qprop; lra). }
  destruct isPullup.
  - unfold ladderStart. cbn [fst snd]. rewrite Hdiv.
    change (lit 1 + Fin (d / i)) with (Fin (1 + d / i)).
    change (Math_floor (Fin (1 + d / i))) with (Fin (inject_Z (Qfloor (1 + d / i)))).
    destruct (clamp_ge_1 cap (inject_Z (Qfloor (1 + d / i))) Hc) as (r & -> & Hr).
    split; [cbn; qprop; exact Hr|].
    change (Fin d - Fin i * (Fin r - lit 1)) with (Fin (d + - (i * (r + - 1)))).
    pose proof (Qmult_nonneg i (r + - 1)) as Hm.
    destruct (Fin (d + - (i * (r + - 1))) <? lit 0); cbn; qprop; qlra.
  - destruct (barbell_start_cases (Fin d) (Fin i) cap)
      as [(-> & H1 & _)|[[-> _]|[-> Hw]]]; cbn [fst snd].
    + split; [exact H1|]. cbn. qprop. qlra.
    + change (Fin d - BAR) with (Fin (d + - 20)). rewrite Hdiv.
      change (lit 1 + Math_floor (Fin ((d + - 20) / i)))
        with (Fin (1 + inject_Z (Qfloor ((d + - 20) / i)))).
      destruct (clamp_ge_1 cap (1 + inject_Z (Qfloor ((d + - 20) / i))) Hc)
        as (r & -> & Hr).
      split; [cbn; qprop; exact Hr|]. cbn. qprop. qlra.
    + split; [exact Hc|].
      destruct cap as [| | |c]; try discriminate.
      * (* an infinite cap starts at the bar *)
        cbn in Hw. unfold signed_inf in Hw.
        destruct (Qcompare_cases i 0) as [[E ?]|[[E ?]|[E ?]]]; rewrite E in Hw;
          try lra; discriminate.
      * change (Fin d - Fin i * (Fin c - lit 1)) with (Fin (d + - (i * (c + - 1)))).
        cbn in Hc |- *. qprop.
        pose proof (Qmult_nonneg i (c + - 1)) as Hm. qlra.
Qed.

(** For a finite dailyMax that is at least the bar weight (barbell) or
    positive (pull-up), a positive finite increment and a cap of at least 1,
    the first row of the ladder is the start point the plan reports. *)
Theorem ladder_start_is_first_row (dailyMax increment startRepCap : num)
  (isPullup : bool) (bodyweight : num) :
  Number_isFinite dailyMax = true -> Number_isFinite increment = true ->
  (increment >? lit 0) = true -> (startRepCap >=? lit 1) = true ->
  (if isPullup then dailyMax >? lit 0 else dailyMax >=? lit 20) = true ->
  let p := ladderPlan dailyMax increment startRepCap isPullup bodyweight in
  exists r rest s,
    sets p = r :: rest /\ start p = Some (val s)
    /\ weight r = start_weight s /\ reps r = Num (start_reps s).
Proof.
  intros Hfd Hfi Hi Hc Hd p. subst p.
  destruct (finite_inv _ Hfd) as [d ->]. destruct (finite_inv _ Hfi) as [i ->].
  cbn in Hi. qprop.
  assert (Hd' : (if isPullup then 0 < d else 20 <= d)%Q).
  { destruct isPullup; cbn in Hd; qprop; exact Hd. }
  assert (Hnz : ~ (d == 0)%Q) by (destruct isPullup; lra).
  destruct (@ladderStart_passes d i startRepCap isPullup Hi Hc Hd') as [H1 H2].
  unfold ladderPlan.
  replace (truthy (Fin d)) with true by (symmetry; apply truthy_Fin; exact Hnz).
  replace (truthy (Fin i)) with true by (symmetry; apply truthy_Fin; lra).
  cbn [negb orb].
  destruct (ladderStart (Fin d) (Fin i) startRepCap isPullup) as [r0 w0].
  cbn [fst snd] in H1, H2. cbn [sets start]. rewrite (@ladderRun_sets num exact).
  change 400%nat with (S 399). rewrite rungs_S, H1, H2. cbn [andb Nat.ltb Nat.leb].
  set (tl := rungs 399 (Fin d) (Fin i) (r0 - lit 1) (w0 + Fin i) 1).
  assert (Hhead : exists rest,
             ensureFinalSingle (Fin d) (rung w0 r0 :: tl) = rung w0 r0 :: rest).
  { destruct (ensureFinalSingle_cases (Fin d) (rung w0 r0 :: tl)) as [[-> _]| ->].
    - now exists tl.
    - now exists (tl ++ [rung (Fin d) (lit 1)]). }
  destruct Hhead as [rest ->].
  destruct isPullup.
  - exists (setExternal bodyweight (rung w0 r0)), (map (setExternal bodyweight) rest).
    eexists. repeat split.
  - exists (rung w0 r0), rest. eexists. repeat split.
Qed.

Lemma ladder_start_is_first_row_witness :
  Number_isFinite (N := num) (lit 60) = true
  /\ Number_isFinite (N := num) (lit 2.5) = true
  /\ (lit (N := num) 2.5 >? lit 0) = true /\ (lit (N := num) 8 >=? lit 1) = true
  /\ (lit (N := num) 60 >? lit 0) = true
  /\ exists r rest s,
      sets (ladderPlan (N := num) (lit 60) (lit 2.5) (lit 8) true (lit 80)) = r :: rest
      /\ start (ladderPlan (N := num) (lit 60) (lit 2.5) (lit 8) true (lit 80))
         = Some (val s)
      /\ weight r = start_weight s /\ reps r = Num (start_reps s).
Proof.
  do 5 (split; [reflexivity|]).
  apply (ladder_start_is_first_row (lit 60) (lit 2.5) (lit 8) true (lit 80));
    reflexivity.
Defined.

(** Without the conditions the start point can differ from the rows: for a
    dailyMax of 10, below the bar, the plan reports the start 20 kg x 1 but
    its only row is 10 kg x 1. *)
Example start_differs_from_rows_below_bar :
  mapPlan canon (ladderPlan (N := num) (lit 10) (lit 10) (lit 12) false (lit 80))
  = {| sets := [row 10 1]; tonnage := Fin 10;
       start := Some (val {| start_weight := Fin 20; start_reps := Fin 1 |});
       topSingle := None; heavyReps := None |}.
Proof. vm_compute. reflexivity. Qed.

(** *** Weights are whole numbers of steps *)

(** For a dailyMax of magnitude at most 10^9 and a finite increment every row
    of a ladder weighs a whole number of 2.5 kg steps. *)
Theorem ladder_weights_are_steps (dailyMax increment startRepCap : num)
  (isPullup : bool) (bodyweight : num) :
  (Math_abs dailyMax <=? lit 1000000000) = true -> Number_isFinite increment = true ->
  Forall (fun r => exists k : Z, weight r = Fin (inject_Z k * 2.5))
    (sets (ladderPlan dailyMax increment startRepCap isPullup bodyweight)).
Proof.
  intros Hb Hfi.
  assert (Hfd : Number_isFinite dailyMax = true)
    by (destruct dailyMax; try discriminate; reflexivity).
  destruct (finite_inv _ Hfd) as [d ->]. destruct (finite_inv _ Hfi) as [i ->].
  destruct (truthy (Fin d)) eqn:Hd; [destruct (truthy (Fin i)) eqn:Hi|].
  2:{ unfold ladderPlan. rewrite Hd, Hi. constructor. }
  2:{ unfold ladderPlan. rewrite Hd. constructor. }
  rewrite (@ladderPlan_sets num exact) by assumption. cbv zeta.
  set (P := fun r : SetRow num => exists k : Z, weight r = Fin (inject_Z k * 2.5)).
  assert (HP : forall q, P (rung (Fin q) (lit 1)) /\ forall reps, P (rung (Fin q) reps)).
  { intros q. split; [|intros reps]; exists (Qfloor (q / 2.5 + (1 # 2))); reflexivity. }
  assert (H : Forall P
                (ensureFinalSingle (Fin d)
                   (rungs 400 (Fin d) (Fin i)
                      (fst (ladderStart (Fin d) (Fin i) startRepCap isPullup))
                      (snd (ladderStart (Fin d) (Fin i) startRepCap isPullup)) 0))).
  { apply ensureFinalSingle_Forall; [|apply HP].
    apply rungs_Forall with (I := fun (_ : num) w => w <> NInf).
    - intros reps w HI _ Hw. split.
      + destruct w as [| | |q]; try discriminate; [contradiction|]. apply HP.
      + destruct w; cbn; congruence.
    - destruct isPullup.
      + pose proof (pullup_start_weight (Fin d) (Fin i) startRepCap) as Hs.
        intros E. rewrite E in Hs. discriminate.
      + pose proof (barbell_start_weight (Fin d) (Fin i) startRepCap) as Hs.
        intros E. rewrite E in Hs. discriminate. }
  destruct isPullup; [|exact H].
  apply Forall_map. eapply Forall_impl; [|exact H]. intros r Hr. exact Hr.
Qed.

Lemma ladder_weights_are_steps_witness :
  (Math_abs (N := num) (lit 22.5) <=? lit 1000000000) = true
  /\ Number_isFinite (N := num) (lit 1) = true
  /\ Forall (fun r => exists k : Z, weight r = Fin (inject_Z k * 2.5))
       (sets (ladderPlan (N := num) (lit 22.5) (lit 1) (lit 12) false (lit 80))).
Proof.
  do 2 (split; [reflexivity|]).
  apply (ladder_weights_are_steps (lit 22.5) (lit 1) (lit 12) false (lit 80));
    reflexivity.
Defined.

End LadderExact.

Section PercentExact.

Import Exact ExactFacts ExactTactics.
Local Open Scope js_scope.

Local Arguments Qfloor : simpl never.
Local Arguments Qplus : simpl never.
Local Arguments Qmult : simpl never.
Local Arguments Qopp : simpl never.
Local Arguments Qinv : simpl never.
Local Arguments Qdiv : simpl never.
Local Arguments Qabs : simpl never.
Local Arguments inject_Z : simpl never.
Local Arguments qround : simpl never.

Lemma step_near (p d : Q) :
  exists k : Z,
    roundToNearest2point5 (Fin p * Fin d) = Fin (inject_Z k * 2.5)
    /\ (p * d - 1.25 < inject_Z k * 2.5)%Q /\ (inject_Z k * 2.5 <= p * d + 1.25)%Q.
Proof.
  exists (Qfloor (p * d / 2.5 + (1 # 2))). split; [reflexivity|].
  pose proof (qround25_lower (p * d)) as Hl. pose proof (qround25_upper (p * d)) as Hu.
  unfold qround25, qround in Hl, Hu. split; assumption.
Qed.

Lemma step_near_slack (p d : Q) :
  exists k : Z,
    roundToNearest2point5 (Fin p * Fin d) = Fin (inject_Z k * 2.5)
    /\ (p * d - 1.250001 < inject_Z k * 2.5)%Q
    /\ (inject_Z k * 2.5 <= p * d + 1.250001)%Q.
Proof.
  destruct (step_near p d) as (k & E & Hl & Hu).
  exists k. split; [exact E|]. split; lra.
Qed.

(** [rpPercentPlan] returns the empty plan exactly when dailyMax is falsy
    (zero or NaN).  For every other dailyMax, negative and infinite ones
    included, it returns five rows with reps "1+" to "5+" and notes 90, 85,
    80, 75 and 70 percent; for a dailyMax of magnitude at most 10^9 each row
    weighs a whole number of 2.5 kg steps within 1.250001 of its percentage
    of dailyMax (1.25 for the step and room for the rounding of the product
    on doubles, which can put a tie on the other side). *)
Theorem percent_plan_rows (dailyMax : num) :
  (rpPercentPlan dailyMax = emptyPercentPlan <-> truthy dailyMax = false)
  /\ (truthy dailyMax = true ->
      map (@reps num) (sets (rpPercentPlan dailyMax))
      = [Str "1+"; Str "2+"; Str "3+"; Str "4+"; Str "5+"]
      /\ map (fun r => option_map (mapNote canon) (note r))
           (sets (rpPercentPlan dailyMax))
         = [Some (Percent (Fin 90)); Some (Percent (Fin 85)); Some (Percent (Fin 80));
            Some (Percent (Fin 75)); Some (Percent (Fin 70))]
      /\ forall d, dailyMax = Fin d -> (Qabs d <= 1000000000)%Q ->
           Forall2 (fun r pct =>
                      exists k : Z,
                        weight r = Fin (inject_Z k * 2.5)
                        /\ (pct * d - 1.250001 < inject_Z k * 2.5)%Q
                        /\ (inject_Z k * 2.5 <= pct * d + 1.250001)%Q)
             (sets (rpPercentPlan dailyMax)) [0.9; 0.85; 0.8; 0.75; 0.7]%Q).
Proof.
  unfold rpPercentPlan. destruct (truthy dailyMax) eqn:Ht; cbn [negb].
  - split; [split; intros H; discriminate H|]. intros _.
    cbn [sets map percentScheme percentRow fst snd reps note].
    split; [reflexivity|]. split; [vm_compute; reflexivity|].
    intros d -> _.
    repeat (constructor; [apply step_near_slack|]).
    constructor.
  - split; [split; auto|]. discriminate.
Qed.

Lemma percent_plan_rows_witness :
  truthy (N := num) (Fin 87.5) = true /\ (Qabs 87.5 <= 1000000000)%Q
  /\ Forall2 (fun r pct =>
                exists k : Z,
                  weight r = Fin (inject_Z k * 2.5)
                  /\ (pct * 87.5 - 1.250001 < inject_Z k * 2.5)%Q
                  /\ (inject_Z k * 2.5 <= pct * 87.5 + 1.250001)%Q)
       (sets (rpPercentPlan (Fin 87.5))) [0.9; 0.85; 0.8; 0.75; 0.7]%Q.
Proof.
  assert (Ht : truthy (N := num) (Fin 87.5) = true) by reflexivity.
  assert (Hb : (Qabs 87.5 <= 1000000000)%Q) by (vm_compute; discriminate).
  split; [exact Ht|]. split; [exact Hb|].
  exact (proj2 (proj2 (proj2 (percent_plan_rows (Fin 87.5)) Ht)) 87.5 eq_refl Hb).
Defined.

(** The leading integers of the rep strings. *)
Lemma leading_integers :
  map (fun s => or_else (N := num) (parseInt (Str s)) (lit 0))
    ["1+"; "2+"; "3+"; "4+"; "5+"]%string
  = [Fin 1; Fin 2; Fin 3; Fin 4; Fin 5].
Proof. vm_compute. reflexivity. Qed.

(** For a finite dailyMax above 25 the heavy reps are 6 when the 80 percent
    row does not round below 80 percent of dailyMax, and 3 when it does: the
    rows at 90 and 85 percent always count, those at 75 and 70 percent never
    do. *)
Theorem percent_heavy_reps (dailyMax : num) :
  Number_isFinite dailyMax = true -> (dailyMax >? lit 25) = true ->
  exists h,
    heavyReps (rpPercentPlan dailyMax) = Some h
    /\ (h === (if roundToNearest2point5 (lit 0.8 * dailyMax) >=? lit 0.8 * dailyMax
               then lit 6 else lit 3)) = true.
Proof.
  intros Hf Hd. destruct (finite_inv _ Hf) as [d ->]. cbn in Hd. qprop.
  unfold rpPercentPlan.
  replace (truthy (Fin d)) with true by (symmetry; apply truthy_Fin; lra).
  cbn [negb heavyReps]. eexists. split; [reflexivity|].
  cbn [map percentScheme percentRow fst snd filter weight].
  change (lit 0.9 * Fin d) with (Fin (0.9 * d)).
  change (lit 0.85 * Fin d) with (Fin (0.85 * d)).
  change (lit 0.8 * Fin d) with (Fin (0.8 * d)).
  change (lit 0.75 * Fin d) with (Fin (0.75 * d)).
  change (lit 0.7 * Fin d) with (Fin (0.7 * d)).
  rewrite !r25_Fin.
  change (Fin (qround25 (0.9 * d)) >=? Fin (0.8 * d))
    with (Qle_bool (0.8 * d) (qround25 (0.9 * d))).
  change (Fin (qround25 (0.85 * d)) >=? Fin (0.8 * d))
    with (Qle_bool (0.8 * d) (qround25 (0.85 * d))).
  change (Fin (qround25 (0.8 * d)) >=? Fin (0.8 * d))
    with (Qle_bool (0.8 * d) (qround25 (0.8 * d))).
  change (Fin (qround25 (0.75 * d)) >=? Fin (0.8 * d))
    with (Qle_bool (0.8 * d) (qround25 (0.75 * d))).
  change (Fin (qround25 (0.7 * d)) >=? Fin (0.8 * d))
    with (Qle_bool (0.8 * d) (qround25 (0.7 * d))).
  pose proof (qround25_lower (0.9 * d)). pose proof (qround25_lower (0.85 * d)).
  pose proof (qround25_upper (0.75 * d)). pose proof (qround25_upper (0.7 * d)).
  replace (Qle_bool (0.8 * d) (qround25 (0.9 * d))) with true
    by (symmetry; qprop; lra).
  replace (Qle_bool (0.8 * d) (qround25 (0.85 * d))) with true
    by (symmetry; qprop; lra).
  replace (Qle_bool (0.8 * d) (qround25 (0.75 * d))) with false
    by (symmetry; qprop; lra).
  replace (Qle_bool (0.8 * d) (qround25 (0.7 * d))) with false
    by (symmetry; qprop; lra).
  destruct (Qle_bool (0.8 * d) (qround25 (0.8 * d)));
    cbn [fold_left reps]; vm_compute; reflexivity.
Qed.

Lemma percent_heavy_reps_witness :
  Number_isFinite (N := num) (lit 101) = true /\ (lit (N := num) 101 >? lit 25) = true
  /\ exists h,
      heavyReps (rpPercentPlan (N := num) (lit 101)) = Some h
      /\ (h === (if roundToNearest2point5 (lit 0.8 * lit 101) >=? lit 0.8 * lit 101
                 then lit 6 else lit 3)) = true.
Proof.
  do 2 (split; [reflexivity|]).
  exact (percent_heavy_reps (lit 101) eq_refl eq_refl).
Defined.

(** The heavy reps over a few daily maxima, on exact numbers and on doubles:
    6 for 100, but 3 for 101 (80.8 rounds down to 80), 10 for 25 (18.75
    rounds up to 20) and 15 for 3 (every row rounds to 2.5). *)
Example heavy_reps_samples :
  map (fun d => option_map canon (heavyReps (rpPercentPlan (N := num) (Fin d))))
    [100; 101; 25; 3]%Q
  = [Some (Fin 6); Some (Fin 3); Some (Fin 10); Some (Fin 15)]
  /\ map (fun d => option_map Binary64.to_exact
                     (heavyReps (rpPercentPlan (N := spec_float) (lit d))))
       [100; 101; 25; 3]%Q
     = [Some (Fin 6); Some (Fin 3); Some (Fin 10); Some (Fin 15)].
Proof. split; vm_compute; reflexivity. Qed.

End PercentExact.

Section FixedDropAnyNumbers.

Context (N : Type) (number : Number N).

Local Open Scope js_scope.

(** The rows the for loop pushes, from index [i] and running weight [w]. *)
Fixpoint dropRows (remaining : nat) (drop : N) (repScheme : list N) (i : nat) (w : N)
  : list (SetRow N) :=
  match remaining with
  | O => []
  | S remaining' =>
      let w := w - drop in
      if w <=? lit 0 then []
      else dropRow drop w (schemeReps repScheme i)
             :: dropRows remaining' drop repScheme (S i) w
  end.

Lemma dropLoop_rows (n : nat) (drop : N) (repScheme : list N) (i : nat) (w : N)
  (rows : list (SetRow N)) :
  dropLoop n drop repScheme i w rows = rows ++ dropRows n drop repScheme i w.
Proof.
  revert i w rows. induction n as [|n IH]; intros i w rows; cbn [dropLoop dropRows].
  - now rewrite app_nil_r.
  - destruct (w - drop <=? lit 0); [now rewrite app_nil_r|].
    rewrite IH, <- app_assoc. reflexivity.
Qed.

Lemma dropRows_nth (drop : N) (repScheme : list N) :
  forall (n i : nat) (w : N) (j : nat) (row : SetRow N),
    nth_error (dropRows n drop repScheme i w) j = Some row ->
    row = dropRow drop (iteratedWeight w drop (S j)) (schemeReps repScheme (i + j)).
Proof.
  unfold iteratedWeight.
  induction n as [|n IH]; intros i w j row H; cbn [dropRows] in H.
  - destruct j; discriminate.
  - destruct (w - drop <=? lit 0); [destruct j; discriminate|].
    destruct j as [|j]; cbn [nth_error] in H.
    + inversion H. now rewrite Nat.add_0_r.
    + apply IH in H. rewrite H.
      replace (S i + j)%nat with (i + S j)%nat by lia.
      f_equal. rewrite (Nat.iter_succ_r (S j)). reflexivity.
Qed.

Lemma nth_error_last (A : Type) (l : list A) (d : A) :
  l <> [] -> nth_error l (List.length l - 1) = Some (last l d).
Proof.
  induction l as [|a l IH]; intros H; [contradiction|].
  destruct l as [|b l]; [reflexivity|].
  cbn [List.length last] in *. rewrite Nat.sub_succ, Nat.sub_0_r in *.
  cbn [nth_error]. apply IH. discriminate.
Qed.

(** The rep target of row [i]: [repScheme[i]] when the scheme has it; for a
    shorter scheme its last entry; undefined for the empty scheme. *)
Lemma schemeReps_cases (repScheme : list N) (i : nat) (d : N) :
  schemeReps repScheme i
  = match nth_error repScheme i with
    | Some r => Num r
    | None =>
        match repScheme with
        | [] => Undefined
        | _ => Num (last repScheme d)
        end
    end.
Proof.
  unfold schemeReps. destruct (nth_error repScheme i); [reflexivity|].
  destruct repScheme as [|a l]; [reflexivity|].
  rewrite (nth_error_last _ (a :: l) d) by discriminate. reflexivity.
Qed.

(** Every back-off row of [rpFixedDropPlan], for any numbers: row [j] (from
    0) weighs the rounded top single less [j + 1] drops, its note is the
    drop, it has no external load, and its reps are [repScheme[j]], or the
    last entry of a shorter scheme, or undefined for an empty scheme. *)
Theorem fixed_drop_rows (dailyMax drop : N) (n_sets : Z) (repScheme : list N)
  (d : N) (j : nat) (row : SetRow N) :
  nth_error (sets (rpFixedDropPlan dailyMax drop n_sets repScheme)) j = Some row ->
  weight row
  = roundToNearest2point5
      (iteratedWeight (roundToNearest2point5 (lit 0.95 * dailyMax)) drop (S j))
  /\ note row = Some (DropKg drop)
  /\ external row = None
  /\ reps row
     = match nth_error repScheme j with
       | Some r => Num r
       | None =>
           match repScheme with
           | [] => Undefined
           | _ => Num (last repScheme d)
           end
       end.
Proof.
  unfold rpFixedDropPlan. destruct (truthy dailyMax); cbn [negb sets].
  - rewrite dropLoop_rows. cbn [app]. intros H.
    apply dropRows_nth in H. cbn [Nat.add] in H. subst row.
    cbn [dropRow weight note external reps].
    repeat split. apply schemeReps_cases.
  - destruct j; discriminate.
Qed.

End FixedDropAnyNumbers.

Lemma fixed_drop_rows_witness :
  exists row,
    nth_error
      (sets (rpFixedDropPlan (N := Exact.num) (lit 100) (lit 10) 6 [lit 3; lit 5])) 3
    = Some row
    /\ weight row
       = roundToNearest2point5
           (iteratedWeight (roundToNearest2point5 (lit 0.95 * lit 100)%js) (lit 10) 4)
    /\ reps row = Num (lit 5).
Proof.
  assert (E : nth_error
                (sets (rpFixedDropPlan (N := Exact.num) (lit 100) (lit 10) 6
                         [lit 3; lit 5])) 3
              = Some (dropRow (lit 10)
                        (iteratedWeight (roundToNearest2point5 (lit 0.95 * lit 100)%js)
                           (lit 10) 4)
                        (Num (lit 5))))
    by (vm_compute; reflexivity).
  eexists. split; [exact E|].
  destruct (fixed_drop_rows Exact.num exact (lit 100) (lit 10) 6 [lit 3; lit 5]
              (lit 0) 3 _ E) as (Hw & _ & _ & Hr).
  split; [exact Hw|exact Hr].
Defined.


Section FixedDropExact.

Import Exact ExactFacts ExactTactics.
Local Open Scope js_scope.

Local Arguments Qfloor : simpl never.
Local Arguments Qplus : simpl never.
Local Arguments Qmult : simpl never.
Local Arguments Qopp : simpl never.
Local Arguments Qinv : simpl never.
Local Arguments Qdiv : simpl never.
Local Arguments Qabs : simpl never.
Local Arguments inject_Z : simpl never.
Local Arguments qround : simpl never.
Local Arguments dropRows {N number} remaining drop repScheme i w.

(** For a non-zero dailyMax of magnitude at most 10^9 the top single is a
    whole number of 2.5 kg steps within 1.250001 of 95 percent of dailyMax
    (1.25 for the step and room for the rounding of the product on doubles),
    and it does not exceed dailyMax once dailyMax is at least 25. *)
Theorem fixed_drop_top_single (d : Q) (drop : num) (n_sets : Z) (repScheme : list num) :
  ~ (d == 0)%Q -> (Qabs d <= 1000000000)%Q ->
  exists k : Z,
    topSingle (rpFixedDropPlan (Fin d) drop n_sets repScheme)
    = Some (val (Fin (inject_Z k * 2.5)))
    /\ (0.95 * d - 1.250001 < inject_Z k * 2.5)%Q
    /\ (inject_Z k * 2.5 <= 0.95 * d + 1.250001)%Q
    /\ ((25 <= d)%Q -> (inject_Z k * 2.5 <= d)%Q).
Proof.
  intros Hd _. apply truthy_Fin in Hd.
  destruct (rpFixedDropPlan_truthy (Fin d) drop n_sets repScheme Hd) as [_ ->].
  destruct (step_near 0.95 d) as (k & E & Hl & Hu).
  exists k. split; [rewrite <- E; reflexivity|].
  repeat split; try lra.
Qed.

Lemma fixed_drop_top_single_witness :
  ~ (100 == 0)%Q /\ (Qabs 100 <= 1000000000)%Q
  /\ exists k : Z,
      topSingle (rpFixedDropPlan (Fin 100) (lit 10) 4 default_repScheme)
      = Some (val (Fin (inject_Z k * 2.5)))
      /\ (0.95 * 100 - 1.250001 < inject_Z k * 2.5)%Q
      /\ (inject_Z k * 2.5 <= 0.95 * 100 + 1.250001)%Q
      /\ ((25 <= 100)%Q -> (inject_Z k * 2.5 <= 100)%Q).
Proof.
  assert (H : ~ (100 == 0)%Q) by discriminate.
  assert (Hb : (Qabs 100 <= 1000000000)%Q) by (vm_compute; discriminate).
  split; [exact H|]. split; [exact Hb|].
  exact (fixed_drop_top_single 100 (lit 10) 4 default_repScheme H Hb).
Defined.

(** Below 25 the top single can exceed dailyMax: 2.5 for a dailyMax of 1.4,
    on exact numbers and on doubles. *)
Example top_single_above_daily_max :
  option_map (mapNullable canon)
    (topSingle (rpFixedDropPlan (N := num) (lit 1.4) (lit 10) 4 default_repScheme))
  = Some (val (Fin (5 # 2)))
  /\ option_map (mapNullable Binary64.to_exact)
       (topSingle (rpFixedDropPlan (N := spec_float) (lit 1.4) (lit 10) 4
                     default_repScheme))
     = Some (val (Fin (5 # 2))).
Proof. split; vm_compute; reflexivity. Qed.

(** *** The weights of the back-off rows *)

Lemma dropRows_weights (dq t : Q) (repScheme : list num) :
  (0 < dq)%Q -> (qround25 t == t)%Q ->
  forall (n i : nat) (wq : Q),
    (wq <= t)%Q ->
    Forall (fun r => (weight r >=? lit 0) = true /\ (weight r <=? Fin t) = true)
      (dropRows n (Fin dq) repScheme i (Fin wq))
    /\ Sorted (fun r1 r2 : SetRow num => (weight r1 >=? weight r2) = true)
         (dropRows n (Fin dq) repScheme i (Fin wq))
    /\ ((2.5 <= dq)%Q ->
        Sorted (fun r1 r2 : SetRow num => (weight r1 >? weight r2) = true)
          (dropRows n (Fin dq) repScheme i (Fin wq)))
    /\ HdRel (fun r1 r2 : SetRow num => (weight r1 >=? weight r2) = true)
         (dropRow (Fin dq) (Fin wq) Undefined)
         (dropRows n (Fin dq) repScheme i (Fin wq))
    /\ ((2.5 <= dq)%Q ->
        HdRel (fun r1 r2 : SetRow num => (weight r1 >? weight r2) = true)
          (dropRow (Fin dq) (Fin wq) Undefined)
          (dropRows n (Fin dq) repScheme i (Fin wq))).
Proof.
  intros Hd Ht. induction n as [|n IH]; intros i wq Hw; cbn [dropRows].
  - repeat split; intros; constructor.
  - change (Fin wq - Fin dq) with (Fin (wq + - dq)).
    change (Fin (wq + - dq) <=? lit 0) with (Qle_bool (wq + - dq) 0).
    destruct (Qle_bool (wq + - dq) 0) eqn:E; [repeat split; intros; constructor|].
    qprop.
    destruct (IH (S i) (wq + - dq)%Q ltac:(lra)) as (HF & HS & HS' & HH & HH').
    assert (Hmono : (qround25 (wq + - dq) <= qround25 wq)%Q)
      by (apply qround25_mono; lra).
    repeat split.
    + constructor; [|exact HF]. cbn [dropRow weight]. rewrite r25_Fin. cbn. split; qprop.
      * pose proof (@qround25_mono 0 (wq + - dq) ltac:(lra)). pose proof qround25_0. lra.
      * pose proof (@qround25_mono (wq + - dq) t ltac:(lra)). lra.
    + constructor; [exact HS|].
      destruct HH as [|b l Hb]; constructor. exact Hb.
    + intros H25. constructor; [now apply HS'|].
      destruct (HH' H25) as [|b l Hb]; constructor. exact Hb.
    + constructor. cbn [dropRow weight]. rewrite !r25_Fin. cbn. qprop. exact Hmono.
    + intros H25. constructor. cbn [dropRow weight]. rewrite !r25_Fin. cbn. qprop.
      apply qround25_strict. lra.
Qed.

(** For a positive dailyMax of at most 10^9 and a positive finite drop, every
    back-off row weighs between 0 and the top single, the weights never
    increase from one row to the next, and they strictly decrease when the
    drop is at least 2.5. *)
Theorem fixed_drop_weights_descend (dailyMax drop : num) (n_sets : Z)
  (repScheme : list num) :
  (dailyMax >? lit 0) = true -> (dailyMax <=? lit 1000000000) = true ->
  Number_isFinite drop = true -> (drop >? lit 0) = true ->
  let rows := sets (rpFixedDropPlan dailyMax drop n_sets repScheme) in
  Forall (fun r => (weight r >=? lit 0) = true
                   /\ (weight r <=? roundToNearest2point5 (lit 0.95 * dailyMax)) = true)
    rows
  /\ Sorted (fun r1 r2 => (weight r1 >=? weight r2) = true) rows
  /\ ((drop >=? lit 2.5) = true ->
      Sorted (fun r1 r2 => (weight r1 >? weight r2) = true) rows).
Proof.
  intros Hd Hb Hfq Hq rows. subst rows.
  assert (Hfd : Number_isFinite dailyMax = true)
    by (destruct dailyMax; try discriminate; reflexivity).
  destruct (finite_inv _ Hfd) as [d ->]. destruct (finite_inv _ Hfq) as [dq ->].
  cbn in Hd, Hq. qprop.
  assert (Ht : truthy (Fin d) = true) by (apply truthy_Fin; lra).
  destruct (rpFixedDropPlan_truthy (Fin d) (Fin dq) n_sets repScheme Ht) as [-> _].
  rewrite (dropLoop_rows num exact). cbn [app].
  change (roundToNearest2point5 (lit 0.95 * Fin d)) with (Fin (qround25 (0.95 * d))).
  destruct (dropRows_weights dq (qround25 (0.95 * d)) repScheme Hq
              (qround25_idem (0.95 * d)) (Z.to_nat n_sets) 0 (qround25 (0.95 * d))
              ltac:(lra))
    as (HF & HS & HS' & _ & _).
  repeat split; try assumption.
  intros H. apply HS'. cbn in H. qprop. exact H.
Qed.

Lemma fixed_drop_weights_descend_witness :
  (lit (N := num) 100 >? lit 0) = true /\ (lit (N := num) 100 <=? lit 1000000000) = true
  /\ Number_isFinite (N := num) (lit 10) = true /\ (lit (N := num) 10 >? lit 0) = true
  /\ Sorted (fun r1 r2 => (weight r1 >=? weight r2) = true)
       (sets (rpFixedDropPlan (N := num) (lit 100) (lit 10) 4 default_repScheme)).
Proof.
  do 4 (split; [reflexivity|]).
  exact (proj1 (proj2 (fixed_drop_weights_descend (lit 100) (lit 10) 4
                         default_repScheme eq_refl eq_refl eq_refl eq_refl))).
Defined.

(** A back-off row can weigh 0: a dailyMax of 4 has the top single 5, and a
    drop of 4 leaves 1 kg, which rounds to 0. *)
Example back_off_row_of_zero :
  map (fun r => canon (weight r))
    (sets (rpFixedDropPlan (N := num) (lit 4) (lit 4) 4 default_repScheme))
  = [Fin 0]
  /\ map (fun r => Binary64.to_exact (weight r))
       (sets (rpFixedDropPlan (N := spec_float) (lit 4) (lit 4) 4 default_repScheme))
     = [Fin 0].
Proof. split; vm_compute; reflexivity. Qed.

(** *** An empty rep scheme *)

Lemma dropRows_undefined (drop : num) :
  forall (n i : nat) (w : num),
    Forall (fun r => reps r = Undefined) (dropRows n drop [] i w).
Proof.
  induction n as [|n IH]; intros i w; cbn [dropRows]; [constructor|].
  destruct (w - drop <=? lit 0); constructor; [|apply IH].
  cbn [dropRow reps]. unfold schemeReps. now destruct i.
Qed.

Lemma fold_tonnage_nan (rows : list (SetRow num)) :
  fold_left (fun a b => a + weight b * toNumber (reps b)) rows NaN = NaN.
Proof. induction rows as [|r rows IH]; [reflexivity|]. cbn [fold_left]. exact IH. Qed.

Lemma fold_tonnage_undefined (rows : list (SetRow num)) (a0 : num) :
  Forall (fun r => reps r = Undefined) rows -> rows <> [] ->
  fold_left (fun a b => a + weight b * toNumber (reps b)) rows a0 = NaN.
Proof.
  intros HF Hne. destruct rows as [|r rows]; [contradiction|].
  cbn [fold_left]. apply Forall_inv in HF. rewrite HF. cbn [toNumber].
  replace (a0 + weight r * nan) with NaN; [apply fold_tonnage_nan|].
  destruct a0, (weight r); reflexivity.
Qed.

(** With an empty rep scheme every back-off row has undefined reps, and as
    soon as there is a row the tonnage is NaN. *)
Theorem fixed_drop_empty_scheme (dailyMax drop : num) (n_sets : Z) :
  let p := rpFixedDropPlan dailyMax drop n_sets [] in
  Forall (fun r => reps r = Undefined) (sets p)
  /\ (sets p <> [] -> tonnage p = NaN).
Proof.
  intros p. subst p. unfold rpFixedDropPlan.
  destruct (truthy dailyMax); cbn [negb sets tonnage].
  - rewrite (dropLoop_rows num exact). cbn [app].
    pose proof (dropRows_undefined drop (Z.to_nat n_sets) 0%nat
                  (roundToNearest2point5 (lit 0.95 * dailyMax))) as HF.
    split; [exact HF|]. intros Hne.
    rewrite (fold_tonnage_undefined _ _ HF Hne).
    destruct (roundToNearest2point5 (lit 0.95 * dailyMax) * lit 1); reflexivity.
  - split; [constructor|]. intros H. now contradiction H.
Qed.

(** With the scheme "0" of the form, which is filtered to the empty list, a
    dailyMax of 100 gets four rows without reps and the tonnage NaN. *)
Example empty_scheme_100 :
  List.length (sets (rpFixedDropPlan (N := num) (lit 100) (lit 10) 4 [])) = 4%nat
  /\ tonnage (rpFixedDropPlan (N := num) (lit 100) (lit 10) 4 []) = NaN
  /\ tonnage (rpFixedDropPlan (N := spec_float) (lit 100) (lit 10) 4 []) = S754_nan.
Proof. repeat split; vm_compute; reflexivity. Qed.

End FixedDropExact.

(** *** Tonnage *)

Section Tonnage.

Import Exact ExactFacts ExactTactics.
Local Open Scope js_scope.

Local Arguments Qfloor : simpl never.
Local Arguments Qplus : simpl never.
Local Arguments Qmult : simpl never.
Local Arguments Qopp : simpl never.
Local Arguments Qinv : simpl never.
Local Arguments Qdiv : simpl never.
Local Arguments Qabs : simpl never.
Local Arguments inject_Z : simpl never.
Local Arguments qround : simpl never.
Local Arguments dropRows {N number} remaining drop repScheme i w.

(** A finite amount that is a whole number of hundredths. *)
Definition hundredths (a : num) : Prop :=
  match a with
  | Fin q => exists k : Z, (q * 100 == inject_Z k)%Q
  | _ => False
  end.

(** A finite whole number. *)
Definition whole (a : num) : Prop :=
  match a with
  | Fin q => exists m : Z, (q == inject_Z m)%Q
  | _ => False
  end.

Lemma hundredths_0 : hundredths (lit 0).
Proof. exists 0%Z. reflexivity. Qed.

Lemma hundredths_add (a b : num) : hundredths a -> hundredths b -> hundredths (a + b).
Proof.
  destruct a as [| | |x], b as [| | |y]; try contradiction.
  intros [k Hk] [l Hl]. exists (k + l)%Z. rewrite inject_Z_plus. lra.
Qed.

Lemma whole_Z (m : Z) : whole (Fin (inject_Z m)).
Proof. exists m. reflexivity. Qed.

Lemma whole_finite (a : num) : whole a -> exists q, a = Fin q.
Proof. destruct a as [| | |q]; try contradiction. now exists q. Qed.

Lemma whole_pred (a : num) : whole a -> whole (a - lit 1).
Proof.
  destruct a as [| | |q]; try contradiction. intros [m Hm]. exists (m - 1)%Z.
  unfold Z.sub. rewrite inject_Z_plus. change (inject_Z (- (1))) with (- (1))%Q. lra.
Qed.

Lemma whole_succ (a : num) : whole a -> whole (lit 1 + a).
Proof.
  destruct a as [| | |q]; try contradiction. intros [m Hm]. exists (1 + m)%Z.
  rewrite inject_Z_plus. change (inject_Z 1) with 1%Q. lra.
Qed.

Lemma whole_clamp (cap m : num) :
  whole cap -> whole m -> whole (Math_max (lit 1) (Math_min cap m)).
Proof.
  destruct cap as [| | |c], m as [| | |x]; try contradiction. intros Hc Hx.
  assert (H1 : whole (Fin 1)) by (exists 1%Z; reflexivity).
  assert (Hmin : Math_min (Fin c) (Fin x) = Fin c \/ Math_min (Fin c) (Fin x) = Fin x).
  { unfold Math_min. cbn.
    match goal with |- context [if ?b then _ else _] => destruct b end; auto. }
  assert (Hmax : forall y, Math_max (lit 1) (Fin y) = Fin 1
                           \/ Math_max (lit 1) (Fin y) = Fin y).
  { intros y. unfold Math_max. cbn.
    match goal with |- context [if ?b then _ else _] => destruct b end; auto. }
  destruct Hmin as [-> | ->];
    match goal with |- whole (Math_max _ (Fin ?y)) => destruct (Hmax y) as [-> | ->] end;
    assumption.
Qed.

(** A weight rounded to 2.5 kg steps, times a whole number of reps. *)
Lemma step_times_whole (q : Q) (r : num) :
  whole r -> hundredths (roundToNearest2point5 (Fin q) * r).
Proof.
  destruct r as [| | |x]; try contradiction. intros [m Hm].
  exists (250 * Qfloor (q / 2.5 + (1 # 2)) * m)%Z.
  change (qround25 q * x * 100
          == inject_Z (250 * Qfloor (q / 2.5 + (1 # 2)) * m))%Q.
  unfold qround25, qround.
  rewrite !inject_Z_mult. change (inject_Z 250) with 250%Q. rewrite Hm. ring.
Qed.

(** In exact arithmetic [round2] leaves a whole number of hundredths as it
    is. *)
Lemma round2_fix (a : num) : hundredths a -> (round2 a === a) = true.
Proof.
  destruct a as [| | |q]; try contradiction. intros [k Hk].
  rewrite round2_Fin. cbn. qprop. unfold qround2.
  assert (E : qround ((q + (1 # 4503599627370496)) * 100) = inject_Z k).
  { unfold qround. f_equal.
    set (x := ((q + (1 # 4503599627370496)) * 100 + (1 # 2))%Q).
    pose proof (Qfloor_le x) as Hl. pose proof (Qlt_floor x) as Hu.
    assert (Hx1 : (inject_Z k < x)%Q) by (subst x; qlra).
    assert (Hx2 : (x < inject_Z k + 1)%Q) by (subst x; qlra).
    clearbody x.
    assert (H1 : (inject_Z (Qfloor x) < inject_Z (k + 1))%Q).
    { rewrite inject_Z_plus. change (inject_Z 1) with 1%Q. lra. }
    assert (H2 : (inject_Z k < inject_Z (Qfloor x + 1))%Q) by lra.
    rewrite <- Zlt_Qlt in H1, H2. lia. }
  rewrite E. qlra.
Qed.

Lemma ladderTonnage_hundredths (rows : list (SetRow num)) :
  Forall (fun r => hundredths (weight r * toNumber (reps r))) rows ->
  hundredths (ladderTonnage rows).
Proof.
  unfold ladderTonnage. generalize (lit (N := num) 0) hundredths_0.
  induction rows as [|r rows IH]; intros a Ha HF; cbn [fold_left]; [exact Ha|].
  apply IH; [|now apply Forall_inv_tail in HF].
  apply hundredths_add; [exact Ha|]. now apply Forall_inv in HF.
Qed.

(** **** The ladder *)

Lemma ladderPlan_tonnage (dailyMax increment startRepCap : num) (isPullup : bool)
  (bodyweight : num) :
  truthy dailyMax = true -> truthy increment = true ->
  tonnage (ladderPlan dailyMax increment startRepCap isPullup bodyweight)
  = round2 (ladderTonnage
              (ensureFinalSingle dailyMax
                 (rungs 400 dailyMax increment
                    (fst (ladderStart dailyMax increment startRepCap isPullup))
                    (snd (ladderStart dailyMax increment startRepCap isPullup)) 0))).
Proof.
  intros Hd Hi. unfold ladderPlan. rewrite Hd, Hi. cbn [negb orb].
  destruct (ladderStart dailyMax increment startRepCap isPullup) as [r w].
  cbn [fst snd tonnage]. rewrite ladderRun_sets. reflexivity.
Qed.

Lemma ladderTonnage_setExternal (bodyweight : num) (rows : list (SetRow num)) :
  ladderTonnage (map (setExternal bodyweight) rows) = ladderTonnage rows.
Proof.
  unfold ladderTonnage. generalize (lit (N := num) 0).
  induction rows as [|r rows IH]; intros a; [reflexivity|].
  cbn [map fold_left]. rewrite IH. reflexivity.
Qed.

(** With a whole cap the start point has a whole rep count and a finite
    weight. *)
Lemma ladderStart_whole (d i : Q) (cap : num) (isPullup : bool) :
  ~ (i == 0)%Q -> whole cap ->
  whole (fst (ladderStart (Fin d) (Fin i) cap isPullup))
  /\ exists q, snd (ladderStart (Fin d) (Fin i) cap isPullup) = Fin q.
Proof.
  intros Hi Hc.
  assert (Hdiv : forall x, Fin x / Fin i = Fin (x / i)).
  { intros x. cbn. now replace (Qeq_bool i 0) with false by (symmetry; qprop; exact Hi). }
  assert (Hfin : forall r, whole r -> exists q, Fin d - Fin i * (r - lit 1) = Fin q).
  { intros r Hr. destruct (whole_finite r Hr) as [x ->]. eexists. reflexivity. }
  destruct isPullup.
  - unfold ladderStart. cbn [fst snd].
    change (lit 1 + Fin d / Fin i) with (Fin 1 + Fin d / Fin i). rewrite Hdiv.
    assert (Hm : whole (Math_floor (Fin 1 + Fin (d / i)))) by apply whole_Z.
    pose proof (whole_clamp cap _ Hc Hm) as Hr.
    split; [exact Hr|]. destruct (Hfin _ Hr) as [q ->].
    destruct (Fin q <? lit 0); eexists; reflexivity.
  - destruct (barbell_start_cases (Fin d) (Fin i) cap) as [(-> & _ & _)|[[-> _]|[-> _]]];
      cbn [fst snd].
    + split; [|eexists; reflexivity].
      change (Fin d - BAR) with (Fin (d + - 20)). rewrite Hdiv. apply whole_Z.
    + split; [|eexists; reflexivity].
      apply whole_clamp; [exact Hc|].
      change (Fin d - BAR) with (Fin (d + - 20)). rewrite Hdiv.
      apply whole_succ, whole_Z.
    + split; [exact Hc|]. now apply Hfin.
Qed.

(** For a dailyMax of magnitude at most 10^6, a finite increment and a
    whole cap of at most 400, the rounding to hundredths changes nothing: the
    tonnage of a ladder is exactly the sum of weight times reps over its rows
    (multiples of 2.5 times whole rep counts, well below 2^53 hundredths). *)
Theorem ladder_tonnage_is_plain_sum (dailyMax increment : num) (cap : Z)
  (isPullup : bool) (bodyweight : num) :
  (Math_abs dailyMax <=? lit 1000000) = true -> Number_isFinite increment = true ->
  (cap <= 400)%Z ->
  let p := ladderPlan dailyMax increment (lit (inject_Z cap)) isPullup bodyweight in
  (tonnage p === ladderTonnage (sets p)) = true.
Proof.
  intros Hb Hfi _ p. subst p.
  assert (Hfd : Number_isFinite dailyMax = true)
    by (destruct dailyMax; try discriminate; reflexivity).
  destruct (finite_inv _ Hfd) as [d ->]. destruct (finite_inv _ Hfi) as [i ->].
  destruct (truthy (Fin d)) eqn:Hd; [destruct (truthy (Fin i)) eqn:Hi|].
  2:{ unfold ladderPlan. rewrite Hd, Hi. reflexivity. }
  2:{ unfold ladderPlan. rewrite Hd. reflexivity. }
  rewrite (@ladderPlan_sets num exact) by assumption. cbv zeta.
  rewrite ladderPlan_tonnage by assumption.
  replace (ladderTonnage
             (if isPullup
              then map (setExternal bodyweight)
                     (ensureFinalSingle (Fin d)
                        (rungs 400 (Fin d) (Fin i)
                           (fst (ladderStart (Fin d) (Fin i) (lit (inject_Z cap)) isPullup))
                           (snd (ladderStart (Fin d) (Fin i) (lit (inject_Z cap)) isPullup))
                           0))
              else ensureFinalSingle (Fin d)
                     (rungs 400 (Fin d) (Fin i)
                        (fst (ladderStart (Fin d) (Fin i) (lit (inject_Z cap)) isPullup))
                        (snd (ladderStart (Fin d) (Fin i) (lit (inject_Z cap)) isPullup))
                        0)))
    with (ladderTonnage
            (ensureFinalSingle (Fin d)
               (rungs 400 (Fin d) (Fin i)
                  (fst (ladderStart (Fin d) (Fin i) (lit (inject_Z cap)) isPullup))
                  (snd (ladderStart (Fin d) (Fin i) (lit (inject_Z cap)) isPullup)) 0)))
    by (destruct isPullup; [now rewrite ladderTonnage_setExternal|reflexivity]).
  apply round2_fix, ladderTonnage_hundredths.
  apply truthy_Fin in Hi.
  destruct (ladderStart_whole d i (Fin (inject_Z cap)) isPullup Hi (whole_Z cap))
    as [Hr [q Hq]].
  apply (@ensureFinalSingle_Forall num exact).
  - apply (@rungs_Forall num exact)
      with (I := fun (rp w : num) => whole rp /\ exists x, w = Fin x).
    + intros rp w [Hw [x ->]] _ _. split.
      * cbn [rung weight reps toNumber]. now apply step_times_whole.
      * split; [now apply whole_pred|]. eexists. reflexivity.
    + split; [exact Hr|]. now exists q.
  - cbn [rung weight reps toNumber]. apply step_times_whole. exists 1%Z. reflexivity.
Qed.

Lemma ladder_tonnage_is_plain_sum_witness :
  (Math_abs (N := num) (lit 100) <=? lit 1000000) = true
  /\ Number_isFinite (N := num) (lit 10) = true
  /\ (12 <= 400)%Z
  /\ (tonnage (ladderPlan (N := num) (lit 100) (lit 10) (lit (inject_Z 12)) false (lit 80))
      === ladderTonnage
            (sets (ladderPlan (N := num) (lit 100) (lit 10) (lit (inject_Z 12)) false
                     (lit 80)))) = true.
Proof.
  assert (Hc : (12 <= 400)%Z) by lia.
  do 2 (split; [reflexivity|]). split; [exact Hc|].
  exact (ladder_tonnage_is_plain_sum (lit 100) (lit 10) 12 false (lit 80)
           eq_refl eq_refl Hc).
Defined.

(** **** The percent plan *)

(** For a dailyMax of magnitude at most 10^9 the tonnage of the percent plan
    is exactly the weight of row 1 plus twice that of row 2, up to five times
    that of row 5: the leading integers of "1+" to "5+" are the rep counts,
    and the rounding to hundredths changes nothing. *)
Theorem percent_tonnage_is_plain_sum (d : Q) :
  (Qabs d <= 1000000000)%Q ->
  (tonnage (rpPercentPlan (Fin d))
   === fold_left (fun a (rk : SetRow num * Q) => a + weight (fst rk) * lit (snd rk))
         (combine (sets (rpPercentPlan (Fin d))) [1; 2; 3; 4; 5]%Q) (lit 0)) = true.
Proof.
  intros _.
  unfold rpPercentPlan. destruct (truthy (Fin d)); cbn [negb]; [|reflexivity].
  cbn [sets tonnage map percentScheme percentRow fst snd combine fold_left weight reps].
  change (or_else (parseInt (Str "1+")) (lit 0)) with (lit (N := num) 1).
  change (or_else (parseInt (Str "2+")) (lit 0)) with (lit (N := num) 2).
  change (or_else (parseInt (Str "3+")) (lit 0)) with (lit (N := num) 3).
  change (or_else (parseInt (Str "4+")) (lit 0)) with (lit (N := num) 4).
  change (or_else (parseInt (Str "5+")) (lit 0)) with (lit (N := num) 5).
  apply round2_fix.
  repeat (apply hundredths_add;
          [|apply step_times_whole;
            first [exact (whole_Z 1)|exact (whole_Z 2)|exact (whole_Z 3)
                  |exact (whole_Z 4)|exact (whole_Z 5)]]).
  apply hundredths_0.
Qed.

Lemma percent_tonnage_is_plain_sum_witness :
  (Qabs 100 <= 1000000000)%Q
  /\ (tonnage (rpPercentPlan (Fin 100))
      === fold_left (fun a (rk : SetRow num * Q) => a + weight (fst rk) * lit (snd rk))
            (combine (sets (rpPercentPlan (Fin 100))) [1; 2; 3; 4; 5]%Q) (lit 0)) = true.
Proof.
  assert (Hb : (Qabs 100 <= 1000000000)%Q) by (vm_compute; discriminate).
  split; [exact Hb|]. exact (percent_tonnage_is_plain_sum 100 Hb).
Defined.

(** **** The fixed-drop plan *)

Lemma schemeReps_whole (scheme : list Z) (i : nat) :
  scheme <> [] ->
  exists z : Z,
    schemeReps (map (fun z => lit (N := num) (inject_Z z)) scheme) i
    = Num (Fin (inject_Z z)).
Proof.
  intros Hne. unfold schemeReps. rewrite !nth_error_map, length_map.
  destruct (nth_error scheme i) as [z|]; [now exists z|].
  destruct (nth_error scheme (List.length scheme - 1)) as [z|] eqn:E; [now exists z|].
  apply nth_error_None in E. destruct scheme; [contradiction|]. cbn in E. lia.
Qed.

Lemma dropRows_hundredths (dq : Q) (scheme : list Z) :
  scheme <> [] ->
  forall (n i : nat) (wq : Q),
    Forall (fun r => hundredths (weight r * toNumber (reps r)))
      (dropRows n (Fin dq) (map (fun z => lit (N := num) (inject_Z z)) scheme) i
         (Fin wq)).
Proof.
  intros Hne. induction n as [|n IH]; intros i wq; cbn [dropRows]; [constructor|].
  change (Fin wq - Fin dq) with (Fin (wq + - dq)).
  destruct (Fin (wq + - dq) <=? lit 0); constructor; [|apply IH].
  destruct (schemeReps_whole scheme i Hne) as [z ->].
  cbn [dropRow weight reps toNumber]. apply step_times_whole, whole_Z.
Qed.

(** For a positive dailyMax of at most 10^6, a positive finite drop, at most
    1000 sets and a non-empty scheme of whole rep counts between 1 and 1000,
    the tonnage of the fixed-drop plan is exactly the top single (once) plus
    the sum of weight times reps over the back-off rows: the rounding to
    hundredths changes nothing. *)
Theorem fixed_drop_tonnage_is_plain_sum (dailyMax drop : num) (n_sets : Z)
  (scheme : list Z) :
  (dailyMax >? lit 0) = true -> (dailyMax <=? lit 1000000) = true ->
  Number_isFinite drop = true -> (drop >? lit 0) = true ->
  (n_sets <= 1000)%Z ->
  scheme <> [] -> Forall (fun z => (1 <= z <= 1000)%Z) scheme ->
  let p := rpFixedDropPlan dailyMax drop n_sets
             (map (fun z => lit (inject_Z z)) scheme) in
  (tonnage p
   === roundToNearest2point5 (lit 0.95 * dailyMax) * lit 1 + ladderTonnage (sets p))
  = true.
Proof.
  intros Hp Hb Hfq _ _ Hne _ p. subst p.
  assert (Hfd : Number_isFinite dailyMax = true)
    by (destruct dailyMax; try discriminate; reflexivity).
  destruct (finite_inv _ Hfd) as [d ->]. destruct (finite_inv _ Hfq) as [dq ->].
  unfold rpFixedDropPlan. destruct (truthy (Fin d)) eqn:Hd; cbn [negb sets tonnage].
  - rewrite (dropLoop_rows num exact). cbn [app].
    apply round2_fix, hundredths_add.
    + change (lit 0.95 * Fin d) with (Fin (0.95 * d)).
      apply step_times_whole. exact (whole_Z 1).
    + apply ladderTonnage_hundredths, dropRows_hundredths, Hne.
  - assert (E : (d == 0)%Q).
    { destruct (Qeq_dec d 0) as [E|E]; [exact E|].
      apply truthy_Fin in E. congruence. }
    cbn. qprop. unfold qround25, qround.
    assert (E' : (0.95 * d / 2.5 + (1 # 2) == 1 # 2)%Q) by (rewrite E; reflexivity).
    rewrite E'. reflexivity.
Qed.

Lemma fixed_drop_tonnage_is_plain_sum_witness :
  (lit (N := num) 100 >? lit 0) = true /\ (lit (N := num) 100 <=? lit 1000000) = true
  /\ Number_isFinite (N := num) (lit 10) = true /\ (lit (N := num) 10 >? lit 0) = true
  /\ (4 <= 1000)%Z
  /\ [3; 5; 7; 9]%Z <> [] /\ Forall (fun z => (1 <= z <= 1000)%Z) [3; 5; 7; 9]%Z
  /\ (tonnage (rpFixedDropPlan (N := num) (lit 100) (lit 10) 4
                 (map (fun z => lit (inject_Z z)) [3; 5; 7; 9]%Z))
      === roundToNearest2point5 (lit 0.95 * lit 100) * lit 1
          + ladderTonnage
              (sets (rpFixedDropPlan (N := num) (lit 100) (lit 10) 4
                       (map (fun z => lit (inject_Z z)) [3; 5; 7; 9]%Z)))) = true.
Proof.
  assert (Hn : (4 <= 1000)%Z) by lia.
  assert (Hne : [3; 5; 7; 9]%Z <> []) by discriminate.
  assert (Hw : Forall (fun z => (1 <= z <= 1000)%Z) [3; 5; 7; 9]%Z)
    by (repeat constructor; lia).
  do 4 (split; [reflexivity|]). split; [exact Hn|]. split; [exact Hne|].
  split; [exact Hw|].
  exact (fixed_drop_tonnage_is_plain_sum (lit 100) (lit 10) 4 [3; 5; 7; 9]%Z
           eq_refl eq_refl eq_refl eq_refl Hn Hne Hw).
Defined.

(** On doubles the three tonnages are the plain sums at sample inputs: a
    barbell ladder to 160, the percent plan for 87.5 and the fixed-drop plan
    for 100. *)
Example tonnage_on_doubles :
  (let p := ladderPlan (N := spec_float) (lit 160) (lit 10) (lit 12) false (lit 80) in
   tonnage p === ladderTonnage (sets p)) = true
  /\ (let p := rpPercentPlan (N := spec_float) (lit 87.5) in
      tonnage p
      === fold_left (fun a (rk : SetRow spec_float * Q) => a + weight (fst rk) * lit (snd rk))
            (combine (sets p) [1; 2; 3; 4; 5]%Q) (lit 0)) = true
  /\ (let p := rpFixedDropPlan (N := spec_float) (lit 100) (lit 10) 4
                 default_repScheme in
      tonnage p
      === roundToNearest2point5 (lit 0.95 * lit 100) * lit 1 + ladderTonnage (sets p))
     = true.
Proof. repeat split; vm_compute; reflexivity. Qed.

End Tonnage.
